(** * Cookie-AutoDelete: the background script (src/background.ts)

    A shallow embedding of the background script of the extension: the
    module variables ([store], [currentSettings], [delaySave],
    [cookiePopupPorts]), the listeners it registers with the browser, and
    the handlers it runs when the browser or the redux store calls back.

    Conventions.
    - A handler is a function of the module's state (a [World]) that
      yields the calls it makes into the browser API and into the other
      modules of the extension (its [effects], in program order), the
      state it leaves behind and how it completes: it returns, it throws,
      or it is still polling in [awaitStore].
    - An [async] handler is run to its end: the promises it awaits
      resolve with the answers of the [Browser] record, and no other
      handler runs in between.
    - [store.dispatch(a)] is the call and the state the store holds
      afterwards ([reduce]). The calls the store then makes to its
      subscribers, the timeouts that fire and the browser events are
      events of their own ([Event], [react]); the invariants are proved
      over every sequence of them. So the effects of a handler are the
      calls of its own statements: what a subscriber does when the
      handler dispatches is in the subscriber's run, not in the
      handler's.
    - A setting that is read without a guard and is not there is a
      [TypeError], as in JavaScript; the number of a setting is an
      integer here.
    - What this file imports from the other modules of the extension
      (./redux, ./services/Libs, the typings) is not part of the file; it
      is the interface [Typings] and [Collaborators], over which
      everything is stated. [Sample] is one instance, to run the handlers
      on.

    Contents: the model of the script; the sample; the definitions the
    properties are stated with; lemmas on runs; the properties, C1 to
    C10, each with the lemmas it needs; further properties of the same
    handlers, X1 to X23; the properties at work on the sample. *)

From Stdlib Require Import ZArith String Ascii List Bool Lia.
From stdpp Require Import base option list strings gmap.

Import ListNotations.
Local Open Scope Z_scope.

(** ** JavaScript values and strings *)

(** The value of a setting: [boolean | number | string]. *)
Inductive JSValue : Type :=
| JBool (b : bool)
| JNum (n : Z)
| JStr (s : string).

#[global] Instance JSValue_eq_dec : EqDecision JSValue.
Proof. solve_decision. Defined.

(** ToBoolean: [false], [0] and the empty string are falsy. *)
Definition truthy (v : JSValue) : bool :=
  match v with
  | JBool b => b
  | JNum n => negb (n =? 0)
  | JStr s => negb (String.eqb s "")
  end.

(** [a === b] on primitive values. *)
Definition strict_eq (a b : JSValue) : bool := bool_decide (a = b).

(** A string used as a condition ([!p.name], [if (storage.state)]). *)
Definition nonempty (s : string) : bool := negb (String.eqb s "").

(** [s.startsWith(p)] *)
Fixpoint startsWith (s p : string) {struct p} : bool :=
  match p with
  | EmptyString => true
  | String c p' =>
      match s with
      | EmptyString => false
      | String d s' => Ascii.eqb c d && startsWith s' p'
      end
  end.

(** [s.slice(n)] for [n >= 0]: the string without its first [n] units. *)
Fixpoint slice (n : nat) (s : string) : string :=
  match n with
  | O => s
  | S n' => match s with EmptyString => EmptyString | String _ s' => slice n' s' end
  end.

(** [s.split(sep)[0]] for a one-character separator: the text before the
    first separator, the whole string when there is none. *)
Fixpoint split_first (sep : ascii) (s : string) : string :=
  match s with
  | EmptyString => EmptyString
  | String c s' => if Ascii.eqb c sep then EmptyString else String c (split_first sep s')
  end.

(** [s.endsWith(t)]: the last [length t] units of [s] are [t]. *)
Definition endsWith (s t : string) : bool :=
  (String.length t <=? String.length s)%nat
  && String.eqb (String.substring (String.length s - String.length t) (String.length t) s) t.

(** [s] without the prefix [p], when [s] starts with it. *)
Fixpoint after_prefix (p s : string) {struct p} : option string :=
  match p, s with
  | EmptyString, _ => Some s
  | String c p', String d s' => if Ascii.eqb c d then after_prefix p' s' else None
  | String _ _, EmptyString => None
  end.

(** ** Data of the browser API *)

(** [browser.runtime.Port]: the object ([id], its identity) and the name
    the popup gave it; [None] is a missing name. *)
Module Port.
Record t : Type := mk { id : nat; name : option string }.
End Port.

#[global] Instance Port_eq_dec : EqDecision Port.t.
Proof. solve_decision. Defined.

(** [browser.tabs.Tab]; [url] is optional in the API. *)
Module Tab.
Record t : Type := mk { url : option string }.
End Tab.

(** The argument of a [cookies.onChanged] listener. *)
Record ChangeInfo : Type := {
  removed : bool;
  cookie_domain : string;      (* changeInfo.cookie.domain *)
  cause : string
}.

(** The argument of a [runtime.onInstalled] listener. *)
Record InstalledDetails : Type := {
  reason : string;
  previousVersion : option string
}.

(** What the browser answers when the script asks. *)
Record Browser : Type := {
  manifest_name : string;                 (* runtime.getManifest().name *)
  manifest_version : string;
  storage_local : gmap string string;     (* storage.local.get() *)
  browserDetect : JSValue;                (* browserDetect() *)
  browserInfo_version : string;           (* runtime.getBrowserInfo().version *)
  platformInfo_os : string;               (* runtime.getPlatformInfo().os *)
  contextMenus : bool;                    (* browser.contextMenus is defined *)
  tabs_normal : list Tab.t;               (* tabs.query({windowType: 'normal'}) *)
  contextualIdentities : list string      (* cookieStoreId of contextualIdentities.query({}) *)
}.

(** A setting of the redux state: [{ name, value }]. *)
Record Setting : Type := { name : string; value : JSValue }.

#[global] Instance Setting_eq_dec : EqDecision Setting.
Proof. solve_decision. Defined.

(** ** The typings and modules the script imports *)

(** The enums of ./typings that the script mentions, with the members it
    names. *)
Class Typings : Type := {
  SiteDataType : Type;
  SiteDataType_eq_dec :: EqDecision SiteDataType;
  LOCALSTORAGE : SiteDataType;        (* SiteDataType.LOCALSTORAGE *)
  ListType : Type;
  ListType_eq_dec :: EqDecision ListType;
  GREY : ListType;
  WHITE : ListType
}.

Section Typed.
Context {T : Typings}.

(** An expression of an allow/deny list, with the fields the script reads
    or writes: it tests [cleanLocalStorage] and [cleanSiteData], and a
    default expression is written with the other four. An optional field
    is [None] when absent. *)
Record Expression : Type := {
  expression : string;
  cleanLocalStorage : option bool;
  cleanSiteData : option (list SiteDataType);
  listType : ListType;
  storeId : string
}.

(** What [store.dispatch] is given: the plain actions of [ReduxConstants]
    and the thunks of ./redux/Actions. *)
Inductive Action : Type :=
| ON_STARTUP
| ADD_CACHE (key : string) (val : JSValue)
| UPDATE_SETTING (payload : Setting)
| UPDATE_EXPRESSION (payload : Expression)
| ADD_EXPRESSION (payload : Expression)
| RESET_COOKIE_DELETED_COUNTER
| validateSettings
| cacheCookieStoreIdNames
| cookieCleanup (greyCleanup : bool) (ignoreOpenTabs : JSValue).

End Typed.

(** The redux state, and the functions of the other modules and of JSON
    that the script calls. [reduce a st] is the state the store holds when
    [store.dispatch(a)] returns. *)
Class Collaborators {T : Typings} : Type := {
  State : Type;                                         (* the redux state *)
  Json : Type;                                          (* what JSON.parse returns *)
  settings : State -> gmap string Setting;              (* state.settings *)
  lists : State -> list (string * list Expression);     (* state.lists, in key order *)
  createStore : Json -> State;
  reduce : Action -> State -> State;
  getSetting : State -> string -> JSValue;
  convertVersionToNumber : option string -> Z;
  extractMainDomain : string -> string;
  siteDataToBrowser : SiteDataType -> string;
  SITEDATATYPES : list SiteDataType;
  ListType_text : ListType -> string;                   (* `${lt}` *)
  toLowerCase : string -> string;
  browserName_Firefox : JSValue;
  JSON_parse : string -> option Json;                   (* None: it throws *)
  JSON_stringify : State -> string;
  emptyObject : Json                                    (* {} *)
}.

Section Background.
Context {T : Typings} {C : Collaborators}.

(** ** Calls out of the script *)

(** The messages the script logs through [cadLog]. *)
Inductive LogMessage : Type :=
| Log_siteDataActivated (siteData : SiteDataType)   (* info, line 66 *)
| Log_unexpectedPopupMessage (m : Json)             (* warn, line 263 *)
| Log_onStartUpExecuted                             (* info, line 295 *)
| Log_sessionRestoreFound                           (* info, line 316 *)
| Log_greyListCleanupDisabled                       (* info, line 326 *)
| Log_greyCleanupDispatching.                       (* line 428 *)

(** The only message the script posts to a popup: [{ cookieUpdated: true }]. *)
Inductive PortMessage : Type := cookieUpdated (b : bool).

(** A call into the browser API or into another module of the extension,
    with its arguments. *)
Inductive Effect : Type :=
| browserAction_setTitle (title : string)
| storage_local_get
| storage_local_set (state : string)
| browsingData_remove (since : Z) (dataType : string)
| alarms_clear (alarm : string)
| runtime_openOptionsPage
| runtime_getBrowserInfo
| runtime_getPlatformInfo
| tabs_query
| contextualIdentities_query
| port_postMessage (p : Port.t) (m : PortMessage)
| store_create (preloaded : Json)
| store_dispatch (a : Action)
| StoreUser_init
| setGlobalIcon (enabled : JSValue)
| checkIfProtected (st : State)
| ContextMenuEvents_updateMenuItemCheckbox (checked : JSValue)
| ContextMenuEvents_menuInit
| ContextMenuEvents_menuClear
| cadLog (m : LogMessage) (debug : JSValue)
| sleep (ms : Z)
| listener_of_collaborator (l : string).

(** The actions dispatched among the effects, in order. *)
Definition dispatches (es : list Effect) : list Action :=
  omap (fun e => match e with store_dispatch a => Some a | _ => None end) es.

(** ** The state of the module *)

(** The browser events the script listens to. *)
Inductive Target : Type :=
| tabs_onUpdated
| tabs_onRemoved
| cookies_onChanged
| runtime_onConnect
| runtime_onStartup
| runtime_onInstalled
| port_onMessage (p : Port.t)
| port_onDisconnect (p : Port.t).

(** The functions it registers: five of TabEvents, one of CookieEvents and
    the six this file defines. *)
Inductive Listener : Type :=
| TabEvents_onDomainChange
| TabEvents_onTabDiscarded
| TabEvents_onTabUpdate
| TabEvents_onDomainChangeRemove
| TabEvents_cleanFromTabEvents
| CookieEvents_onCookieChanged
| the_handleConnect
| the_onCookiePopupUpdates
| the_onStartup_listener          (* line 301 *)
| the_onInstalled_listener        (* line 335 *)
| the_port_onMessage_listener     (* line 260 *)
| the_port_onDisconnect_listener. (* line 270 *)

#[global] Instance Target_eq_dec : EqDecision Target.
Proof. solve_decision. Defined.
#[global] Instance Listener_eq_dec : EqDecision Listener.
Proof. solve_decision. Defined.

(** The functions subscribed to the store, and the callbacks given to
    [setTimeout]. *)
Inductive Subscriber : Type := the_onSettingsChange | the_saveToStorage.
Inductive Timer : Type := save_timer (ms : Z).

Record World : Type := {
  store : option State;                          (* let store *)
  currentSettings : option (gmap string Setting);(* let currentSettings *)
  delaySave : bool;                              (* let delaySave = false *)
  cookiePopupPorts : list Port.t;                (* const cookiePopupPorts = [] *)
  listeners : list (Target * Listener);          (* addListener, in order *)
  subscribers : list Subscriber;                 (* store.subscribe, in order *)
  timers : list Timer                            (* setTimeout, not yet fired *)
}.

(** The module variables as their declarations leave them. *)
Definition module_start : World :=
  {| store := None; currentSettings := None; delaySave := false;
     cookiePopupPorts := []; listeners := []; subscribers := []; timers := [] |}.

Definition with_store (s : option State) (w : World) : World :=
  {| store := s; currentSettings := currentSettings w; delaySave := delaySave w;
     cookiePopupPorts := cookiePopupPorts w; listeners := listeners w;
     subscribers := subscribers w; timers := timers w |}.
Definition with_currentSettings (s : option (gmap string Setting)) (w : World) : World :=
  {| store := store w; currentSettings := s; delaySave := delaySave w;
     cookiePopupPorts := cookiePopupPorts w; listeners := listeners w;
     subscribers := subscribers w; timers := timers w |}.
Definition with_delaySave (d : bool) (w : World) : World :=
  {| store := store w; currentSettings := currentSettings w; delaySave := d;
     cookiePopupPorts := cookiePopupPorts w; listeners := listeners w;
     subscribers := subscribers w; timers := timers w |}.
Definition with_cookiePopupPorts (ps : list Port.t) (w : World) : World :=
  {| store := store w; currentSettings := currentSettings w; delaySave := delaySave w;
     cookiePopupPorts := ps; listeners := listeners w;
     subscribers := subscribers w; timers := timers w |}.
Definition with_listeners (ls : list (Target * Listener)) (w : World) : World :=
  {| store := store w; currentSettings := currentSettings w; delaySave := delaySave w;
     cookiePopupPorts := cookiePopupPorts w; listeners := ls;
     subscribers := subscribers w; timers := timers w |}.
Definition with_subscribers (ss : list Subscriber) (w : World) : World :=
  {| store := store w; currentSettings := currentSettings w; delaySave := delaySave w;
     cookiePopupPorts := cookiePopupPorts w; listeners := listeners w;
     subscribers := ss; timers := timers w |}.
Definition with_timers (ts : list Timer) (w : World) : World :=
  {| store := store w; currentSettings := currentSettings w; delaySave := delaySave w;
     cookiePopupPorts := cookiePopupPorts w; listeners := listeners w;
     subscribers := subscribers w; timers := ts |}.

(** ** Running a handler *)

Inductive JSError : Type := TypeError (what : string).

Inductive Completion (A : Type) : Type :=
| Returned (a : A)
| Thrown (e : JSError)
| Polling.                    (* awaitStore has not seen the store yet *)
Arguments Returned {A} a.
Arguments Thrown {A} e.
Arguments Polling {A}.

Record Run (A : Type) : Type := {
  effects : list Effect;
  final : World;
  completion : Completion A
}.
Arguments effects {A} r.
Arguments final {A} r.
Arguments completion {A} r.

Definition M (A : Type) : Type := World -> Run A.

Definition ret {A} (a : A) : M A :=
  fun w => {| effects := []; final := w; completion := Returned a |}.

Definition throw {A} (e : JSError) : M A :=
  fun w => {| effects := []; final := w; completion := Thrown e |}.

Definition bind {A B} (m : M A) (k : A -> M B) : M B :=
  fun w =>
    match m w with
    | {| effects := es; final := w'; completion := c |} =>
        match c with
        | Returned a =>
            match k a w' with
            | {| effects := es'; final := w''; completion := c' |} =>
                {| effects := es ++ es'; final := w''; completion := c' |}
            end
        | Thrown e => {| effects := es; final := w'; completion := Thrown e |}
        | Polling => {| effects := es; final := w'; completion := Polling |}
        end
    end.

End Background.

Arguments Returned {A} a.
Arguments Thrown {A} e.
Arguments Polling {A}.
Arguments effects {T C A} r.
Arguments final {T C A} r.
Arguments completion {T C A} r.

Notation "x <- m ;; k" := (bind m (fun x => k))
  (at level 100, m at next level, right associativity,
   format "'[v' x  <-  m  ;; '/' k ']'").
Notation "m ;; k" := (bind m (fun _ => k))
  (at level 100, right associativity, format "'[v' m  ;; '/' k ']'").

Section Handlers.
Context {T : Typings} {C : Collaborators}.

(** *** Statements *)

Definition call (e : Effect) : M unit :=
  fun w => {| effects := [e]; final := w; completion := Returned tt |}.

Definition read {A} (f : World -> A) : M A := fun w => ret (f w) w.

Definition write (f : World -> World) : M unit := fun w => ret tt (f w).

(** [store.getState()]; a [TypeError] while [store] is undefined. *)
Definition getState : M State :=
  fun w =>
    match store w with
    | Some st => ret st w
    | None => throw (TypeError "store") w
    end.

(** [store.dispatch(a)] as this file sees it: the call, and the state of
    the store when it returns. *)
Definition dispatch (a : Action) : M unit :=
  fun w =>
    match store w with
    | Some st =>
        {| effects := [store_dispatch a];
           final := with_store (Some (reduce a st)) w;
           completion := Returned tt |}
    | None => throw (TypeError "store") w
    end.

(** [store.subscribe(f)] *)
Definition subscribe (f : Subscriber) : M unit :=
  fun w =>
    match store w with
    | Some _ => ret tt (with_subscribers (subscribers w ++ [f]) w)
    | None => throw (TypeError "store") w
    end.

Definition when (c : bool) (m : M unit) : M unit := if c then m else ret tt.

(** [for (const x of l)] and [l.forEach] *)
Fixpoint for_each {A} (l : list A) (body : A -> M unit) : M unit :=
  match l with
  | [] => ret tt
  | x :: l' => body x ;; for_each l' body
  end.

(** [a && b] and [a || b] evaluate [b] only when [a] does not decide. *)
Definition and_then (a b : M bool) : M bool := x <- a ;; if x then b else ret false.
Definition or_else (a b : M bool) : M bool := x <- a ;; if x then ret true else b.

(** [o === undefined] *)
Definition undefined {A} (o : option A) : bool :=
  match o with None => true | Some _ => false end.

(** [o.value]: a [TypeError] when the setting [o] is undefined. *)
Definition deref (what : string) (o : option Setting) : M JSValue :=
  match o with
  | Some s => ret (value s)
  | None => throw (TypeError what)
  end.

(** [currentSettings[k]], read from the module variable, and its value. *)
Definition current (k : string) : M (option Setting) :=
  cs <- read currentSettings ;;
  match cs with
  | Some s => ret (s !! k)
  | None => throw (TypeError "currentSettings")
  end.

Definition current_value (k : string) : M JSValue := o <- current k ;; deref k o.

Definition previous_value (previousSettings : gmap string Setting) (k : string) : M JSValue :=
  deref k (previousSettings !! k).

(** *** Listeners of browser events *)

Definition hasListener (t : Target) (l : Listener) (w : World) : bool :=
  bool_decide ((t, l) ∈ listeners w).

Definition addListener (t : Target) (l : Listener) : M unit :=
  write (fun w => with_listeners (listeners w ++ [(t, l)]) w).

Definition removeListener (t : Target) (l : Listener) : M unit :=
  write (fun w => with_listeners (filter (fun r => r <> (t, l)) (listeners w)) w).

(** *** saveToStorage (lines 42-54) *)

(** The function given to [setTimeout] at line 47. *)
Definition save_timer_fires : M unit :=
  write (with_delaySave false) ;;
  st <- getState ;;
  call (storage_local_set (JSON_stringify st)).

Definition saveToStorage : M unit :=
  d <- read delaySave ;;
  if negb d then
    write (with_delaySave true) ;;
    write (fun w => with_timers (timers w ++ [save_timer 1000]) w)
  else ret tt.

(** *** browsingDataCleanup (lines 56-71) *)

Definition browsingDataCleanup (siteData : SiteDataType) (debug : JSValue) : M unit :=
  call (browsingData_remove 0 (siteDataToBrowser siteData)) ;;
  call (cadLog (Log_siteDataActivated siteData) debug).

(** *** onSettingsChange (lines 73-148), one definition per block *)

(** Container Mode enabled (lines 76-82). *)
Definition containerModeEnabled (previousSettings : gmap string Setting) : M unit :=
  c <- and_then
         (v <- previous_value previousSettings "contextualIdentities" ;; ret (negb (truthy v)))
         (v <- current_value "contextualIdentities" ;; ret (truthy v)) ;;
  when c (dispatch cacheCookieStoreIdNames).

(** The body of the loop of the BrowsingData Settings Check (lines 86-104). *)
Definition browsingDataSettingCheck
    (previousSettings : gmap string Setting) (siteData : SiteDataType) : M unit :=
  let sd := siteDataToBrowser siteData +:+ "Cleanup" in
  c <- and_then
         (or_else (ret (undefined (previousSettings !! sd)))
                  (v <- previous_value previousSettings sd ;; ret (negb (truthy v))))
         (v <- current_value sd ;; ret (truthy v)) ;;
  if c then
    skip <- and_then (ret (bool_decide (siteData = LOCALSTORAGE)))
              (and_then (ret (negb (undefined (previousSettings !! "localstorageCleanup"))))
                        (v <- previous_value previousSettings "localstorageCleanup" ;;
                         ret (truthy v))) ;;
    if skip then ret tt                                   (* continue *)
    else
      debug <- current_value "debugMode" ;;
      browsingDataCleanup siteData debug
  else ret tt.

(** Lines 107-117: the alarm, the icon and the menu checkbox of Active Mode. *)
Definition activeModeChanges (previousSettings : gmap string Setting) : M unit :=
  off <- and_then
           (v <- previous_value previousSettings "activeMode" ;; ret (truthy v))
           (v <- current_value "activeMode" ;; ret (negb (truthy v))) ;;
  when off (call (alarms_clear "activeModeAlarm")) ;;
  p <- previous_value previousSettings "activeMode" ;;
  c <- current_value "activeMode" ;;
  if negb (strict_eq p c) then
    v <- current_value "activeMode" ;;
    call (setGlobalIcon v) ;;
    v' <- current_value "activeMode" ;;
    call (ContextMenuEvents_updateMenuItemCheckbox v')    (* MenuID.ACTIVE_MODE *)
  else ret tt.

(** Context Menu Changes (lines 119-128). *)
Definition contextMenuChanges (previousSettings : gmap string Setting) : M unit :=
  p <- previous_value previousSettings "contextMenus" ;;
  c <- current_value "contextMenus" ;;
  if negb (strict_eq p c) then
    v <- current_value "contextMenus" ;;
    if truthy v then call ContextMenuEvents_menuInit
    else call ContextMenuEvents_menuClear
  else ret tt.

(** Deprecated Settings adjustments (lines 130-142). *)
Definition deprecatedSettingsAdjustments (previousSettings : gmap string Setting) : M unit :=
  p <- previous_value previousSettings "localStorageCleanup" ;;
  c <- current_value "localStorageCleanup" ;;
  if negb (strict_eq p c) then
    v <- current_value "localStorageCleanup" ;;
    dispatch (UPDATE_SETTING {| name := "localstorageCleanup"; value := v |})
  else ret tt.

Definition onSettingsChange : M unit :=
  previous <- read currentSettings ;;
  st <- getState ;;
  write (with_currentSettings (Some (settings st))) ;;
  match previous with
  | None => throw (TypeError "previousSettings")  (* line 78 reads a field of undefined *)
  | Some previousSettings =>
      containerModeEnabled previousSettings ;;
      for_each SITEDATATYPES (browsingDataSettingCheck previousSettings) ;;
      activeModeChanges previousSettings ;;
      contextMenuChanges previousSettings ;;
      deprecatedSettingsAdjustments previousSettings ;;
      st' <- getState ;;
      call (checkIfProtected st') ;;
      dispatch validateSettings
  end.

(** *** onStartUp (lines 150-234) *)

(** Lines 156-165: the state read from storage, [{}] when there is none
    or [JSON.parse] throws. *)
Definition stateFromStorage (storage : gmap string string) : Json :=
  let tried : option Json :=               (* try { ... }: None when it throws *)
    match storage !! "state" with
    | Some state => if nonempty state then JSON_parse state else Some emptyObject
    | None => Some emptyObject
    end in
  match tried with
  | Some parsed => parsed
  | None => emptyObject                    (* catch (err) *)
  end.

(** Up to the first [await] (lines 151-155). *)
Definition onStartUp_begins (b : Browser) : M unit :=
  call (browserAction_setTitle
          (manifest_name b +:+ " " +:+ manifest_version b +:+ " [STARTING UP...] (0)")) ;;
  call storage_local_get.

(** From the answer of the storage on (lines 155-233). *)
Definition onStartUp_resumes (b : Browser) (storage : gmap string string) : M unit :=
  let stateFromStorage := stateFromStorage storage in
  call (store_create stateFromStorage) ;;
  write (with_store (Some (createStore stateFromStorage))) ;;
  dispatch ON_STARTUP ;;
  (if strict_eq (browserDetect b) browserName_Firefox then
     call runtime_getBrowserInfo ;;
     let browserVersion := split_first "." (browserInfo_version b) in
     dispatch (ADD_CACHE "browserVersion" (JStr browserVersion))
   else ret tt) ;;
  dispatch (ADD_CACHE "browserDetect" (browserDetect b)) ;;
  call runtime_getPlatformInfo ;;
  dispatch (ADD_CACHE "platformOs" (JStr (platformInfo_os b))) ;;
  st <- getState ;;
  when (truthy (getSetting st "contextualIdentities")) (dispatch cacheCookieStoreIdNames) ;;
  st <- getState ;;
  write (with_currentSettings (Some (settings st))) ;;
  subscribe the_onSettingsChange ;;
  subscribe the_saveToStorage ;;
  call StoreUser_init ;;
  dispatch validateSettings ;;
  st <- getState ;;
  call (setGlobalIcon (getSetting st "activeMode")) ;;
  st <- getState ;;
  call (checkIfProtected st) ;;
  addListener tabs_onUpdated TabEvents_onDomainChange ;;
  addListener tabs_onUpdated TabEvents_onTabDiscarded ;;
  addListener tabs_onUpdated TabEvents_onTabUpdate ;;
  addListener tabs_onRemoved TabEvents_onDomainChangeRemove ;;
  addListener tabs_onRemoved TabEvents_cleanFromTabEvents ;;
  addListener cookies_onChanged CookieEvents_onCookieChanged ;;
  when (contextMenus b) (call ContextMenuEvents_menuInit) ;;
  call (browserAction_setTitle
          (manifest_name b +:+ " " +:+ manifest_version b +:+ " [READY] (0)")).

Definition onStartUp (b : Browser) : M unit :=
  onStartUp_begins b ;;
  onStartUp_resumes b (storage_local b).

(** The callback of [onStartUp().then] (lines 292-300). *)
Definition onStartUp_then : M unit :=
  st <- getState ;;
  call (cadLog Log_onStartUpExecuted (getSetting st "debugMode")).

(** *** Popup ports (lines 236-288) *)

Definition onCookiePopupUpdates (changeInfo : ChangeInfo) : M unit :=
  let cDomain := extractMainDomain (cookie_domain changeInfo) in
  ports <- read cookiePopupPorts ;;
  for_each ports (fun p =>
    match Port.name p with
    | None => ret tt                                          (* !p.name *)
    | Some name =>
        if negb (nonempty name) then ret tt                   (* !p.name *)
        else if negb (startsWith name "popupCAD_") then ret tt
        else
          let pn0 := split_first "," (slice 9 name) in
          if endsWith pn0 (cookie_domain changeInfo) || endsWith pn0 cDomain
          then call (port_postMessage p (cookieUpdated true))
          else ret tt
    end).

(** The listener of [p.onMessage] (line 260). *)
Definition port_onMessage_listener (m : Json) : M unit :=
  call (cadLog (Log_unexpectedPopupMessage m) (JBool true)).

(** [cookiePopupPorts.findIndex(f)]; [None] is [-1]. *)
Fixpoint findIndex {A} (f : A -> bool) (l : list A) : option nat :=
  match l with
  | [] => None
  | x :: l' => if f x then Some O else S <$> findIndex f l'
  end.

(** [!p.name] *)
Definition unnamed (p : Port.t) : bool :=
  match Port.name p with
  | None => true
  | Some name => negb (nonempty name)
  end.

(** The listener of [p.onDisconnect] (lines 270-285). *)
Definition port_onDisconnect_listener (dp : Port.t) : M unit :=
  ports <- read cookiePopupPorts ;;
  has <- read (hasListener cookies_onChanged the_onCookiePopupUpdates) ;;
  when ((Z.of_nat (length ports) - 1 =? 0) && has)
       (removeListener cookies_onChanged the_onCookiePopupUpdates) ;;
  if unnamed dp then ret tt
  else
    ports <- read cookiePopupPorts ;;
    let i := findIndex (fun pp => if unnamed pp then false
                                  else bool_decide (Port.name pp = Port.name dp)) ports in
    match i with
    | Some i => write (with_cookiePopupPorts (delete i ports))  (* splice(i, 1) *)
    | None => ret tt
    end.

Definition handleConnect (p : Port.t) : M unit :=
  match Port.name p with
  | None => ret tt
  | Some name =>
      if negb (nonempty name) || negb (startsWith name "popupCAD_") then ret tt
      else
        has <- read (hasListener cookies_onChanged the_onCookiePopupUpdates) ;;
        when (negb has) (addListener cookies_onChanged the_onCookiePopupUpdates) ;;
        addListener (port_onMessage p) the_port_onMessage_listener ;;
        addListener (port_onDisconnect p) the_port_onDisconnect_listener ;;
        call (port_postMessage p (cookieUpdated true)) ;;
        write (fun w => with_cookiePopupPorts (cookiePopupPorts w ++ [p]) w)
  end.

(** *** awaitStore and greyCleanup (lines 418-442) *)

(** [while (!store) await sleep(250)], for at most [polls] rounds. *)
Fixpoint awaitStore (polls : nat) (w : World) {struct polls} : Run unit :=
  match store w with
  | Some _ => ret tt w
  | None =>
      match polls with
      | O => {| effects := []; final := w; completion := Polling |}
      | S polls' => (call (sleep 250) ;; awaitStore polls') w
      end
  end.

Definition greyCleanup : M unit :=
  st <- getState ;;
  if truthy (getSetting st "activeMode") then
    st <- getState ;;
    call (cadLog Log_greyCleanupDispatching (getSetting st "debugMode")) ;;
    st <- getState ;;
    dispatch (cookieCleanup true (getSetting st "cleanCookiesFromOpenTabsOnStartup"))
  else ret tt.

(** *** The listener of runtime.onStartup (lines 301-334) *)

(** Lines 305-309: the flag the [forEach] leaves. *)
Definition isFFSessionRestore (startupTabs : list Tab.t) : bool :=
  fold_left (fun flag tab =>
               if bool_decide (Tab.url tab = Some "about:sessionrestore") then true else flag)
            startupTabs false.

Definition onStartup_listener (polls : nat) (b : Browser) : M unit :=
  awaitStore polls ;;
  st <- getState ;;
  (if strict_eq (getSetting st "activeMode") (JBool true) then
     st <- getState ;;
     if strict_eq (getSetting st "enableGreyListCleanup") (JBool true) then
       call tabs_query ;;
       if negb (isFFSessionRestore (tabs_normal b)) then greyCleanup
       else
         st <- getState ;;
         call (cadLog Log_sessionRestoreFound
                      (JBool (strict_eq (getSetting st "debugMode") (JBool true))))
     else
       st <- getState ;;
       call (cadLog Log_greyListCleanupDisabled
                    (JBool (strict_eq (getSetting st "debugMode") (JBool true))))
   else ret tt) ;;
  st <- getState ;;
  call (checkIfProtected st).

(** *** The listener of runtime.onInstalled (lines 335-416) *)

(** Lines 346-356: the setting localstorageCleanup, under its new name. *)
Definition migrate_localstorageCleanup : M unit :=
  st <- getState ;;
  match settings st !! "localstorageCleanup" with
  | Some _ =>
      st' <- getState ;;
      v <- deref "localstorageCleanup" (settings st' !! "localstorageCleanup") ;;
      dispatch (UPDATE_SETTING {| name := "localStorageCleanup"; value := v |})
  | None => ret tt
  end.

(** [exp.cleanLocalStorage && !exp.cleanSiteData] (line 361) *)
Definition cleanLocalStorage_only (exp : Expression) : bool :=
  match cleanLocalStorage exp with
  | Some true => undefined (cleanSiteData exp)
  | _ => false
  end.

(** [{ ...exp, cleanSiteData: [SiteDataType.LOCALSTORAGE] }] (lines 363-366) *)
Definition with_cleanSiteData (l : list SiteDataType) (exp : Expression) : Expression :=
  {| expression := expression exp;
     cleanLocalStorage := cleanLocalStorage exp;
     cleanSiteData := Some l;
     listType := listType exp;
     storeId := storeId exp |}.

(** Lines 357-371: the option cleanLocalStorage of every expression. *)
Definition migrate_cleanLocalStorage : M unit :=
  st <- getState ;;
  for_each (map snd (lists st)) (fun list =>            (* Object.values(...lists) *)
    for_each list (fun exp =>
      if cleanLocalStorage_only exp then
        dispatch (UPDATE_EXPRESSION (with_cleanSiteData [LOCALSTORAGE] exp))
      else ret tt)).

(** [Set<string>]: [add] keeps the first occurrence, in insertion order. *)
Definition Set_add (x : string) (s : list string) : list string :=
  if bool_decide (x ∈ s) then s else s ++ [x].
Definition Set_of (l : list string) : list string :=
  fold_left (fun s x => Set_add x s) l [].

(** Lines 372-402: a default expression per container, for each list type
    whose "Keep LocalStorage" setting was on. *)
Definition migrate_CleanLocalstorage_defaults (b : Browser) : M unit :=
  for_each [GREY; WHITE] (fun lt =>
    st <- getState ;;
    if truthy (getSetting st (toLowerCase (ListType_text lt) +:+ "CleanLocalstorage")) then
      st <- getState ;;
      let containers := Set_add "default" (Set_of (map fst (lists st))) in
      st <- getState ;;
      containers <-
        (if truthy (getSetting st "contextualIdentities") then
           call contextualIdentities_query ;;
           ret (fold_left (fun s c => Set_add c s) (contextualIdentities b) containers)
         else ret containers) ;;
      for_each containers (fun list =>
        dispatch (ADD_EXPRESSION
                    {| expression := "_Default:" +:+ ListType_text lt;
                       cleanLocalStorage := None;
                       cleanSiteData := Some [LOCALSTORAGE];
                       listType := lt;
                       storeId := list |}))
    else ret tt).

(** [case 'update'] (lines 342-412) *)
Definition onInstalled_update (b : Browser) (details : InstalledDetails) : M unit :=
  dispatch validateSettings ;;
  (if convertVersionToNumber (previousVersion details) <? 350 then
     migrate_localstorageCleanup ;;
     migrate_cleanLocalStorage ;;
     migrate_CleanLocalstorage_defaults b
   else ret tt) ;;
  when (convertVersionToNumber (previousVersion details) <? 300)
       (dispatch RESET_COOKIE_DELETED_COUNTER) ;;
  st <- getState ;;
  when (truthy (getSetting st "enableNewVersionPopup")) (call runtime_openOptionsPage).

Definition onInstalled_listener (polls : nat) (b : Browser) (details : InstalledDetails)
    : M unit :=
  awaitStore polls ;;
  st <- getState ;;
  call (checkIfProtected st) ;;
  if String.eqb (reason details) "install" then call runtime_openOptionsPage
  else if String.eqb (reason details) "update" then onInstalled_update b details
  else ret tt.

(** ** The script as a whole *)

(** The statements of the module, up to the first [await] of [onStartUp]
    (lines 290-335). *)
Definition background_script (b : Browser) : M unit :=
  addListener runtime_onConnect the_handleConnect ;;
  onStartUp_begins b ;;
  addListener runtime_onStartup the_onStartup_listener ;;
  addListener runtime_onInstalled the_onInstalled_listener.

(** What can happen to the loaded script. *)
Inductive Event : Type :=
| Script_loads                                  (* the module is evaluated *)
| Storage_answers                               (* onStartUp goes on, then its .then *)
| Store_notifies                                (* the store calls its subscribers *)
| Store_dispatched (a : Action)                 (* another module dispatches *)
| Timer_fires                                   (* the oldest pending timeout *)
| Tab_updated
| Tab_removed
| Cookie_changed (changeInfo : ChangeInfo)
| Runtime_connect (p : Port.t)
| Runtime_startup
| Runtime_installed (details : InstalledDetails)
| Port_message (p : Port.t) (m : Json)
| Port_disconnect (p : Port.t).

(** The browser event behind an event, if any. *)
Definition target_of (ev : Event) : option Target :=
  match ev with
  | Tab_updated => Some tabs_onUpdated
  | Tab_removed => Some tabs_onRemoved
  | Cookie_changed _ => Some cookies_onChanged
  | Runtime_connect _ => Some runtime_onConnect
  | Runtime_startup => Some runtime_onStartup
  | Runtime_installed _ => Some runtime_onInstalled
  | Port_message p _ => Some (port_onMessage p)
  | Port_disconnect p => Some (port_onDisconnect p)
  | _ => None
  end.

Definition collaborator_name (l : Listener) : string :=
  match l with
  | TabEvents_onDomainChange => "TabEvents.onDomainChange"
  | TabEvents_onTabDiscarded => "TabEvents.onTabDiscarded"
  | TabEvents_onTabUpdate => "TabEvents.onTabUpdate"
  | TabEvents_onDomainChangeRemove => "TabEvents.onDomainChangeRemove"
  | TabEvents_cleanFromTabEvents => "TabEvents.cleanFromTabEvents"
  | CookieEvents_onCookieChanged => "CookieEvents.onCookieChanged"
  | _ => "background"
  end.

(** A registered listener called with the event's argument. *)
Definition call_listener (polls : nat) (b : Browser) (ev : Event) (l : Listener) : M unit :=
  match l, ev with
  | the_handleConnect, Runtime_connect p => handleConnect p
  | the_onCookiePopupUpdates, Cookie_changed changeInfo => onCookiePopupUpdates changeInfo
  | the_onStartup_listener, Runtime_startup => onStartup_listener polls b
  | the_onInstalled_listener, Runtime_installed details => onInstalled_listener polls b details
  | the_port_onMessage_listener, Port_message _ m => port_onMessage_listener m
  | the_port_onDisconnect_listener, Port_disconnect dp => port_onDisconnect_listener dp
  | _, _ => call (listener_of_collaborator (collaborator_name l))
  end.

Definition call_subscriber (s : Subscriber) : M unit :=
  match s with
  | the_onSettingsChange => onSettingsChange
  | the_saveToStorage => saveToStorage
  end.

(** A callback run by the host: what it throws is reported, not passed on. *)
Definition isolated (m : M unit) : M unit :=
  fun w =>
    match m w with
    | {| effects := es; final := w'; completion := _ |} =>
        {| effects := es; final := w'; completion := Returned tt |}
    end.

Definition react (polls : nat) (b : Browser) (ev : Event) : M unit :=
  match ev with
  | Script_loads => isolated (background_script b)
  | Storage_answers => isolated (onStartUp_resumes b (storage_local b) ;; onStartUp_then)
  | Store_notifies =>
      ss <- read subscribers ;;
      for_each ss (fun s => isolated (call_subscriber s))
  | Store_dispatched a => isolated (dispatch a)
  | Timer_fires =>
      ts <- read timers ;;
      match ts with
      | [] => ret tt
      | save_timer _ :: ts' => write (with_timers ts') ;; isolated save_timer_fires
      end
  | _ =>
      ls <- read listeners ;;
      for_each (filter (fun r => Some (fst r) = target_of ev) ls)
               (fun r => isolated (call_listener polls b ev (snd r)))
  end.

(** The state after a sequence of events, each with the browser's answers
    at the time. *)
Fixpoint after (polls : nat) (evs : list (Browser * Event)) (w : World) : World :=
  match evs with
  | [] => w
  | (b, ev) :: evs' => after polls evs' (final (react polls b ev w))
  end.

End Handlers.

(** ** A concrete extension, to run the handlers on *)

Module Sample.

Inductive siteData : Type := Cache | IndexedDB | LocalStorage | PluginData | ServiceWorkers.
Inductive listKind : Type := Grey | White.

#[global] Instance siteData_eq_dec : EqDecision siteData.
Proof. solve_decision. Defined.
#[global] Instance listKind_eq_dec : EqDecision listKind.
Proof. solve_decision. Defined.

#[global] Instance typings : Typings :=
  {| SiteDataType := siteData; LOCALSTORAGE := LocalStorage;
     ListType := listKind; GREY := Grey; WHITE := White |}.

(** A state with the two parts the script reads, and the plain actions
    it has reduced, latest first. *)
Record state : Type := {
  the_settings : gmap string Setting;
  the_lists : list (string * list Expression);
  reduced : list Action
}.

(** UPDATE_SETTING stores the setting under its name; the other actions
    are only recorded. *)
Definition reducer (a : Action) (st : state) : state :=
  match a with
  | UPDATE_SETTING s =>
      {| the_settings := <[name s := s]> (the_settings st);
         the_lists := the_lists st; reduced := a :: reduced st |}
  | _ => {| the_settings := the_settings st;
            the_lists := the_lists st; reduced := a :: reduced st |}
  end.

Definition setting_value (st : state) (k : string) : JSValue :=
  match the_settings st !! k with
  | Some s => value s
  | None => JBool false
  end.

(** "3.5.1" is 351; anything else 999 here. *)
Definition version_number (v : option string) : Z :=
  match v with
  | Some "2.9.9" => 299
  | Some "3.4.0" => 340
  | Some "3.5.1" => 351
  | _ => 999
  end.

Definition browser_key (sd : siteData) : string :=
  match sd with
  | Cache => "cache"
  | IndexedDB => "indexedDB"
  | LocalStorage => "localStorage"
  | PluginData => "pluginData"
  | ServiceWorkers => "serviceWorkers"
  end.

(** The state persisted as text: here only whether Active Mode is on. *)
Definition parse (s : string) : option (list (string * bool)) :=
  match s with
  | "{}" => Some []
  | "{on}" => Some [("activeMode", true)]
  | "{off}" => Some [("activeMode", false)]
  | _ => None
  end.

Definition fresh_store (j : list (string * bool)) : state :=
  {| the_settings :=
       list_to_map (map (fun kv => (fst kv, {| name := fst kv; value := JBool (snd kv) |})) j);
     the_lists := []; reduced := [] |}.

Definition stringify (st : state) : string :=
  match the_settings st !! "activeMode" with
  | Some {| value := JBool true |} => "{on}"
  | Some _ => "{off}"
  | None => "{}"
  end.

Definition main_domain (d : string) : string :=
  match d with
  | "www.example.com" | ".example.com" => "example.com"
  | _ => d
  end.

#[global] Instance collaborators : Collaborators :=
  {| State := state; Json := list (string * bool);
     settings := the_settings; lists := the_lists;
     createStore := fresh_store; reduce := reducer;
     getSetting := setting_value;
     convertVersionToNumber := version_number;
     extractMainDomain := main_domain;
     siteDataToBrowser := browser_key;
     SITEDATATYPES := [Cache; IndexedDB; LocalStorage; PluginData; ServiceWorkers];
     ListType_text := fun lt => match lt with Grey => "GREY" | White => "WHITE" end;
     toLowerCase := fun s => match s with "GREY" => "grey" | "WHITE" => "white" | _ => s end;
     browserName_Firefox := JStr "Firefox";
     JSON_parse := parse; JSON_stringify := stringify;
     emptyObject := [] |}.

Definition firefox : Browser :=
  {| manifest_name := "Cookie AutoDelete"; manifest_version := "3.6.0";
     storage_local := {[ "state" := "{on}" ]};
     browserDetect := JStr "Firefox"; browserInfo_version := "78.0.2";
     platformInfo_os := "linux"; contextMenus := true;
     tabs_normal := [Tab.mk (Some "https://example.com/")];
     contextualIdentities := ["firefox-container-1"] |}.

Definition boolean_settings (l : list (string * bool)) : gmap string Setting :=
  list_to_map (map (fun kv => (fst kv, {| name := fst kv; value := JBool (snd kv) |})) l).

(** The settings before and after the user turns on the containers and
    the clean-up of the cache and of LocalStorage. *)
Definition settings_before : gmap string Setting :=
  boolean_settings
    [("activeMode", true); ("contextMenus", true); ("contextualIdentities", false);
     ("debugMode", false); ("enableGreyListCleanup", true);
     ("cacheCleanup", false); ("indexedDBCleanup", false); ("localStorageCleanup", false);
     ("pluginDataCleanup", false); ("serviceWorkersCleanup", true);
     ("localstorageCleanup", true)].

Definition settings_after : gmap string Setting :=
  boolean_settings
    [("activeMode", true); ("contextMenus", true); ("contextualIdentities", true);
     ("debugMode", false); ("enableGreyListCleanup", true);
     ("cacheCleanup", true); ("indexedDBCleanup", false); ("localStorageCleanup", true);
     ("pluginDataCleanup", false); ("serviceWorkersCleanup", true);
     ("localstorageCleanup", true)].

Definition keeps_localStorage : Expression :=
  {| expression := "*.example.com"; cleanLocalStorage := Some true; cleanSiteData := None;
     listType := White; storeId := "default" |}.
Definition already_migrated : Expression :=
  {| expression := "*.example.org"; cleanLocalStorage := Some true;
     cleanSiteData := Some [Cache]; listType := Grey; storeId := "default" |}.
Definition plain : Expression :=
  {| expression := "*.example.net"; cleanLocalStorage := None; cleanSiteData := None;
     listType := Grey; storeId := "firefox-container-1" |}.

Definition state_after : state :=
  {| the_settings := settings_after;
     the_lists := [("default", [keeps_localStorage; already_migrated]);
                   ("firefox-container-1", [plain])];
     reduced := [] |}.

(** The script at work: the store holds [state_after], and
    [onSettingsChange] has not yet seen it. *)
Definition running : World :=
  {| store := Some state_after; currentSettings := Some settings_before;
     delaySave := false; cookiePopupPorts := [];
     listeners := [(runtime_onConnect, the_handleConnect)];
     subscribers := [the_onSettingsChange; the_saveToStorage]; timers := [] |}.

(** An upgrade under way: the setting indexedDBCleanup is not there yet,
    neither before nor after the change that turns on the containers and
    the clean-up of the cache, of LocalStorage and of the service workers. *)
Definition settings_old : gmap string Setting :=
  boolean_settings
    [("activeMode", true); ("contextMenus", true); ("contextualIdentities", false);
     ("debugMode", false); ("cacheCleanup", false); ("localStorageCleanup", false);
     ("pluginDataCleanup", false); ("serviceWorkersCleanup", false)].

Definition settings_upgraded : gmap string Setting :=
  boolean_settings
    [("activeMode", true); ("contextMenus", true); ("contextualIdentities", true);
     ("debugMode", false); ("cacheCleanup", true); ("localStorageCleanup", true);
     ("pluginDataCleanup", false); ("serviceWorkersCleanup", true)].

Definition upgrading : World :=
  {| store := Some {| the_settings := settings_upgraded; the_lists := []; reduced := [] |};
     currentSettings := Some settings_old;
     delaySave := false; cookiePopupPorts := [];
     listeners := [(runtime_onConnect, the_handleConnect)];
     subscribers := [the_onSettingsChange; the_saveToStorage]; timers := [] |}.

Definition popup : Port.t := Port.mk 1 (Some "popupCAD_www.example.com,7").
Definition options_page : Port.t := Port.mk 2 (Some "optionsCAD").

(** Active Mode and the context menu are turned off. *)
Definition settings_paused : gmap string Setting :=
  boolean_settings
    [("activeMode", false); ("contextMenus", false); ("contextualIdentities", true);
     ("debugMode", false); ("enableGreyListCleanup", true);
     ("cacheCleanup", true); ("indexedDBCleanup", false); ("localStorageCleanup", true);
     ("pluginDataCleanup", false); ("serviceWorkersCleanup", true);
     ("localstorageCleanup", true)].

Definition pausing : World :=
  {| store := Some {| the_settings := settings_paused; the_lists := []; reduced := [] |};
     currentSettings := Some settings_after;
     delaySave := false; cookiePopupPorts := [];
     listeners := [(runtime_onConnect, the_handleConnect)];
     subscribers := [the_onSettingsChange; the_saveToStorage]; timers := [] |}.

(** Nothing has changed since [onSettingsChange] last ran. *)
Definition settled : World :=
  {| store := Some state_after; currentSettings := Some settings_after;
     delaySave := false; cookiePopupPorts := [];
     listeners := [(runtime_onConnect, the_handleConnect)];
     subscribers := [the_onSettingsChange; the_saveToStorage]; timers := [] |}.

(** An installation of version 3.4.0 that kept the LocalStorage of the
    grey list and shows the page of a new version. *)
Definition state_keeping : state :=
  {| the_settings :=
       boolean_settings
         [("activeMode", true); ("contextualIdentities", true);
          ("greyCleanLocalstorage", true); ("whiteCleanLocalstorage", false);
          ("enableNewVersionPopup", true)];
     the_lists := [("default", []); ("firefox-container-1", [plain])];
     reduced := [] |}.

Definition keeping : World :=
  {| store := Some state_keeping; currentSettings := Some (the_settings state_keeping);
     delaySave := false; cookiePopupPorts := [];
     listeners := [(runtime_onConnect, the_handleConnect)];
     subscribers := [the_onSettingsChange; the_saveToStorage]; timers := [] |}.

(** A second popup of the same tab and host. *)
Definition popup_again : Port.t := Port.mk 3 (Some "popupCAD_www.example.com,7").

Definition cookie_changed : ChangeInfo :=
  {| removed := false; cookie_domain := ".example.com"; cause := "explicit" |}.


(** The previous settings lack contextMenus, which [onSettingsChange]
    reads after its clean-up loop. *)
Definition menuless : World :=
  {| store := Some state_after;
     currentSettings := Some (delete "contextMenus" settings_before);
     delaySave := false; cookiePopupPorts := [];
     listeners := [(runtime_onConnect, the_handleConnect)];
     subscribers := [the_onSettingsChange; the_saveToStorage]; timers := [] |}.


(** Popups of two other sites, and a cookie of example.com. *)
Definition popup_of_other_site : Port.t := Port.mk 4 (Some "popupCAD_notexample.com,1").
Definition popup_elsewhere : Port.t := Port.mk 5 (Some "popupCAD_www.example.org,3").

Definition cookie_of_example : ChangeInfo :=
  {| removed := false; cookie_domain := "example.com"; cause := "explicit" |}.

End Sample.

(** ** What the claims are stated with *)

Section Specification.
Context {T : Typings} {C : Collaborators}.

(** *** Effects and runs *)

(** The run [r], after the calls [es]. *)
Definition prepend {A} (es : list Effect) (r : Run A) : Run A :=
  {| effects := es ++ effects r; final := final r; completion := completion r |}.

(** The store's state after a sequence of dispatches. *)
Definition replay (acts : list Action) (st : State) : State :=
  fold_left (fun s a => reduce a s) acts st.

(** The states given to [createStore], in order. *)
Definition stores_created (es : list Effect) : list Json :=
  omap (fun e => match e with store_create j => Some j | _ => None end) es.


(** *** What a handler keeps *)

(** [m] never changes the part [f] of the state. *)
Definition keeps {X A} (f : World -> X) (m : M A) : Prop :=
  forall w, f (final (m w)) = f w.

(** [m] keeps the property [P] of the state. *)
Definition preserves {A} (P : World -> Prop) (m : M A) : Prop :=
  forall w, P w -> P (final (m w)).

(** With a store, [m] returns, its calls all satisfy [P], and it leaves
    the state as it was but for the store, which has reduced the
    dispatched actions. *)
Definition tame {A} (P : Effect -> bool) (m : M A) : Prop :=
  forall w st, store w = Some st ->
    exists a,
      completion (m w) = Returned a
      /\ final (m w) = with_store (Some (replay (dispatches (effects (m w))) st)) w
      /\ forallb P (effects (m w)) = true.

(** The ports and the save timer. *)
Definition ports_and_timer (w : World) : list Port.t * (bool * list Timer) :=
  (cookiePopupPorts w, (delaySave w, timers w)).

(** The part of the state [saveToStorage] works on. *)
Definition save_timer_state (w : World) : bool * list Timer := (delaySave w, timers w).

(** *** The save timer and the popup ports *)

(** A timeout is pending exactly while [delaySave] is set, and it is the
    one of [saveToStorage]. *)
Definition save_invariant (w : World) : Prop :=
  timers w = if delaySave w then [save_timer 1000] else [].

(** [p.name] starts with "popupCAD_". *)
Definition accepted (p : Port.t) : bool :=
  match Port.name p with
  | Some name => startsWith name "popupCAD_"
  | None => false
  end.

(** Every stored port has an accepted name. *)
Definition ports_invariant (w : World) : Prop :=
  Forall (fun p => accepted p = true) (cookiePopupPorts w).

(** [l] without its first element that satisfies [f]. *)
Fixpoint remove_first {A} (f : A -> bool) (l : list A) : list A :=
  match l with
  | [] => []
  | x :: l' => if f x then l' else x :: remove_first f l'
  end.

(** The port is named [name]. *)
Definition named (name : string) (p : Port.t) : bool :=
  bool_decide (Port.name p = Some name).

(** The popup behind port [p] shows the domain of the changed cookie: the
    name of [p] is "popupCAD_" followed by comma-separated fields, and the
    first field ends with the cookie's domain or with its main domain. *)
Definition watches (changeInfo : ChangeInfo) (p : Port.t) : bool :=
  match Port.name p with
  | Some name =>
      match after_prefix "popupCAD_" name with
      | Some fields =>
          let field := split_first "," fields in
          endsWith field (cookie_domain changeInfo)
          || endsWith field (extractMainDomain (cookie_domain changeInfo))
      | None => false
      end
  | None => false
  end.

(** The same, in the words of the strings. [s] ends with [t]: it is some
    text followed by [t]. *)
Definition ends_with (s t : string) : Prop := exists before, s = before +:+ t.

(** [field] is the first of the comma-separated fields of [fields]: it
    holds no comma, and [fields] is [field] alone or [field], a comma and
    more. *)
Definition first_field (field fields : string) : Prop :=
  ~ In ","%char (list_ascii_of_string field)
  /\ (fields = field \/ exists more, fields = field +:+ String "," more).

(** The name of [p] is "popupCAD_" and then comma-separated fields, and
    the first of them ends with the changed cookie's domain or with its
    main domain. *)
Definition shows_domain (changeInfo : ChangeInfo) (p : Port.t) : Prop :=
  exists fields field,
    Port.name p = Some ("popupCAD_" +:+ fields)
    /\ first_field field fields
    /\ (ends_with field (cookie_domain changeInfo)
        \/ ends_with field (extractMainDomain (cookie_domain changeInfo))).

(** [onCookiePopupUpdates] is registered on cookies.onChanged at most once. *)
Definition popup_listener_once (w : World) : Prop :=
  (length (filter (fun r => r = (cookies_onChanged, the_onCookiePopupUpdates)) (listeners w))
   <= 1)%nat.

(** *** Browser startup *)

(** A tab of a normal window shows about:sessionrestore. *)
Definition session_restore_tab (tabs : list Tab.t) : bool :=
  existsb (fun tab => bool_decide (Tab.url tab = Some "about:sessionrestore")) tabs.

(** The three conditions of the clean-up at browser startup. *)
Definition startup_cleanup_due (st : State) (tabs : list Tab.t) : bool :=
  strict_eq (getSetting st "activeMode") (JBool true)
  && strict_eq (getSetting st "enableGreyListCleanup") (JBool true)
  && negb (session_restore_tab tabs).

(** *** Update of the extension *)

(** The setting localstorageCleanup of [st], under its new name. *)
Definition renamed_setting (st : State) : list Action :=
  match settings st !! "localstorageCleanup" with
  | Some s => [UPDATE_SETTING {| name := "localStorageCleanup"; value := value s |}]
  | None => []
  end.

(** The expressions of [st] that keep only the deprecated option, each
    with [cleanSiteData] set to [[LocalStorage]]. *)
Definition migrated_expressions (st : State) : list Action :=
  map (fun exp => UPDATE_EXPRESSION (with_cleanSiteData [LOCALSTORAGE] exp))
      (List.filter cleanLocalStorage_only (concat (map snd (lists st)))).

(** What the third migration may do: ask for the containers and add
    default expressions. *)
Definition adds_defaults (e : Effect) : bool :=
  match e with
  | contextualIdentities_query => true
  | store_dispatch (ADD_EXPRESSION _) => true
  | _ => false
  end.

(** *** Changes of the settings *)

(** The setting [k] of [s] is there and true. *)
Definition setting_on (s : gmap string Setting) (k : string) : bool :=
  match s !! k with
  | Some x => truthy (value x)
  | None => false
  end.

(** The setting [k] went from undefined or false to true. *)
Definition turned_on (prev cur : gmap string Setting) (k : string) : bool :=
  negb (setting_on prev k) && setting_on cur k.

(** The value of the setting [k] is not the same in [prev] and [cur]. *)
Definition value_differs (prev cur : gmap string Setting) (k : string) : bool :=
  negb (bool_decide (value <$> prev !! k = value <$> cur !! k)).

(** The site data of type [siteData] is to be cleaned: its setting was
    turned on, unless it is LocalStorage and the deprecated setting
    localstorageCleanup was on before. *)
Definition cleanup_due (prev cur : gmap string Setting) (siteData : SiteDataType) : bool :=
  turned_on prev cur (siteDataToBrowser siteData +:+ "Cleanup")
  && negb (bool_decide (siteData = LOCALSTORAGE) && setting_on prev "localstorageCleanup").

(** The settings [onSettingsChange] reads without a guard are there. *)
Definition has_settings (keys : list string) (s : gmap string Setting) : bool :=
  forallb (fun k => negb (undefined (s !! k))) keys.

(** The previous and the current settings hold what [onSettingsChange]
    reads of them without a guard: four settings of the previous ones;
    of the current ones these four, debugMode and the clean-up setting of
    every site-data type. *)
Definition settings_present (prev cur : gmap string Setting) : bool :=
  has_settings ["contextualIdentities"; "activeMode"; "contextMenus"; "localStorageCleanup"] prev
  && has_settings (["contextualIdentities"; "activeMode"; "contextMenus";
                    "localStorageCleanup"; "debugMode"]
                   ++ map (fun sd => siteDataToBrowser sd +:+ "Cleanup") SITEDATATYPES) cur.

(** Lines 78-79 read no missing setting: contextualIdentities is in
    the previous settings, and in the current ones unless it was on
    before. *)
Definition container_settings_present (prev cur : gmap string Setting) : bool :=
  negb (undefined (prev !! "contextualIdentities"))
  && (setting_on prev "contextualIdentities"
      || negb (undefined (cur !! "contextualIdentities"))).

(** The iteration of the clean-up loop for [siteData] reads no missing
    setting (lines 88-89 and 102): its clean-up setting is in the current
    settings unless it was on before, and debugMode is in the current
    settings if the clean-up is due. *)
Definition check_settings_present (prev cur : gmap string Setting)
    (siteData : SiteDataType) : bool :=
  (setting_on prev (siteDataToBrowser siteData +:+ "Cleanup")
   || negb (undefined (cur !! (siteDataToBrowser siteData +:+ "Cleanup"))))
  && (negb (cleanup_due prev cur siteData) || negb (undefined (cur !! "debugMode"))).

(** The elements of [l] before the first one that is not [ok]. *)
Fixpoint while_ok {A} (ok : A -> bool) (l : list A) : list A :=
  match l with
  | [] => []
  | x :: l' => if ok x then x :: while_ok ok l' else []
  end.

(** The site-data types the clean-up loop gets through: those before the
    first one at which a setting is missing; none when lines 78-79
    already miss one. *)
Definition checked_types (prev cur : gmap string Setting) : list SiteDataType :=
  if container_settings_present prev cur
  then while_ok (check_settings_present prev cur) SITEDATATYPES
  else [].

(** The settings [onSettingsChange] reads up to the end of its clean-up
    loop (lines 77-105) are there. *)
Definition loop_settings_present (prev cur : gmap string Setting) : bool :=
  container_settings_present prev cur
  && forallb (check_settings_present prev cur) SITEDATATYPES.

(** The actions [onSettingsChange] dispatches before it validates. *)
Definition container_actions (prev cur : gmap string Setting) : list Action :=
  if turned_on prev cur "contextualIdentities" then [cacheCookieStoreIdNames] else [].

(** The calls of [browsingDataCleanup] for the types that are due. *)
Definition cleanup_effects (prev cur : gmap string Setting) : list Effect :=
  flat_map (fun siteData =>
              if cleanup_due prev cur siteData
              then [browsingData_remove 0 (siteDataToBrowser siteData);
                    cadLog (Log_siteDataActivated siteData)
                           (default (JBool false) (value <$> cur !! "debugMode"))]
              else [])
           SITEDATATYPES.

(** A call made by [browsingDataCleanup]. *)
Definition is_cleanup_effect (e : Effect) : bool :=
  match e with
  | browsingData_remove _ _ => true
  | cadLog (Log_siteDataActivated _) _ => true
  | _ => false
  end.

(** Not a call made by [browsingDataCleanup]. *)
Definition not_cleanup_effect (e : Effect) : bool := negb (is_cleanup_effect e).

(** What [activeModeChanges] calls. *)
Definition activeMode_effects (prev cur : gmap string Setting) : list Effect :=
  (if setting_on prev "activeMode" && negb (setting_on cur "activeMode")
   then [alarms_clear "activeModeAlarm"] else [])
  ++ (if value_differs prev cur "activeMode"
      then match cur !! "activeMode" with
           | Some x => [setGlobalIcon (value x);
                        ContextMenuEvents_updateMenuItemCheckbox (value x)]
           | None => []
           end
      else []).

(** What [contextMenuChanges] calls. *)
Definition contextMenus_effects (prev cur : gmap string Setting) : list Effect :=
  if value_differs prev cur "contextMenus"
  then [if setting_on cur "contextMenus"
        then ContextMenuEvents_menuInit else ContextMenuEvents_menuClear]
  else [].

(** The deprecated setting follows localStorageCleanup. *)
Definition deprecated_actions (prev cur : gmap string Setting) : list Action :=
  if value_differs prev cur "localStorageCleanup"
  then match cur !! "localStorageCleanup" with
       | Some c => [UPDATE_SETTING {| name := "localstorageCleanup"; value := value c |}]
       | None => []
       end
  else [].

End Specification.

(** ** What the further properties are stated with *)

Section FurtherSpecification.
Context {T : Typings} {C : Collaborators}.

(** *** Calls a handler never makes *)

(** [m] makes only calls that satisfy [P]. *)
Definition only {A} (P : Effect -> bool) (m : M A) : Prop :=
  forall w, forallb P (effects (m w)) = true.

(** Not a write to the local storage. *)
Definition not_storage_write (e : Effect) : bool :=
  match e with storage_local_set _ => false | _ => true end.

(** Not [browsingData.remove]. *)
Definition not_browsingData_remove (e : Effect) : bool :=
  match e with browsingData_remove _ _ => false | _ => true end.

(** Not a dispatch of [cookieCleanup]. *)
Definition not_cookieCleanup (e : Effect) : bool :=
  match e with store_dispatch (cookieCleanup _ _) => false | _ => true end.

(** Not the call that opens the options page. *)
Definition not_openOptionsPage (e : Effect) : bool :=
  match e with runtime_openOptionsPage => false | _ => true end.

(** A call about the alarm, the icon or the context menu
    (lines 107-128). *)
Definition is_activeMode_or_menu_call (e : Effect) : bool :=
  match e with
  | alarms_clear _ | setGlobalIcon _ | ContextMenuEvents_updateMenuItemCheckbox _
  | ContextMenuEvents_menuInit | ContextMenuEvents_menuClear => true
  | _ => false
  end.

(** *** Before and after the store exists *)

(** [onStartUp] has created the store and remembered its settings. *)
Definition started (w : World) : Prop :=
  is_Some (store w) /\ is_Some (currentSettings w).

(** [onStartUp] has not got to the store yet: nothing is subscribed to
    it and no save is pending. *)
Definition not_started (w : World) : Prop :=
  store w = None /\ currentSettings w = None /\ subscribers w = []
  /\ timers w = [] /\ delaySave w = false.

(** What only [onStartUp], [onSettingsChange], [saveToStorage] and the
    save timer change. *)
Definition store_and_timer (w : World)
    : option State * option (gmap string Setting) * list Subscriber * list Timer * bool :=
  (store w, currentSettings w, subscribers w, timers w, delaySave w).

Definition startup_invariant (w : World) : Prop := not_started w \/ started w.

(** *** The default expressions of an update *)

(** The containers that get a default expression (lines 378-389): the
    keys of [lists], "default" and, with the containers setting on, the
    contextual identities of the browser; each once. *)
Definition default_containers (b : Browser) (st : State) : list string :=
  fold_left (fun s c => Set_add c s)
            (if truthy (getSetting st "contextualIdentities") then contextualIdentities b else [])
            (Set_add "default" (Set_of (map fst (lists st)))).

(** The default expression of list type [lt] for [container]
    (lines 392-397). *)
Definition default_expression (lt : ListType) (container : string) : Expression :=
  {| expression := "_Default:" +:+ ListType_text lt;
     cleanLocalStorage := None;
     cleanSiteData := Some [LOCALSTORAGE];
     listType := lt;
     storeId := container |}.

(** The default expressions added for list type [lt] in state [st]. *)
Definition default_expressions (b : Browser) (lt : ListType) (st : State) : list Action :=
  if truthy (getSetting st (toLowerCase (ListType_text lt) +:+ "CleanLocalstorage"))
  then map (fun c => ADD_EXPRESSION (default_expression lt c)) (default_containers b st)
  else [].

End FurtherSpecification.

(** ** Reasoning about runs *)

(** The string functions on a popup's port name. *)
Example startsWith_popup : startsWith "popupCAD_example.com,7" "popupCAD_" = true.
Proof. reflexivity. Qed.

Example slice_split_popup :
  split_first "," (slice 9 "popupCAD_www.example.com,7,firefox-default") = "www.example.com".
Proof. reflexivity. Qed.

Example endsWith_examples :
  endsWith "www.example.com" "example.com" = true
  /\ endsWith "www.example.com" ".org" = false
  /\ endsWith "a" "aa" = false
  /\ endsWith "abc" "" = true.
Proof. repeat split; reflexivity. Qed.

Section Runs.
Context {T : Typings} {C : Collaborators}.

Lemma after_prefix_slice (p s : string) :
  after_prefix p s = if startsWith s p then Some (slice (String.length p) s) else None.
Proof.
  revert s. induction p as [|c p IH]; intros s; [reflexivity|].
  destruct s as [|d s]; cbn; [reflexivity|].
  destruct (Ascii.eqb c d); cbn; [apply IH | reflexivity].
Qed.

Lemma startsWith_nonempty (s : string) (c : ascii) (p : string) :
  startsWith s (String c p) = true -> nonempty s = true.
Proof. destruct s; cbn; [discriminate | reflexivity]. Qed.

(** The string functions, in the words of the strings. *)
Lemma after_prefix_app (p s : string) : after_prefix p (p +:+ s) = Some s.
Proof.
  induction p as [|c p IH]; [reflexivity|].
  change (String c p +:+ s) with (String c (p +:+ s)). cbn [after_prefix].
  rewrite Ascii.eqb_refl. exact IH.
Qed.

Lemma split_first_field (sep : ascii) (field more : string) :
  ~ In sep (list_ascii_of_string field) ->
  split_first sep (field +:+ String sep more) = field.
Proof.
  induction field as [|c field IH]; intros Hsep.
  - change ("" +:+ String sep more) with (String sep more). cbn [split_first].
    rewrite Ascii.eqb_refl. reflexivity.
  - change (String c field +:+ String sep more) with (String c (field +:+ String sep more)).
    cbn [split_first list_ascii_of_string] in *.
    destruct (Ascii.eqb_spec c sep) as [->|_]; [exfalso; apply Hsep; left; reflexivity|].
    rewrite IH; [reflexivity|]. intros Hin. apply Hsep. right. exact Hin.
Qed.

Lemma substring_whole (s : string) : substring 0 (String.length s) s = s.
Proof.
  induction s as [|c s IH]; [reflexivity|].
  cbn [String.length substring]. rewrite IH. reflexivity.
Qed.

Lemma substring_skip (pre s : string) (n : nat) :
  substring (String.length pre) n (pre +:+ s) = substring 0 n s.
Proof.
  induction pre as [|c pre IH]; [reflexivity|].
  change (String c pre +:+ s) with (String c (pre +:+ s)).
  cbn [String.length substring]. exact IH.
Qed.

Lemma string_length_append (s t : string) :
  String.length (s +:+ t) = (String.length s + String.length t)%nat.
Proof.
  induction s as [|c s IH]; [reflexivity|].
  change (String c s +:+ t) with (String c (s +:+ t)).
  cbn [String.length]. rewrite IH. reflexivity.
Qed.

Lemma endsWith_suffix (pre s : string) : endsWith (pre +:+ s) s = true.
Proof.
  unfold endsWith. rewrite string_length_append.
  replace (String.length pre + String.length s - String.length s)%nat
    with (String.length pre) by lia.
  rewrite substring_skip, substring_whole, String.eqb_refl, andb_true_r.
  apply Nat.leb_le. lia.
Qed.

Lemma after_prefix_Some (p s rest : string) :
  after_prefix p s = Some rest <-> s = p +:+ rest.
Proof.
  split; [|intros ->; apply after_prefix_app].
  revert s. induction p as [|c p IH]; intros s; cbn [after_prefix].
  - intros [= ->]. reflexivity.
  - destruct s as [|d s]; [discriminate|].
    destruct (Ascii.eqb_spec c d) as [->|_]; [|discriminate].
    intros H. change (String d p +:+ rest) with (String d (p +:+ rest)).
    f_equal. apply IH, H.
Qed.

Lemma split_first_alone (sep : ascii) (field : string) :
  ~ In sep (list_ascii_of_string field) -> split_first sep field = field.
Proof.
  induction field as [|c field IH]; intros Hsep; [reflexivity|].
  cbn [split_first list_ascii_of_string] in *.
  destruct (Ascii.eqb_spec c sep) as [->|_]; [exfalso; apply Hsep; left; reflexivity|].
  rewrite IH; [reflexivity|]. intros Hin. apply Hsep. right. exact Hin.
Qed.

Lemma split_first_is_first (sep : ascii) (s : string) :
  ~ In sep (list_ascii_of_string (split_first sep s))
  /\ (s = split_first sep s \/ exists more, s = split_first sep s +:+ String sep more).
Proof.
  induction s as [|c s [IHno IHrest]]; cbn [split_first].
  - split; [intros []|]. left. reflexivity.
  - destruct (Ascii.eqb_spec c sep) as [->|Hne].
    + split; [intros []|]. right. exists s. reflexivity.
    + split.
      * cbn [list_ascii_of_string]. intros [Heq|Hin]; [congruence | exact (IHno Hin)].
      * destruct IHrest as [Heq|[more Heq]].
        -- left. rewrite <- Heq. reflexivity.
        -- right. exists more.
           change (String c (split_first sep s) +:+ String sep more)
             with (String c (split_first sep s +:+ String sep more)).
           rewrite <- Heq. reflexivity.
Qed.

Lemma substring_split (s : string) (n : nat) :
  (n <= String.length s)%nat ->
  s = substring 0 n s +:+ substring n (String.length s - n) s.
Proof.
  revert n. induction s as [|c s IH]; intros n Hn.
  - cbn in Hn. assert (n = 0%nat) as -> by lia. reflexivity.
  - destruct n as [|n].
    + cbn [substring String.length Nat.sub].
      change ("" +:+ String c (substring 0 (String.length s) s))
        with (String c (substring 0 (String.length s) s)).
      rewrite substring_whole. reflexivity.
    + cbn [String.length] in Hn. cbn [substring String.length Nat.sub].
      change (String c (substring 0 n s) +:+ substring n (String.length s - n) s)
        with (String c (substring 0 n s +:+ substring n (String.length s - n) s)).
      f_equal. apply IH. lia.
Qed.

Lemma endsWith_true (s t : string) :
  endsWith s t = true <-> exists before, s = before +:+ t.
Proof.
  split; [|intros [before ->]; apply endsWith_suffix].
  unfold endsWith. intros [Hlen Heq]%andb_true_iff.
  apply Nat.leb_le in Hlen. apply String.eqb_eq in Heq.
  exists (substring 0 (String.length s - String.length t) s).
  etransitivity;
    [apply (substring_split s (String.length s - String.length t)); lia|].
  f_equal. rewrite <- Heq at 3. f_equal. lia.
Qed.

(** A run that returned, followed by its continuation. *)
Lemma bind_returned {A B} (m : M A) (k : A -> M B) (w : World) (a : A) :
  completion (m w) = Returned a ->
  bind m k w =
    {| effects := effects (m w) ++ effects (k a (final (m w)));
       final := final (k a (final (m w)));
       completion := completion (k a (final (m w))) |}.
Proof. intros H. unfold bind. destruct (m w) as [es w' c]; cbn in *. subst c. destruct (k a w'); reflexivity. Qed.

Lemma bind_run {A B} (m : M A) (k : A -> M B) (w w' : World) (es : list Effect) (a : A) :
  m w = {| effects := es; final := w'; completion := Returned a |} ->
  bind m k w =
    {| effects := es ++ effects (k a w'); final := final (k a w');
       completion := completion (k a w') |}.
Proof. intros H. unfold bind. rewrite H. destruct (k a w'); reflexivity. Qed.

Lemma awaitStore_ready (polls : nat) (w : World) (st : State) :
  store w = Some st -> awaitStore polls w = ret tt w.
Proof. intros H. destruct polls; cbn; rewrite H; reflexivity. Qed.

Lemma awaitStore_polling (polls : nat) (w : World) :
  store w = None ->
  awaitStore polls w =
    {| effects := repeat (sleep 250) polls; final := w; completion := Polling |}.
Proof.
  intros H. induction polls as [|n IH]; cbn; rewrite H; [reflexivity|].
  unfold bind; cbn. rewrite IH. reflexivity.
Qed.

(** *** Running a handler statement by statement *)

Lemma bind_assoc {A B D} (m : M A) (k1 : A -> M B) (k2 : B -> M D) (w : World) :
  bind (bind m k1) k2 w = bind m (fun a => bind (k1 a) k2) w.
Proof.
  unfold bind. destruct (m w) as [es w' [a| |]]; try reflexivity.
  destruct (k1 a w') as [es1 w1 [b| |]]; try reflexivity.
  destruct (k2 b w1) as [es2 w2 c2]. rewrite app_assoc. reflexivity.
Qed.

Lemma bind_ret {A B} (a : A) (k : A -> M B) (w : World) : bind (ret a) k w = k a w.
Proof. unfold bind, ret. destruct (k a w); reflexivity. Qed.

Lemma bind_read {A B} (f : World -> A) (k : A -> M B) (w : World) :
  bind (read f) k w = k (f w) w.
Proof. unfold bind, read, ret. destruct (k (f w) w); reflexivity. Qed.

Lemma bind_write {B} (f : World -> World) (k : unit -> M B) (w : World) :
  bind (write f) k w = k tt (f w).
Proof. unfold bind, write, ret. destruct (k tt (f w)); reflexivity. Qed.

Lemma bind_call {B} (e : Effect) (k : unit -> M B) (w : World) :
  bind (call e) k w = prepend [e] (k tt w).
Proof. unfold bind, call, prepend. destruct (k tt w); reflexivity. Qed.

Lemma bind_throw {A B} (e : JSError) (k : A -> M B) (w : World) :
  bind (throw e) k w = throw e w.
Proof. reflexivity. Qed.

Lemma bind_getState {B} (k : State -> M B) (w : World) (st : State) :
  store w = Some st -> bind getState k w = k st w.
Proof. intros H. unfold bind, getState. rewrite H. apply bind_ret. Qed.

Lemma bind_dispatch {B} (a : Action) (k : unit -> M B) (w : World) (st : State) :
  store w = Some st ->
  bind (dispatch a) k w
  = prepend [store_dispatch a] (k tt (with_store (Some (reduce a st)) w)).
Proof.
  intros H. unfold bind, dispatch, prepend. rewrite H.
  destruct (k tt (with_store (Some (reduce a st)) w)); reflexivity.
Qed.

Lemma bind_awaitStore {B} (polls : nat) (k : unit -> M B) (w : World) (st : State) :
  store w = Some st -> bind (awaitStore polls) k w = k tt w.
Proof. intros H. unfold bind. rewrite (awaitStore_ready _ _ _ H). apply bind_ret. Qed.

Lemma dispatch_run (a : Action) (w : World) (st : State) :
  store w = Some st ->
  dispatch a w = {| effects := [store_dispatch a];
                    final := with_store (Some (reduce a st)) w;
                    completion := Returned tt |}.
Proof. intros H. unfold dispatch. rewrite H. reflexivity. Qed.

Lemma getState_run (w : World) (st : State) : store w = Some st -> getState w = ret st w.
Proof. intros H. unfold getState. rewrite H. reflexivity. Qed.

Lemma final_isolated (m : M unit) (w : World) : final (isolated m w) = final (m w).
Proof. unfold isolated. destruct (m w); reflexivity. Qed.

Lemma effects_isolated (m : M unit) (w : World) : effects (isolated m w) = effects (m w).
Proof. unfold isolated. destruct (m w); reflexivity. Qed.

(** A loop whose body returns and leaves the state alone. *)
Lemma for_each_run {A} (l : list A) (body : A -> M unit) (f : A -> list Effect) (w : World) :
  (forall x, x ∈ l ->
     body x w = {| effects := f x; final := w; completion := Returned tt |}) ->
  for_each l body w =
    {| effects := flat_map f l; final := w; completion := Returned tt |}.
Proof.
  induction l as [|x l IH]; intros Hbody; [reflexivity|].
  cbn [for_each flat_map].
  rewrite (bind_run _ _ w w (f x) tt) by (apply Hbody; left).
  rewrite IH by (intros y Hy; apply Hbody; right; exact Hy).
  reflexivity.
Qed.

Lemma bind_thrown {A B} (m : M A) (k : A -> M B) (w : World) (e : JSError) :
  completion (m w) = Thrown e ->
  bind m k w = {| effects := effects (m w); final := final (m w); completion := Thrown e |}.
Proof. intros H. unfold bind. destruct (m w) as [es w' c]; cbn in *. subst c. reflexivity. Qed.

Lemma completion_bind_thrown {A B} (m : M A) (k : A -> M B) (w : World) (e : JSError) :
  completion (m w) = Thrown e -> completion (bind m k w) = Thrown e.
Proof. intros H. rewrite (bind_thrown m k w e H). reflexivity. Qed.

(** What a run has called when its first part is done. *)
Lemma effects_bind {A B} (m : M A) (k : A -> M B) (w : World) :
  exists rest,
    effects (bind m k w) = effects (m w) ++ rest
    /\ (rest = [] \/ exists a, rest = effects (k a (final (m w)))).
Proof.
  unfold bind. destruct (m w) as [es w' [a| |]]; cbn [effects final].
  - destruct (k a w') as [es' w'' c'] eqn:Hk. exists es'. split; [reflexivity|].
    right. exists a. rewrite Hk. reflexivity.
  - exists []. rewrite app_nil_r. split; [reflexivity | left; reflexivity].
  - exists []. rewrite app_nil_r. split; [reflexivity | left; reflexivity].
Qed.

Lemma while_ok_all {A} (ok : A -> bool) (l : list A) :
  forallb ok l = true -> while_ok ok l = l.
Proof.
  induction l as [|x l IH]; cbn; [reflexivity|].
  intros [-> Hl]%andb_true_iff. rewrite IH by exact Hl. reflexivity.
Qed.

(** A loop that stops at the first element whose body throws. *)
Lemma for_each_while {A} (l : list A) (body : A -> M unit) (ok : A -> bool)
    (f : A -> list Effect) (w : World) :
  (forall x, x ∈ l -> ok x = true ->
     body x w = {| effects := f x; final := w; completion := Returned tt |}) ->
  (forall x, x ∈ l -> ok x = false ->
     exists e, body x w = {| effects := []; final := w; completion := Thrown e |}) ->
  exists c,
    for_each l body w
    = {| effects := flat_map f (while_ok ok l); final := w; completion := c |}
    /\ (if forallb ok l then c = Returned tt else exists e, c = Thrown e).
Proof.
  induction l as [|x l IH]; intros Hok Hno.
  - exists (Returned tt). split; reflexivity.
  - cbn [for_each while_ok forallb flat_map]. destruct (ok x) eqn:Hx.
    + rewrite (bind_run _ _ w w (f x) tt) by (apply Hok; [left | exact Hx]).
      destruct IH as (c & Hrun & Hc).
      { intros y Hy. apply Hok. right. exact Hy. }
      { intros y Hy. apply Hno. right. exact Hy. }
      rewrite Hrun. cbn [effects final completion andb]. exists c. split; [reflexivity | exact Hc].
    + destruct (Hno x ltac:(left) Hx) as [e He].
      rewrite (bind_thrown _ _ w e) by (rewrite He; reflexivity).
      rewrite He. cbn [effects final flat_map andb]. exists (Thrown e).
      split; [reflexivity | eauto].
Qed.

Lemma dispatches_app (es1 es2 : list Effect) :
  dispatches (es1 ++ es2) = dispatches es1 ++ dispatches es2.
Proof. unfold dispatches. apply omap_app. Qed.

Lemma replay_app (a1 a2 : list Action) (st : State) :
  replay (a1 ++ a2) st = replay a2 (replay a1 st).
Proof. unfold replay. apply fold_left_app. Qed.

Lemma with_store_same (w : World) (st : State) :
  store w = Some st -> with_store (Some st) w = w.
Proof. destruct w; cbn; intros ->; reflexivity. Qed.

(** *** What a handler leaves alone *)

Lemma keeps_bind {X A B} (f : World -> X) (m : M A) (k : A -> M B) :
  keeps f m -> (forall a, keeps f (k a)) -> keeps f (bind m k).
Proof.
  intros Hm Hk w. unfold bind. specialize (Hm w).
  destruct (m w) as [es w' [a| |]]; cbn in *; try assumption.
  specialize (Hk a w'). destruct (k a w') as [es' w'' c']; cbn in *. congruence.
Qed.

Lemma keeps_for_each {X A} (f : World -> X) (l : list A) (body : A -> M unit) :
  (forall x, keeps f (body x)) -> keeps f (for_each l body).
Proof.
  intros Hbody. induction l as [|x l IH]; cbn [for_each].
  - intros w. reflexivity.
  - apply keeps_bind; [apply Hbody | intros _; exact IH].
Qed.

Lemma keeps_when {X} (f : World -> X) (c : bool) (m : M unit) :
  keeps f m -> keeps f (when c m).
Proof. intros Hm. destruct c; [exact Hm | intros w; reflexivity]. Qed.

Lemma keeps_isolated {X} (f : World -> X) (m : M unit) : keeps f m -> keeps f (isolated m).
Proof. intros Hm w. rewrite final_isolated. apply Hm. Qed.

Lemma keeps_awaitStore {X} (f : World -> X) (polls : nat) : keeps f (awaitStore polls).
Proof.
  intros w. destruct (store w) as [st|] eqn:Hst.
  - rewrite (awaitStore_ready _ _ st Hst). reflexivity.
  - rewrite (awaitStore_polling _ _ Hst). reflexivity.
Qed.

End Runs.

(** The statements that touch neither the ports nor the save timer: by
    cases on what they read. *)
Ltac keeps_statement :=
  let w := fresh "w" in
  intros w;
  cbv [call read write ret throw getState dispatch subscribe deref
       addListener removeListener final];
  try destruct (store w);
  reflexivity.

Ltac head_of t :=
  lazymatch t with
  | ?f _ => head_of f
  | _ => t
  end.

Ltac keeps_step :=
  lazymatch goal with
  | |- keeps _ (bind _ _) => apply keeps_bind; [|intros ?]
  | |- keeps _ (for_each _ _) => apply keeps_for_each; intros ?
  | |- keeps _ (when _ _) => apply keeps_when
  | |- keeps _ (isolated _) => apply keeps_isolated
  | |- keeps _ (awaitStore _) => apply keeps_awaitStore
  | |- keeps _ (if ?c then _ else _) => destruct c
  | |- keeps _ (match ?x with _ => _ end) => destruct x
  | |- keeps _ (call _) => keeps_statement
  | |- keeps _ (read _) => keeps_statement
  | |- keeps _ (write _) => keeps_statement
  | |- keeps _ (ret _) => keeps_statement
  | |- keeps _ (throw _) => keeps_statement
  | |- keeps _ getState => keeps_statement
  | |- keeps _ (dispatch _) => keeps_statement
  | |- keeps _ (subscribe _) => keeps_statement
  | |- keeps _ (deref _ ?o) => destruct o; keeps_statement
  | |- keeps _ (addListener _ _) => keeps_statement
  | |- keeps _ (removeListener _ _) => keeps_statement
  | |- keeps _ ?m => let h := head_of m in unfold h
  end.

Ltac keeps_all := repeat keeps_step.

Section Frames.
Context {T : Typings} {C : Collaborators}.

Lemma onSettingsChange_keeps : keeps ports_and_timer onSettingsChange.
Proof. keeps_all. Qed.

Lemma onStartUp_resumes_keeps (b : Browser) (storage : gmap string string) :
  keeps ports_and_timer (onStartUp_resumes b storage).
Proof. keeps_all. Qed.

Lemma onStartUp_then_keeps : keeps ports_and_timer onStartUp_then.
Proof. keeps_all. Qed.

Lemma background_script_keeps (b : Browser) : keeps ports_and_timer (background_script b).
Proof. keeps_all. Qed.

Lemma onCookiePopupUpdates_keeps (changeInfo : ChangeInfo) :
  keeps ports_and_timer (onCookiePopupUpdates changeInfo).
Proof. keeps_all. Qed.

Lemma onStartup_listener_keeps (polls : nat) (b : Browser) :
  keeps ports_and_timer (onStartup_listener polls b).
Proof. keeps_all. Qed.

Lemma onInstalled_listener_keeps (polls : nat) (b : Browser) (details : InstalledDetails) :
  keeps ports_and_timer (onInstalled_listener polls b details).
Proof. keeps_all. Qed.

Lemma saveToStorage_keeps_ports : keeps cookiePopupPorts saveToStorage.
Proof. keeps_all. Qed.

Lemma save_timer_fires_keeps_ports : keeps cookiePopupPorts save_timer_fires.
Proof. keeps_all. Qed.

Lemma handleConnect_keeps_timer (p : Port.t) :
  keeps (fun w => (delaySave w, timers w)) (handleConnect p).
Proof. keeps_all. Qed.

Lemma port_onDisconnect_listener_keeps_timer (dp : Port.t) :
  keeps (fun w => (delaySave w, timers w)) (port_onDisconnect_listener dp).
Proof. keeps_all. Qed.

(** *** Invariants of the event loop *)

Lemma preserves_bind {A B} (P : World -> Prop) (m : M A) (k : A -> M B) :
  preserves P m -> (forall a, preserves P (k a)) -> preserves P (bind m k).
Proof.
  intros Hm Hk w Hw. unfold bind. specialize (Hm w Hw).
  destruct (m w) as [es w' [a| |]]; cbn in *; try assumption.
  specialize (Hk a w' Hm). destruct (k a w') as [es' w'' c']; cbn in *. assumption.
Qed.

Lemma preserves_for_each {A} (P : World -> Prop) (l : list A) (body : A -> M unit) :
  (forall x, preserves P (body x)) -> preserves P (for_each l body).
Proof.
  intros Hbody. induction l as [|x l IH]; cbn [for_each].
  - intros w Hw. exact Hw.
  - apply preserves_bind; [apply Hbody | intros _; exact IH].
Qed.

Lemma preserves_isolated (P : World -> Prop) (m : M unit) :
  preserves P m -> preserves P (isolated m).
Proof. intros Hm w Hw. rewrite final_isolated. apply Hm, Hw. Qed.

Lemma keeps_preserves {X A} (f : World -> X) (P : World -> Prop) (m : M A) :
  (forall w w', f w' = f w -> P w -> P w') -> keeps f m -> preserves P m.
Proof. intros HP Hm w Hw. apply (HP w); [apply Hm | exact Hw]. Qed.

Lemma after_preserves (P : World -> Prop) (polls : nat) :
  (forall b ev, preserves P (react polls b ev)) ->
  forall evs w, P w -> P (after polls evs w).
Proof.
  intros Hreact evs. induction evs as [|[b ev] evs IH]; intros w Hw; cbn [after].
  - exact Hw.
  - apply IH, Hreact, Hw.
Qed.

Lemma save_invariant_frame (w w' : World) :
  save_timer_state w' = save_timer_state w -> save_invariant w -> save_invariant w'.
Proof. unfold save_timer_state, save_invariant. intros [= -> ->]. trivial. Qed.

Lemma ports_invariant_frame (w w' : World) :
  cookiePopupPorts w' = cookiePopupPorts w -> ports_invariant w -> ports_invariant w'.
Proof. unfold ports_invariant. intros ->. trivial. Qed.

Lemma saveToStorage_save_invariant : preserves save_invariant saveToStorage.
Proof.
  intros w. unfold save_invariant, saveToStorage, bind, read, write, ret.
  destruct w as [s c d ps ls ss ts]; cbn. destruct d; cbn; intros ->; reflexivity.
Qed.

Lemma call_subscriber_save_invariant (s : Subscriber) :
  preserves save_invariant (call_subscriber s).
Proof.
  destruct s; cbn [call_subscriber].
  - apply (keeps_preserves save_timer_state); [apply save_invariant_frame | keeps_all].
  - apply saveToStorage_save_invariant.
Qed.

Lemma call_listener_keeps_save_timer (polls : nat) (b : Browser) (ev : Event) (l : Listener) :
  keeps save_timer_state (call_listener polls b ev l).
Proof. destruct l, ev; cbn [call_listener]; keeps_all. Qed.

Lemma react_save_invariant (polls : nat) (b : Browser) (ev : Event) :
  preserves save_invariant (react polls b ev).
Proof.
  assert (Hothers : preserves save_invariant
            (ls <- read listeners ;;
             for_each (filter (fun r => Some (fst r) = target_of ev) ls)
               (fun r => isolated (call_listener polls b ev (snd r))))).
  { apply (keeps_preserves save_timer_state); [apply save_invariant_frame|].
    apply keeps_bind; [keeps_all | intros ls].
    apply keeps_for_each. intros r. apply keeps_isolated, call_listener_keeps_save_timer. }
  destruct ev; cbn [react]; try exact Hothers.
  - apply (keeps_preserves save_timer_state); [apply save_invariant_frame | keeps_all].
  - apply (keeps_preserves save_timer_state); [apply save_invariant_frame | keeps_all].
  - apply preserves_bind; [intros w Hw; exact Hw | intros ss].
    apply preserves_for_each. intros s. apply preserves_isolated, call_subscriber_save_invariant.
  - apply (keeps_preserves save_timer_state); [apply save_invariant_frame | keeps_all].
  - intros w. unfold save_invariant, save_timer_fires, isolated, bind, read, write, ret,
      getState, call, throw.
    destruct w as [s c d ps ls ss ts]; cbn.
    destruct d; intros ->; cbn; [|reflexivity].
    destruct s; reflexivity.
Qed.

Lemma handleConnect_run (p : Port.t) (name : string) (w : World) :
  Port.name p = Some name -> startsWith name "popupCAD_" = true ->
  handleConnect p w =
    {| effects := [port_postMessage p (cookieUpdated true)];
       final :=
         with_cookiePopupPorts (cookiePopupPorts w ++ [p])
           (with_listeners
              ((if hasListener cookies_onChanged the_onCookiePopupUpdates w
                then listeners w
                else listeners w ++ [(cookies_onChanged, the_onCookiePopupUpdates)])
               ++ [(port_onMessage p, the_port_onMessage_listener);
                   (port_onDisconnect p, the_port_onDisconnect_listener)]) w);
       completion := Returned tt |}.
Proof.
  intros Hname Hpre. unfold handleConnect. rewrite Hname.
  rewrite (startsWith_nonempty _ _ _ Hpre), Hpre. cbn [negb orb].
  unfold bind, read, when, addListener, write, call, ret.
  destruct (hasListener cookies_onChanged the_onCookiePopupUpdates w); cbn;
    rewrite <- app_assoc; reflexivity.
Qed.

Lemma handleConnect_rejects (p : Port.t) (w : World) :
  accepted p = false -> handleConnect p w = ret tt w.
Proof.
  unfold accepted, handleConnect. destruct (Port.name p) as [name|]; [|reflexivity].
  intros ->. rewrite orb_true_r. reflexivity.
Qed.

Lemma handleConnect_ports_invariant (p : Port.t) : preserves ports_invariant (handleConnect p).
Proof.
  intros w Hw. destruct (accepted p) eqn:Hp.
  - unfold accepted in Hp. destruct (Port.name p) as [name|] eqn:Hname; [|discriminate].
    rewrite (handleConnect_run p name w Hname Hp). unfold ports_invariant; cbn.
    apply Forall_app. split; [exact Hw|]. constructor; [|constructor].
    unfold accepted. rewrite Hname. exact Hp.
  - rewrite handleConnect_rejects by exact Hp. exact Hw.
Qed.

Lemma findIndex_remove_first {A} (f : A -> bool) (l : list A) :
  match findIndex f l with Some i => delete i l | None => l end = remove_first f l.
Proof.
  induction l as [|x l IH]; cbn; [reflexivity|].
  destruct (f x); [reflexivity|].
  destruct (findIndex f l) as [i|]; cbn in *; rewrite <- IH; reflexivity.
Qed.

Lemma findIndex_ext {A} (f g : A -> bool) (l : list A) :
  (forall x, f x = g x) -> findIndex f l = findIndex g l.
Proof.
  intros Hfg. induction l as [|x l IH]; cbn; [reflexivity|].
  rewrite Hfg, IH. reflexivity.
Qed.

Lemma Forall_remove_first {A} (P : A -> Prop) (f : A -> bool) (l : list A) :
  Forall P l -> Forall P (remove_first f l).
Proof.
  induction 1 as [|x l Hx Hl IH]; cbn; [constructor|].
  destruct (f x); [exact Hl | constructor; assumption].
Qed.

Lemma same_name_named (dp pp : Port.t) (name : string) :
  Port.name dp = Some name -> nonempty name = true ->
  (if unnamed pp then false else bool_decide (Port.name pp = Port.name dp)) = named name pp.
Proof.
  intros Hdp Hne. unfold unnamed, named. rewrite Hdp.
  destruct (Port.name pp) as [n|]; [|reflexivity].
  destruct (nonempty n) eqn:Hn; [reflexivity|]. cbn.
  symmetry. apply bool_decide_eq_false. intros [= ->]. congruence.
Qed.

Lemma filter_absent {A} `{EqDecision A} (x : A) (l : list A) :
  x ∉ l -> filter (fun r => r <> x) l = l.
Proof.
  induction l as [|y l IH]; intros Hx; [reflexivity|].
  rewrite filter_cons. apply not_elem_of_cons in Hx as [Hxy Hl].
  destruct (decide (y <> x)) as [_|Hyx]; [rewrite IH by exact Hl; reflexivity|].
  exfalso. apply Hyx. congruence.
Qed.

Lemma one_port (n : nat) : (Z.of_nat n - 1 =? 0) = (n =? 1)%nat.
Proof. destruct (Z.eqb_spec (Z.of_nat n - 1) 0), (Nat.eqb_spec n 1); lia || reflexivity. Qed.

Lemma port_onDisconnect_listener_run (dp : Port.t) (w : World) :
  effects (port_onDisconnect_listener dp w) = []
  /\ completion (port_onDisconnect_listener dp w) = Returned tt
  /\ listeners (final (port_onDisconnect_listener dp w))
     = (if (length (cookiePopupPorts w) =? 1)%nat
        then filter (fun r => r <> (cookies_onChanged, the_onCookiePopupUpdates)) (listeners w)
        else listeners w)
  /\ cookiePopupPorts (final (port_onDisconnect_listener dp w))
     = (if unnamed dp then cookiePopupPorts w
        else remove_first (fun pp => if unnamed pp then false
                                     else bool_decide (Port.name pp = Port.name dp))
                          (cookiePopupPorts w)).
Proof.
  rewrite <- one_port, <- findIndex_remove_first.
  unfold port_onDisconnect_listener, bind, read, when, removeListener, write, ret. cbn.
  destruct (Z.of_nat (length (cookiePopupPorts w)) - 1 =? 0); cbn.
  - unfold hasListener.
    destruct (bool_decide_reflect
                ((cookies_onChanged, the_onCookiePopupUpdates) ∈ listeners w)) as [Hin|Hout];
      cbn; rewrite ?(filter_absent _ _ Hout);
      (destruct (unnamed dp); cbn; [repeat split; reflexivity|]);
      (destruct (findIndex _ (cookiePopupPorts w)); cbn; repeat split; reflexivity).
  - destruct (unnamed dp); cbn; [repeat split; reflexivity|].
    destruct (findIndex _ (cookiePopupPorts w)); cbn; repeat split; reflexivity.
Qed.

Lemma port_onDisconnect_listener_ports_invariant (dp : Port.t) :
  preserves ports_invariant (port_onDisconnect_listener dp).
Proof.
  intros w Hw. unfold ports_invariant.
  destruct (port_onDisconnect_listener_run dp w) as (_ & _ & _ & ->).
  destruct (unnamed dp); [exact Hw | apply Forall_remove_first, Hw].
Qed.

Lemma call_listener_ports_invariant (polls : nat) (b : Browser) (ev : Event) (l : Listener) :
  preserves ports_invariant (call_listener polls b ev l).
Proof.
  destruct l, ev; cbn [call_listener];
    try (apply handleConnect_ports_invariant);
    try (apply port_onDisconnect_listener_ports_invariant);
    (apply (keeps_preserves cookiePopupPorts); [apply ports_invariant_frame | keeps_all]).
Qed.

Lemma react_ports_invariant (polls : nat) (b : Browser) (ev : Event) :
  preserves ports_invariant (react polls b ev).
Proof.
  assert (Hothers : preserves ports_invariant
            (ls <- read listeners ;;
             for_each (filter (fun r => Some (fst r) = target_of ev) ls)
               (fun r => isolated (call_listener polls b ev (snd r))))).
  { apply preserves_bind; [intros w Hw; exact Hw | intros ls].
    apply preserves_for_each. intros r.
    apply preserves_isolated, call_listener_ports_invariant. }
  destruct ev; cbn [react]; try exact Hothers;
    (apply (keeps_preserves cookiePopupPorts); [apply ports_invariant_frame | keeps_all]).
Qed.

(** *** Handlers that only call out and dispatch *)

Lemma tame_ret {A} (P : Effect -> bool) (a : A) : tame P (ret a).
Proof.
  intros w st Hst. exists a. cbn. rewrite (with_store_same _ _ Hst). repeat split.
Qed.

Lemma tame_call (P : Effect -> bool) (e : Effect) :
  P e = true -> dispatches [e] = [] -> tame P (call e).
Proof.
  intros He Hcall w st Hst. exists tt. cbn [call effects final completion forallb].
  rewrite He, Hcall. cbn. rewrite (with_store_same _ _ Hst). repeat split.
Qed.

Lemma tame_getState (P : Effect -> bool) : tame P getState.
Proof.
  intros w st Hst. exists st. rewrite (getState_run _ _ Hst). cbn.
  rewrite (with_store_same _ _ Hst). repeat split.
Qed.

Lemma tame_dispatch (P : Effect -> bool) (a : Action) :
  P (store_dispatch a) = true -> tame P (dispatch a).
Proof.
  intros Ha w st Hst. exists tt. rewrite (dispatch_run _ _ _ Hst). cbn. rewrite Ha.
  repeat split.
Qed.

Lemma tame_bind {A B} (P : Effect -> bool) (m : M A) (k : A -> M B) :
  tame P m -> (forall a, tame P (k a)) -> tame P (bind m k).
Proof.
  intros Hm Hk w st Hst. destruct (Hm w st Hst) as (a & Hc & Hf & HP).
  rewrite (bind_returned _ _ _ _ Hc). cbn [effects final completion].
  assert (Hst' : store (final (m w)) = Some (replay (dispatches (effects (m w))) st))
    by (rewrite Hf; reflexivity).
  destruct (Hk a _ _ Hst') as (b & Hc' & Hf' & HP').
  exists b. split; [exact Hc'|]. split.
  - rewrite Hf', dispatches_app, replay_app. rewrite Hf at 2. reflexivity.
  - rewrite forallb_app, HP, HP'. reflexivity.
Qed.

Lemma tame_for_each {A} (P : Effect -> bool) (l : list A) (body : A -> M unit) :
  (forall x, tame P (body x)) -> tame P (for_each l body).
Proof.
  intros Hbody. induction l as [|x l IH]; cbn [for_each].
  - apply tame_ret.
  - apply tame_bind; [apply Hbody | intros _; exact IH].
Qed.

Lemma tame_when (P : Effect -> bool) (c : bool) (m : M unit) : tame P m -> tame P (when c m).
Proof. intros Hm. destruct c; [exact Hm | apply tame_ret]. Qed.

End Frames.

Ltac tame_step :=
  lazymatch goal with
  | |- tame _ (bind _ _) => apply tame_bind; [|intros ?]
  | |- tame _ (for_each _ _) => apply tame_for_each; intros ?
  | |- tame _ (when _ _) => apply tame_when
  | |- tame _ (if ?c then _ else _) => destruct c
  | |- tame _ (match ?x with _ => _ end) => destruct x
  | |- tame _ (call _) => apply tame_call; reflexivity
  | |- tame _ (ret _) => apply tame_ret
  | |- tame _ getState => apply tame_getState
  | |- tame _ (dispatch _) => apply tame_dispatch; reflexivity
  | |- tame _ ?m => let h := head_of m in unfold h
  end.

Section Tame.
Context {T : Typings} {C : Collaborators}.

(** *** The migrations of an update *)

Lemma migrate_CleanLocalstorage_defaults_tame (b : Browser) :
  tame adds_defaults (migrate_CleanLocalstorage_defaults b).
Proof. repeat tame_step. Qed.

(** A loop that dispatches [g x] for the elements with [f x]. *)
Lemma for_each_dispatch {A} (f : A -> bool) (g : A -> Action) (l : list A)
    (w : World) (st : State) :
  store w = Some st ->
  for_each l (fun x => if f x then dispatch (g x) else ret tt) w =
    {| effects := map (fun x => store_dispatch (g x)) (List.filter f l);
       final := with_store (Some (replay (map g (List.filter f l)) st)) w;
       completion := Returned tt |}.
Proof.
  revert w st. induction l as [|x l IH]; intros w st Hst; cbn [for_each List.filter map].
  - cbn. rewrite (with_store_same _ _ Hst). reflexivity.
  - destruct (f x).
    + rewrite (bind_dispatch _ _ _ _ Hst).
      rewrite (IH _ (reduce (g x) st)) by reflexivity. reflexivity.
    + rewrite bind_ret. apply IH, Hst.
Qed.

Lemma for_each_lists_dispatch {A} (f : A -> bool) (g : A -> Action) (ls : list (list A))
    (w : World) (st : State) :
  store w = Some st ->
  for_each ls (fun l => for_each l (fun x => if f x then dispatch (g x) else ret tt)) w =
    {| effects := map (fun x => store_dispatch (g x)) (List.filter f (concat ls));
       final := with_store (Some (replay (map g (List.filter f (concat ls))) st)) w;
       completion := Returned tt |}.
Proof.
  revert w st. induction ls as [|l ls IH]; intros w st Hst; cbn [for_each concat].
  - cbn. rewrite (with_store_same _ _ Hst). reflexivity.
  - rewrite (bind_run _ _ _ _ _ _ (for_each_dispatch f g l w st Hst)).
    rewrite (IH _ (replay (map g (List.filter f l)) st)) by reflexivity.
    cbn [effects final completion].
    rewrite List.filter_app, !map_app, replay_app. reflexivity.
Qed.

End Tame.

(** *** Calls a handler never makes *)

Section Only.
Context {T : Typings} {C : Collaborators}.

Lemma only_bind {A B} (P : Effect -> bool) (m : M A) (k : A -> M B) :
  only P m -> (forall a, only P (k a)) -> only P (bind m k).
Proof.
  intros Hm Hk w. unfold bind. specialize (Hm w).
  destruct (m w) as [es w' [a| |]]; cbn in *; try assumption.
  specialize (Hk a w'). destruct (k a w') as [es' w'' c']; cbn in *.
  rewrite forallb_app, Hm, Hk. reflexivity.
Qed.

Lemma only_for_each {A} (P : Effect -> bool) (l : list A) (body : A -> M unit) :
  (forall x, only P (body x)) -> only P (for_each l body).
Proof.
  intros Hbody. induction l as [|x l IH]; cbn [for_each].
  - intros w. reflexivity.
  - apply only_bind; [apply Hbody | intros _; exact IH].
Qed.

Lemma only_when (P : Effect -> bool) (c : bool) (m : M unit) : only P m -> only P (when c m).
Proof. intros Hm. destruct c; [exact Hm | intros w; reflexivity]. Qed.

Lemma only_isolated (P : Effect -> bool) (m : M unit) : only P m -> only P (isolated m).
Proof. intros Hm w. rewrite effects_isolated. apply Hm. Qed.

Lemma only_awaitStore (P : Effect -> bool) (polls : nat) :
  P (sleep 250) = true -> only P (awaitStore polls).
Proof.
  intros Hs w. destruct (store w) as [st|] eqn:Hst.
  - rewrite (awaitStore_ready _ _ st Hst). reflexivity.
  - rewrite (awaitStore_polling _ _ Hst). cbn [effects].
    induction polls as [|n IH]; cbn; [reflexivity | rewrite Hs; exact IH].
Qed.

Lemma only_call (P : Effect -> bool) (e : Effect) : P e = true -> only P (call e).
Proof. intros He w. cbn. rewrite He. reflexivity. Qed.

Lemma only_dispatch (P : Effect -> bool) (a : Action) :
  P (store_dispatch a) = true -> only P (dispatch a).
Proof. intros Ha w. unfold dispatch. destruct (store w); cbn; [rewrite Ha|]; reflexivity. Qed.

Lemma only_In {A} (P : Effect -> bool) (m : M A) (w : World) (e : Effect) :
  only P m -> P e = false -> ~ In e (effects (m w)).
Proof.
  intros Hm He Hin. specialize (Hm w). rewrite forallb_forall in Hm.
  rewrite (Hm e Hin) in He. discriminate He.
Qed.

End Only.

(** The statements that call nothing. *)
Ltac only_silent :=
  let w := fresh "w" in
  intros w;
  cbv [read write ret throw getState subscribe deref addListener removeListener effects];
  try destruct (store w);
  reflexivity.

Ltac only_step :=
  lazymatch goal with
  | |- only _ (bind _ _) => apply only_bind; [|intros ?]
  | |- only _ (for_each _ _) => apply only_for_each; intros ?
  | |- only _ (when _ _) => apply only_when
  | |- only _ (isolated _) => apply only_isolated
  | |- only _ (awaitStore _) => apply only_awaitStore; reflexivity
  | |- only _ (if ?c then _ else _) => destruct c
  | |- only _ (match ?x with _ => _ end) => destruct x
  | |- only _ (call _) => apply only_call; reflexivity
  | |- only _ (dispatch _) => apply only_dispatch; reflexivity
  | |- only _ (read _) => only_silent
  | |- only _ (write _) => only_silent
  | |- only _ (ret _) => only_silent
  | |- only _ (throw _) => only_silent
  | |- only _ getState => only_silent
  | |- only _ (subscribe _) => only_silent
  | |- only _ (deref _ ?o) => destruct o; only_silent
  | |- only _ (addListener _ _) => only_silent
  | |- only _ (removeListener _ _) => only_silent
  | |- only _ ?m => let h := head_of m in unfold h
  end.

Ltac only_all := repeat only_step.

(** One statement further, in a state whose store is known. *)
Ltac store_known := first [eassumption | reflexivity].

Ltac run_step :=
  first
    [ rewrite bind_assoc
    | rewrite bind_ret
    | rewrite bind_read
    | rewrite bind_write
    | rewrite bind_call
    | erewrite bind_awaitStore by store_known
    | erewrite bind_getState by store_known
    | erewrite bind_dispatch by store_known
    | erewrite dispatch_run by store_known
    | erewrite getState_run by store_known ].

Ltac run := repeat run_step.

(** ** The properties *)

Section Properties.
Context {T : Typings} {C : Collaborators}.

(** *** Startup of the script *)

Lemma stateFromStorage_parsed (storage : gmap string string) (state : string) (parsed : Json) :
  JSON_parse "" = None ->
  storage !! "state" = Some state -> JSON_parse state = Some parsed ->
  stateFromStorage storage = parsed.
Proof.
  intros Hempty Hstate Hparse. unfold stateFromStorage. rewrite Hstate.
  unfold nonempty. destruct (String.eqb_spec state "") as [->|_]; cbn.
  - congruence.
  - rewrite Hparse. reflexivity.
Qed.

Lemma stateFromStorage_absent (storage : gmap string string) :
  storage !! "state" = None -> stateFromStorage storage = emptyObject.
Proof. intros H. unfold stateFromStorage. rewrite H. reflexivity. Qed.

Lemma stateFromStorage_throws (storage : gmap string string) (state : string) :
  storage !! "state" = Some state -> JSON_parse state = None ->
  stateFromStorage storage = emptyObject.
Proof.
  intros Hstate Hparse. unfold stateFromStorage. rewrite Hstate.
  destruct (nonempty state); [rewrite Hparse|]; reflexivity.
Qed.

Lemma snoc_chain {X} (l : list X) (a b c d e f : X) :
  (((((l ++ [a]) ++ [b]) ++ [c]) ++ [d]) ++ [e]) ++ [f] = l ++ [a; b; c; d; e; f].
Proof. induction l as [|x l IH]; cbn; [reflexivity | f_equal; exact IH]. Qed.

Lemma onStartUp_resumes_run (b : Browser) (storage : gmap string string) (w : World) :
  completion (onStartUp_resumes b storage w) = Returned tt
  /\ stores_created (effects (onStartUp_resumes b storage w)) = [stateFromStorage storage]
  /\ store (final (onStartUp_resumes b storage w))
     = Some (replay (dispatches (effects (onStartUp_resumes b storage w)))
                    (createStore (stateFromStorage storage)))
  /\ listeners (final (onStartUp_resumes b storage w))
     = listeners w ++
       [(tabs_onUpdated, TabEvents_onDomainChange);
        (tabs_onUpdated, TabEvents_onTabDiscarded);
        (tabs_onUpdated, TabEvents_onTabUpdate);
        (tabs_onRemoved, TabEvents_onDomainChangeRemove);
        (tabs_onRemoved, TabEvents_cleanFromTabEvents);
        (cookies_onChanged, CookieEvents_onCookieChanged)].
Proof.
  unfold onStartUp_resumes.
  destruct (strict_eq (browserDetect b) browserName_Firefox); cbn;
    destruct (truthy (getSetting _ "contextualIdentities"));
    destruct (contextMenus b);
    (repeat split; [vm_compute; reflexivity .. | ]);
    rewrite <- snoc_chain; vm_compute; reflexivity.
Qed.

Lemma onStartUp_resumes_first (b : Browser) (storage : gmap string string) (w : World) :
  exists rest,
    effects (onStartUp_resumes b storage w) = store_create (stateFromStorage storage) :: rest.
Proof. unfold onStartUp_resumes. rewrite bind_call. eexists. reflexivity. Qed.

Lemma onStartUp_unfold (b : Browser) (w : World) :
  onStartUp b w =
    {| effects :=
         [browserAction_setTitle
            (manifest_name b +:+ " " +:+ manifest_version b +:+ " [STARTING UP...] (0)");
          storage_local_get] ++ effects (onStartUp_resumes b (storage_local b) w);
       final := final (onStartUp_resumes b (storage_local b) w);
       completion := completion (onStartUp_resumes b (storage_local b) w) |}.
Proof.
  unfold onStartUp.
  apply (bind_run (onStartUp_begins b) (fun _ => onStartUp_resumes b (storage_local b)) w w _ tt).
  reflexivity.
Qed.

Lemma onStartUp_run (b : Browser) (w : World) :
  completion (onStartUp b w) = Returned tt
  /\ stores_created (effects (onStartUp b w)) = [stateFromStorage (storage_local b)]
  /\ store (final (onStartUp b w))
     = Some (replay (dispatches (effects (onStartUp b w)))
                    (createStore (stateFromStorage (storage_local b))))
  /\ listeners (final (onStartUp b w))
     = listeners w ++
       [(tabs_onUpdated, TabEvents_onDomainChange);
        (tabs_onUpdated, TabEvents_onTabDiscarded);
        (tabs_onUpdated, TabEvents_onTabUpdate);
        (tabs_onRemoved, TabEvents_onDomainChangeRemove);
        (tabs_onRemoved, TabEvents_cleanFromTabEvents);
        (cookies_onChanged, CookieEvents_onCookieChanged)].
Proof.
  rewrite onStartUp_unfold. cbn [effects final completion].
  destruct (onStartUp_resumes_run b (storage_local b) w) as (H1 & H2 & H3 & H4).
  repeat split; assumption.
Qed.

Lemma onStartUp_then_final (w : World) : final (onStartUp_then w) = w.
Proof. unfold onStartUp_then, getState, bind. destruct (store w); reflexivity. Qed.

(** C1. On startup the store is initialised from disk: [onStartUp]
    reads the local storage and then creates the store, once, from
    [JSON.parse(storage.state)] when the entry exists
    and parses ([JSON.parse] throws on the empty string), and from the
    empty object when the entry is absent or [JSON.parse] throws; in every
    case [onStartUp] returns, and the store then holds the created state
    with the dispatched actions applied. *)
Theorem onStartUp_store_from_disk (b : Browser) (w : World) :
  (JSON_parse "" = None ->
   forall state parsed,
     storage_local b !! "state" = Some state -> JSON_parse state = Some parsed ->
     stateFromStorage (storage_local b) = parsed)
  /\ (storage_local b !! "state" = None ->
      stateFromStorage (storage_local b) = emptyObject)
  /\ (forall state,
        storage_local b !! "state" = Some state -> JSON_parse state = None ->
        stateFromStorage (storage_local b) = emptyObject)
  /\ completion (onStartUp b w) = Returned tt
  /\ (exists rest,
        effects (onStartUp b w)
        = browserAction_setTitle
            (manifest_name b +:+ " " +:+ manifest_version b +:+ " [STARTING UP...] (0)")
          :: storage_local_get
          :: store_create (stateFromStorage (storage_local b)) :: rest)
  /\ stores_created (effects (onStartUp b w)) = [stateFromStorage (storage_local b)]
  /\ store (final (onStartUp b w))
     = Some (replay (dispatches (effects (onStartUp b w)))
                    (createStore (stateFromStorage (storage_local b)))).
Proof.
  destruct (onStartUp_run b w) as (Hret & Hcreated & Hstore & _).
  split; [|split; [|split; [|split; [|split; [|split]]]]]; try assumption.
  - intros Hempty state parsed. apply stateFromStorage_parsed, Hempty.
  - apply stateFromStorage_absent.
  - apply stateFromStorage_throws.
  - destruct (onStartUp_resumes_first b (storage_local b) w) as [rest Hrest].
    exists rest. rewrite onStartUp_unfold. cbn [effects]. rewrite Hrest. reflexivity.
Qed.

Lemma background_script_listeners (b : Browser) (w : World) :
  listeners (final (background_script b w))
  = listeners w ++
    [(runtime_onConnect, the_handleConnect);
     (runtime_onStartup, the_onStartup_listener);
     (runtime_onInstalled, the_onInstalled_listener)].
Proof.
  unfold background_script, onStartUp_begins. cbn.
  induction (listeners w) as [|x l IH]; cbn; [reflexivity | f_equal; exact IH].
Qed.

(** C2. The script subscribes to exactly the announced browser events:
    the module's own statements register [handleConnect] on
    runtime.onConnect and the listeners of runtime.onStartup and
    runtime.onInstalled; [onStartUp] registers three listeners on
    tabs.onUpdated, two on tabs.onRemoved and
    [CookieEvents.onCookieChanged] on cookies.onChanged; once the script
    has loaded and started up, these nine are all the registrations. *)
Theorem subscribed_events (polls : nat) (b b' : Browser) (w : World) :
  listeners (final (background_script b w))
  = listeners w ++
    [(runtime_onConnect, the_handleConnect);
     (runtime_onStartup, the_onStartup_listener);
     (runtime_onInstalled, the_onInstalled_listener)]
  /\ listeners (final (onStartUp b w))
     = listeners w ++
       [(tabs_onUpdated, TabEvents_onDomainChange);
        (tabs_onUpdated, TabEvents_onTabDiscarded);
        (tabs_onUpdated, TabEvents_onTabUpdate);
        (tabs_onRemoved, TabEvents_onDomainChangeRemove);
        (tabs_onRemoved, TabEvents_cleanFromTabEvents);
        (cookies_onChanged, CookieEvents_onCookieChanged)]
  /\ listeners (after polls [(b, Script_loads); (b', Storage_answers)] module_start)
     = [(runtime_onConnect, the_handleConnect);
        (runtime_onStartup, the_onStartup_listener);
        (runtime_onInstalled, the_onInstalled_listener);
        (tabs_onUpdated, TabEvents_onDomainChange);
        (tabs_onUpdated, TabEvents_onTabDiscarded);
        (tabs_onUpdated, TabEvents_onTabUpdate);
        (tabs_onRemoved, TabEvents_onDomainChangeRemove);
        (tabs_onRemoved, TabEvents_cleanFromTabEvents);
        (cookies_onChanged, CookieEvents_onCookieChanged)].
Proof.
  split; [|split].
  - apply background_script_listeners.
  - apply onStartUp_run.
  - cbn [after react]. rewrite !final_isolated.
    set (w1 := final (background_script b module_start)).
    destruct (onStartUp_resumes_run b' (storage_local b') w1) as (Hret & _ & _ & Hl).
    rewrite (bind_returned _ _ _ tt Hret). cbn [final].
    rewrite onStartUp_then_final, Hl. reflexivity.
Qed.

(** *** Popup ports *)

Lemma flat_map_if {A B} (f : A -> bool) (g : A -> B) (l : list A) :
  flat_map (fun x => if f x then [g x] else []) l = map g (List.filter f l).
Proof.
  induction l as [|x l IH]; cbn; [reflexivity|].
  destruct (f x); cbn; rewrite IH; reflexivity.
Qed.

Lemma onCookiePopupUpdates_run (changeInfo : ChangeInfo) (w : World) :
  onCookiePopupUpdates changeInfo w =
    {| effects := map (fun p => port_postMessage p (cookieUpdated true))
                      (List.filter (watches changeInfo) (cookiePopupPorts w));
       final := w; completion := Returned tt |}.
Proof.
  unfold onCookiePopupUpdates.
  rewrite (bind_run (read cookiePopupPorts) _ w w [] (cookiePopupPorts w)) by reflexivity.
  rewrite (for_each_run _ _
             (fun p => if watches changeInfo p
                       then [port_postMessage p (cookieUpdated true)] else []) w).
  - cbn. rewrite flat_map_if. reflexivity.
  - intros p _. unfold watches. destruct (Port.name p) as [name|]; [|reflexivity].
    rewrite after_prefix_slice.
    destruct (startsWith name "popupCAD_") eqn:Hpre.
    + rewrite (startsWith_nonempty _ _ _ Hpre). cbn [negb String.length].
      destruct (endsWith _ _ || endsWith _ _); reflexivity.
    + destruct (nonempty name); reflexivity.
Qed.

Lemma watches_shows_domain (changeInfo : ChangeInfo) (p : Port.t) :
  watches changeInfo p = true <-> shows_domain changeInfo p.
Proof.
  unfold watches, shows_domain, first_field, ends_with. split.
  - destruct (Port.name p) as [name|]; [|discriminate].
    destruct (after_prefix "popupCAD_" name) as [fields|] eqn:Hpre; [|discriminate].
    apply after_prefix_Some in Hpre. subst name. cbv zeta.
    intros Hends. exists fields, (split_first "," fields).
    split; [reflexivity|]. split; [apply split_first_is_first|].
    apply orb_true_iff in Hends. rewrite <- !endsWith_true. exact Hends.
  - intros (fields & field & -> & [Hcomma Hfields] & Hends).
    rewrite after_prefix_app. cbv zeta.
    assert (Hfield : split_first "," fields = field).
    { destruct Hfields as [->|[more ->]];
        [apply split_first_alone | apply split_first_field]; exact Hcomma. }
    rewrite Hfield. apply orb_true_iff. rewrite !endsWith_true. exact Hends.
Qed.

(** C10, amended. For every cookie-change event, [onCookiePopupUpdates]
    posts [{cookieUpdated: true}] to a stored port if and only if the
    port's name starts with "popupCAD_" and the first comma-separated
    field after that prefix ends with the changed cookie's domain or with
    [extractMainDomain] of it; every other port receives nothing, and the
    handler changes nothing else. "Ends with" is the test of the text:
    the field is some text followed by the domain, so the port of a host
    whose name merely ends with the domain is posted to as well. The
    posts are made in the order of the ports, one per port. *)
Theorem onCookiePopupUpdates_posts (changeInfo : ChangeInfo) (w : World) :
  effects (onCookiePopupUpdates changeInfo w)
  = map (fun p => port_postMessage p (cookieUpdated true))
        (List.filter (watches changeInfo) (cookiePopupPorts w))
  /\ (forall p, watches changeInfo p = true <-> shows_domain changeInfo p)
  /\ (forall p m, In (port_postMessage p m) (effects (onCookiePopupUpdates changeInfo w))
                 <-> m = cookieUpdated true /\ In p (cookiePopupPorts w)
                     /\ shows_domain changeInfo p)
  /\ final (onCookiePopupUpdates changeInfo w) = w
  /\ completion (onCookiePopupUpdates changeInfo w) = Returned tt.
Proof.
  rewrite onCookiePopupUpdates_run. cbn [effects final completion].
  split; [reflexivity|]. split; [apply watches_shows_domain|]. split; [|split; reflexivity].
  intros p m. rewrite <- watches_shows_domain, in_map_iff. split.
  - intros (q & Hq & Hin). apply filter_In in Hin as [Hin Hw].
    injection Hq as <- <-. repeat split; assumption.
  - intros (-> & Hin & Hw). exists p. split; [reflexivity|].
    apply filter_In. split; assumption.
Qed.

(** C8. [saveToStorage] debounces the writes to disk: in every reachable
    state at most one save timer is pending, and one is pending exactly
    while [delaySave] is set; a call made while [delaySave] is set has no
    effect, and a call made while it is clear only sets it and schedules
    the timer; when the timer fires it clears [delaySave] and writes the
    JSON text of the store's state as it is then, so a state dispatched
    after the save was requested is the one written. *)
Theorem saveToStorage_debounced (polls : nat) :
  (forall evs,
     let w := after polls evs module_start in
     (length (timers w) <= 1)%nat /\ save_invariant w)
  /\ (forall w, delaySave w = true -> saveToStorage w = ret tt w)
  /\ (forall w, delaySave w = false ->
        effects (saveToStorage w) = []
        /\ delaySave (final (saveToStorage w)) = true
        /\ timers (final (saveToStorage w)) = timers w ++ [save_timer 1000])
  /\ (forall w st, store w = Some st ->
        effects (save_timer_fires w) = [storage_local_set (JSON_stringify st)]
        /\ delaySave (final (save_timer_fires w)) = false)
  /\ (forall b w st a,
        store w = Some st -> save_invariant w -> delaySave w = false ->
        let requested := final (saveToStorage w) in
        let changed := final (react polls b (Store_dispatched a) requested) in
        effects (react polls b Timer_fires changed)
        = [storage_local_set (JSON_stringify (reduce a st))]
        /\ delaySave (final (react polls b Timer_fires changed)) = false
        /\ timers (final (react polls b Timer_fires changed)) = []).
Proof.
  split; [|split; [|split; [|split]]].
  - intros evs w.
    assert (Hinv : save_invariant w).
    { apply after_preserves; [apply react_save_invariant | reflexivity]. }
    split; [|exact Hinv]. rewrite Hinv. destruct (delaySave w); cbn; lia.
  - intros w Hd. unfold saveToStorage, bind, read, ret. cbn. rewrite Hd. reflexivity.
  - intros w Hd. unfold saveToStorage, bind, read, write, ret. cbn. rewrite Hd. cbn.
    repeat split; reflexivity.
  - intros w st Hst. unfold save_timer_fires, bind, write, getState, call, ret. cbn.
    rewrite Hst. cbn. split; reflexivity.
  - intros b w st a Hst Hinv Hd. unfold save_invariant in Hinv.
    destruct w as [s c d ps ls ss ts]; cbn in Hst, Hinv, Hd. subst s d ts.
    vm_compute. repeat split; reflexivity.
Qed.

(** C9. Every port in [cookiePopupPorts] has a name that starts with
    "popupCAD_", in every reachable state. [handleConnect] returns without
    any effect for a port whose name is missing or does not start with
    "popupCAD_"; a port it accepts is sent [{cookieUpdated: true}] at once
    and appended to [cookiePopupPorts]. When a port disconnects, the first
    stored port with the same name is removed, and the
    [onCookiePopupUpdates] listener is taken off cookies.onChanged only
    when exactly one port was stored at that time. *)
Theorem popup_ports (polls : nat) :
  (forall evs, Forall (fun p => accepted p = true)
                      (cookiePopupPorts (after polls evs module_start)))
  /\ (forall p w, accepted p = false -> handleConnect p w = ret tt w)
  /\ (forall p w, accepted p = true ->
        effects (handleConnect p w) = [port_postMessage p (cookieUpdated true)]
        /\ cookiePopupPorts (final (handleConnect p w)) = cookiePopupPorts w ++ [p]
        /\ completion (handleConnect p w) = Returned tt)
  /\ (forall dp name w, Port.name dp = Some name -> nonempty name = true ->
        cookiePopupPorts (final (port_onDisconnect_listener dp w))
        = remove_first (named name) (cookiePopupPorts w))
  /\ (forall dp w,
        listeners (final (port_onDisconnect_listener dp w))
        = if (length (cookiePopupPorts w) =? 1)%nat
          then filter (fun r => r <> (cookies_onChanged, the_onCookiePopupUpdates))
                      (listeners w)
          else listeners w).
Proof.
  split; [|split; [|split; [|split]]].
  - intros evs. apply (after_preserves ports_invariant).
    + apply react_ports_invariant.
    + constructor.
  - apply handleConnect_rejects.
  - intros p w Hp. unfold accepted in Hp.
    destruct (Port.name p) as [name|] eqn:Hname; [|discriminate].
    rewrite (handleConnect_run p name w Hname Hp). repeat split; reflexivity.
  - intros dp name w Hname Hne.
    destruct (port_onDisconnect_listener_run dp w) as (_ & _ & _ & ->).
    unfold unnamed at 1. rewrite Hname, Hne. cbn [negb].
    rewrite <- !findIndex_remove_first.
    rewrite (findIndex_ext _ (named name)); [reflexivity|].
    intros pp. rewrite <- Hname. apply same_name_named; assumption.
  - intros dp w. apply port_onDisconnect_listener_run.
Qed.

(** *** Browser startup *)

Lemma isFFSessionRestore_exists (tabs : list Tab.t) :
  isFFSessionRestore tabs = session_restore_tab tabs.
Proof.
  unfold isFFSessionRestore, session_restore_tab.
  assert (H : forall flag,
             fold_left (fun flag tab =>
                          if bool_decide (Tab.url tab = Some "about:sessionrestore")
                          then true else flag) tabs flag
             = flag || existsb (fun tab => bool_decide (Tab.url tab = Some "about:sessionrestore")) tabs).
  { induction tabs as [|tab tabs IH]; intros flag; cbn.
    - rewrite orb_false_r. reflexivity.
    - rewrite IH. destruct (bool_decide _), flag; reflexivity. }
  apply H.
Qed.

Lemma startup_cleanup_due_iff (st : State) (tabs : list Tab.t) :
  startup_cleanup_due st tabs = true
  <-> getSetting st "activeMode" = JBool true
      /\ getSetting st "enableGreyListCleanup" = JBool true
      /\ Forall (fun tab => Tab.url tab <> Some "about:sessionrestore") tabs.
Proof.
  unfold startup_cleanup_due, strict_eq, session_restore_tab.
  rewrite !andb_true_iff, !bool_decide_eq_true, negb_true_iff.
  rewrite <- not_true_iff_false, existsb_exists, Forall_forall.
  split.
  - intros ((Ha & Hg) & Ht). split; [exact Ha | split; [exact Hg|]].
    intros tab Hin Hurl. apply Ht. exists tab.
    split; [apply list_elem_of_In; exact Hin | apply bool_decide_eq_true; exact Hurl].
  - intros (Ha & Hg & Hall). split; [split; [exact Ha | exact Hg]|].
    intros (tab & Hin & Hurl). apply bool_decide_eq_true in Hurl.
    apply (Hall tab); [apply list_elem_of_In; exact Hin | exact Hurl].
Qed.

Lemma onStartup_listener_run (polls : nat) (b : Browser) (w : World) (st : State) :
  store w = Some st ->
  completion (onStartup_listener polls b w) = Returned tt
  /\ dispatches (effects (onStartup_listener polls b w))
     = (if startup_cleanup_due st (tabs_normal b)
        then [cookieCleanup true (getSetting st "cleanCookiesFromOpenTabsOnStartup")]
        else []).
Proof.
  intros Hst. unfold onStartup_listener, startup_cleanup_due, greyCleanup.
  rewrite isFFSessionRestore_exists. run.
  destruct (strict_eq (getSetting st "activeMode") (JBool true)) eqn:Ha; run;
    [|split; reflexivity].
  destruct (strict_eq (getSetting st "enableGreyListCleanup") (JBool true)); run;
    [|split; reflexivity].
  destruct (session_restore_tab (tabs_normal b)); cbn [negb]; run; [split; reflexivity|].
  apply bool_decide_eq_true in Ha. rewrite Ha. cbn [truthy]. run. split; reflexivity.
Qed.

(** C6. On the browser's runtime.onStartup event, once the store exists,
    a [cookieCleanup] action with [greyCleanup: true] is dispatched if and
    only if the activeMode setting is [true], the enableGreyListCleanup
    setting is [true], and no tab of a normal window has the url
    about:sessionrestore; when one of these fails nothing is dispatched.
    The listener returns in every case. *)
Theorem onStartup_greyCleanup (polls : nat) (b : Browser) (w : World) (st : State) :
  store w = Some st ->
  completion (onStartup_listener polls b w) = Returned tt
  /\ dispatches (effects (onStartup_listener polls b w))
     = (if startup_cleanup_due st (tabs_normal b)
        then [cookieCleanup true (getSetting st "cleanCookiesFromOpenTabsOnStartup")]
        else [])
  /\ (startup_cleanup_due st (tabs_normal b) = true
      <-> getSetting st "activeMode" = JBool true
          /\ getSetting st "enableGreyListCleanup" = JBool true
          /\ Forall (fun tab => Tab.url tab <> Some "about:sessionrestore") (tabs_normal b)).
Proof.
  intros Hst. destruct (onStartup_listener_run polls b w st Hst) as [Hc Hd].
  split; [exact Hc|]. split; [exact Hd|]. apply startup_cleanup_due_iff.
Qed.

(** *** Install and update *)

Lemma migrate_localstorageCleanup_run (w : World) (st : State) :
  store w = Some st ->
  migrate_localstorageCleanup w =
    {| effects := map store_dispatch (renamed_setting st);
       final := with_store (Some (replay (renamed_setting st) st)) w;
       completion := Returned tt |}.
Proof.
  intros Hst. unfold migrate_localstorageCleanup, renamed_setting. run.
  destruct (settings st !! "localstorageCleanup") as [s|] eqn:Hs.
  - run. rewrite Hs. cbn [deref]. run. reflexivity.
  - cbn. rewrite (with_store_same _ _ Hst). reflexivity.
Qed.

Lemma migrate_cleanLocalStorage_run (w : World) (st : State) :
  store w = Some st ->
  migrate_cleanLocalStorage w =
    {| effects := map store_dispatch (migrated_expressions st);
       final := with_store (Some (replay (migrated_expressions st) st)) w;
       completion := Returned tt |}.
Proof.
  intros Hst. unfold migrate_cleanLocalStorage, migrated_expressions. run.
  rewrite (for_each_lists_dispatch cleanLocalStorage_only
             (fun exp => UPDATE_EXPRESSION (with_cleanSiteData [LOCALSTORAGE] exp))
             _ w st Hst).
  rewrite !map_map. reflexivity.
Qed.

(** Lines 404-411: the counter reset and the new-version page. *)
Lemma onInstalled_update_ends (v : Z) (w : World) (st : State) :
  store w = Some st ->
  exists popup,
    completion
      ((when (v <? 300) (dispatch RESET_COOKIE_DELETED_COUNTER) ;;
        st' <- getState ;;
        when (truthy (getSetting st' "enableNewVersionPopup"))
             (call runtime_openOptionsPage)) w) = Returned tt
    /\ effects
         ((when (v <? 300) (dispatch RESET_COOKIE_DELETED_COUNTER) ;;
           st' <- getState ;;
           when (truthy (getSetting st' "enableNewVersionPopup"))
                (call runtime_openOptionsPage)) w)
       = (if v <? 300 then [store_dispatch RESET_COOKIE_DELETED_COUNTER] else []) ++ popup
    /\ dispatches popup = [].
Proof.
  intros Hst. destruct (v <? 300); cbn [when]; run;
    match goal with
    | |- context [truthy ?x] => destruct (truthy x)
    end; cbn [when];
    first [ exists [runtime_openOptionsPage]; repeat split; reflexivity
          | exists []; repeat split; reflexivity ].
Qed.

Lemma onInstalled_update_run (b : Browser) (details : InstalledDetails) (w : World) (st : State) :
  store w = Some st ->
  let validated := reduce validateSettings st in
  let renamed := replay (renamed_setting validated) validated in
  exists defaults popup,
    completion (onInstalled_update b details w) = Returned tt
    /\ effects (onInstalled_update b details w)
       = store_dispatch validateSettings
         :: (if convertVersionToNumber (previousVersion details) <? 350
             then map store_dispatch (renamed_setting validated)
                  ++ map store_dispatch (migrated_expressions renamed) ++ defaults
             else [])
         ++ (if convertVersionToNumber (previousVersion details) <? 300
             then [store_dispatch RESET_COOKIE_DELETED_COUNTER] else [])
         ++ popup
    /\ forallb adds_defaults defaults = true
    /\ dispatches popup = [].
Proof.
  intros Hst validated renamed. unfold onInstalled_update. run.
  destruct (convertVersionToNumber (previousVersion details) <? 350).
  - rewrite ?bind_assoc.
    erewrite bind_run by (apply migrate_localstorageCleanup_run; reflexivity).
    rewrite ?bind_assoc.
    erewrite bind_run by (apply migrate_cleanLocalStorage_run; reflexivity).
    rewrite ?bind_assoc.
    match goal with
    | |- context [bind (migrate_CleanLocalstorage_defaults b) ?k ?w3] =>
        destruct (migrate_CleanLocalstorage_defaults_tame b w3 _ eq_refl)
          as ([] & Hc & Hf & HP);
        rewrite (bind_returned _ k w3 tt Hc);
        set (defaults := effects (migrate_CleanLocalstorage_defaults b w3)) in *;
        rewrite Hf
    end.
    cbn [effects final completion prepend].
    match goal with
    | |- context [bind (when _ _) _ ?w4] =>
        destruct (onInstalled_update_ends
                    (convertVersionToNumber (previousVersion details)) w4 _ eq_refl)
          as (popup & Hc' & He' & Hp)
    end.
    exists defaults, popup. rewrite Hc', He'.
    repeat split; try assumption. cbn [app]. rewrite <- !app_assoc. reflexivity.
  - rewrite bind_ret.
    match goal with
    | |- context [bind (when _ _) _ ?w4] =>
        destruct (onInstalled_update_ends
                    (convertVersionToNumber (previousVersion details)) w4 _ eq_refl)
          as (popup & Hc' & He' & Hp)
    end.
    exists [], popup. cbn [effects final completion prepend]. rewrite Hc', He'.
    repeat split; try assumption.
Qed.

Lemma dispatches_dispatch (acts : list Action) : dispatches (map store_dispatch acts) = acts.
Proof. induction acts as [|a acts IH]; cbn; [reflexivity | f_equal; exact IH]. Qed.

Lemma adds_defaults_dispatches (es : list Effect) (a : Action) :
  forallb adds_defaults es = true -> In a (dispatches es) -> exists p, a = ADD_EXPRESSION p.
Proof.
  induction es as [|e es IH]; cbn; [intros _ []|].
  intros [He Hes]%andb_true_iff Hin.
  destruct e as [| | | | | | | | | | | |a'| | | | | | | | |]; try discriminate He;
    cbn in Hin; try (apply IH; assumption).
  destruct a'; try discriminate He. destruct Hin as [<-|Hin]; [eauto | apply IH; assumption].
Qed.

Lemma dispatches_cons (a : Action) (es : list Effect) :
  dispatches (store_dispatch a :: es) = a :: dispatches es.
Proof. reflexivity. Qed.





Lemma onInstalled_listener_begins (polls : nat) (b : Browser) (details : InstalledDetails)
    (w : World) (st : State) :
  store w = Some st ->
  onInstalled_listener polls b details w =
    prepend [checkIfProtected st]
      ((if String.eqb (reason details) "install" then call runtime_openOptionsPage
        else if String.eqb (reason details) "update" then onInstalled_update b details
        else ret tt) w).
Proof. intros Hst. unfold onInstalled_listener. run. reflexivity. Qed.

(** C3. For every onInstalled event, once the store exists: when
    [details.reason] is "install" the handler opens the options page and
    dispatches no action; when it is "update" it dispatches
    [validateSettings] first, and RESET_COOKIE_DELETED_COUNTER is among the
    actions it dispatches afterwards exactly when
    [convertVersionToNumber(details.previousVersion) < 300]; for any other
    reason it dispatches nothing, opens nothing and leaves the state as it
    was. In each case it first refreshes the icon with [checkIfProtected],
    and it returns. *)
Theorem onInstalled_by_reason (polls : nat) (b : Browser) (details : InstalledDetails)
    (w : World) (st : State) :
  store w = Some st ->
  completion (onInstalled_listener polls b details w) = Returned tt
  /\ (reason details = "install" ->
      effects (onInstalled_listener polls b details w)
      = [checkIfProtected st; runtime_openOptionsPage]
      /\ dispatches (effects (onInstalled_listener polls b details w)) = []
      /\ final (onInstalled_listener polls b details w) = w)
  /\ (reason details = "update" ->
      exists rest,
        dispatches (effects (onInstalled_listener polls b details w))
        = validateSettings :: rest
        /\ (In RESET_COOKIE_DELETED_COUNTER rest
            <-> convertVersionToNumber (previousVersion details) < 300))
  /\ (reason details <> "install" -> reason details <> "update" ->
      effects (onInstalled_listener polls b details w) = [checkIfProtected st]
      /\ final (onInstalled_listener polls b details w) = w).
Proof.
  intros Hst. rewrite (onInstalled_listener_begins _ _ _ _ _ Hst).
  destruct (onInstalled_update_run b details w st Hst)
    as (defaults & popup & Hc & He & Hdefaults & Hpopup).
  cbn [prepend effects final completion].
  split; [|split; [|split]].
  - destruct (String.eqb (reason details) "install"); [reflexivity|].
    destruct (String.eqb (reason details) "update"); [exact Hc | reflexivity].
  - intros ->. cbn. repeat split; reflexivity.
  - intros Hr. rewrite Hr. cbn [String.eqb Ascii.eqb Bool.eqb andb].
    rewrite He, dispatches_app. change (dispatches [checkIfProtected st]) with (@nil Action).
    cbn [app]. rewrite dispatches_cons.
    eexists. split; [reflexivity|].
    rewrite !dispatches_app, !in_app_iff, Hpopup.
    destruct (Z.ltb_spec (convertVersionToNumber (previousVersion details)) 300) as [Hlt|Hge].
    + split; [intros _; exact Hlt | intros _; right; left; left; reflexivity].
    + split; [|lia]. intros [Hin|[[]|[]]]. exfalso.
      destruct (convertVersionToNumber (previousVersion details) <? 350); [|destruct Hin].
      rewrite !dispatches_app, !dispatches_dispatch, !in_app_iff in Hin.
      destruct Hin as [Hin|[Hin|Hin]].
      * unfold renamed_setting in Hin.
        destruct (settings _ !! "localstorageCleanup"); [destruct Hin as [|[]]|destruct Hin].
        discriminate.
      * unfold migrated_expressions in Hin. apply in_map_iff in Hin as (x & Hx & _).
        discriminate.
      * destruct (adds_defaults_dispatches _ _ Hdefaults Hin) as [p Hp]. discriminate.
  - intros Hi Hu.
    destruct (String.eqb_spec (reason details) "install") as [|_]; [contradiction|].
    destruct (String.eqb_spec (reason details) "update") as [|_]; [contradiction|].
    split; reflexivity.
Qed.


(** *** Changes of the settings *)

Lemma has_settings_lookup (keys : list string) (s : gmap string Setting) (k : string) :
  has_settings keys s = true -> In k keys -> exists x, s !! k = Some x.
Proof.
  unfold has_settings. rewrite forallb_forall. intros H Hin. specialize (H k Hin).
  destruct (s !! k) as [x|]; [eauto | discriminate].
Qed.

Lemma bind_current_value {B} (k : string) (kont : JSValue -> M B) (w : World)
    (cur : gmap string Setting) (x : Setting) :
  currentSettings w = Some cur -> cur !! k = Some x ->
  bind (current_value k) kont w = kont (value x) w.
Proof.
  intros Hcur Hk. unfold current_value, current. rewrite !bind_assoc, bind_read, Hcur.
  rewrite ?bind_assoc, bind_ret, Hk. cbn [deref]. apply bind_ret.
Qed.

Lemma bind_previous_value {B} (prev : gmap string Setting) (k : string)
    (kont : JSValue -> M B) (w : World) (x : Setting) :
  prev !! k = Some x -> bind (previous_value prev k) kont w = kont (value x) w.
Proof. intros Hk. unfold previous_value. rewrite Hk. cbn [deref]. apply bind_ret. Qed.

End Properties.

Ltac settings_step :=
  first
    [ run_step
    | erewrite bind_current_value by (first [eassumption | reflexivity])
    | erewrite bind_previous_value by eassumption ].

Section Settings.
Context {T : Typings} {C : Collaborators}.

(** The blocks of [onSettingsChange], one by one, then the whole. *)

Lemma value_differs_strict_eq (prev cur : gmap string Setting) (k : string) (p c : Setting) :
  prev !! k = Some p -> cur !! k = Some c ->
  negb (strict_eq (value p) (value c)) = value_differs prev cur k.
Proof.
  intros Hp Hc. unfold value_differs, strict_eq. rewrite Hp, Hc. cbn. f_equal.
  apply bool_decide_ext. split; [intros ->; reflexivity | intros [= ->]; reflexivity].
Qed.

Lemma containerModeEnabled_run (prev cur : gmap string Setting) (w : World) (p c : Setting) :
  currentSettings w = Some cur ->
  prev !! "contextualIdentities" = Some p -> cur !! "contextualIdentities" = Some c ->
  containerModeEnabled prev w
  = when (turned_on prev cur "contextualIdentities") (dispatch cacheCookieStoreIdNames) w.
Proof.
  intros Hcur Hp Hc. unfold containerModeEnabled, and_then, turned_on, setting_on.
  rewrite Hp, Hc. repeat settings_step.
  destruct (truthy (value p)); cbn [negb andb]; repeat settings_step; reflexivity.
Qed.

Lemma browsingDataSettingCheck_run (prev cur : gmap string Setting) (siteData : SiteDataType)
    (w : World) (c d : Setting) :
  currentSettings w = Some cur ->
  cur !! (siteDataToBrowser siteData +:+ "Cleanup") = Some c ->
  cur !! "debugMode" = Some d ->
  browsingDataSettingCheck prev siteData w
  = {| effects := if cleanup_due prev cur siteData
                  then [browsingData_remove 0 (siteDataToBrowser siteData);
                        cadLog (Log_siteDataActivated siteData) (value d)]
                  else [];
       final := w; completion := Returned tt |}.
Proof.
  intros Hcur Hc Hd.
  unfold browsingDataSettingCheck, and_then, or_else, cleanup_due, turned_on, setting_on,
    browsingDataCleanup.
  rewrite Hc.
  destruct (prev !! (siteDataToBrowser siteData +:+ "Cleanup")) as [p|] eqn:Hp;
    cbn [undefined]; repeat settings_step.
  - destruct (truthy (value p)); cbn [negb andb]; repeat settings_step; [reflexivity|].
    destruct (truthy (value c)); cbn [negb andb]; repeat settings_step; [|reflexivity].
    destruct (bool_decide (siteData = LOCALSTORAGE)); cbn [negb andb];
      repeat settings_step; [|reflexivity].
    destruct (prev !! "localstorageCleanup") as [l|] eqn:Hl; cbn [undefined negb];
      repeat settings_step; [|reflexivity].
    destruct (truthy (value l)); cbn [negb]; repeat settings_step; reflexivity.
  - destruct (truthy (value c)); cbn [negb andb]; repeat settings_step; [|reflexivity].
    destruct (bool_decide (siteData = LOCALSTORAGE)); cbn [negb andb];
      repeat settings_step; [|reflexivity].
    destruct (prev !! "localstorageCleanup") as [l|] eqn:Hl; cbn [undefined negb];
      repeat settings_step; [|reflexivity].
    destruct (truthy (value l)); cbn [negb]; repeat settings_step; reflexivity.
Qed.

Lemma activeModeChanges_run (prev cur : gmap string Setting) (w : World) (p c : Setting) :
  currentSettings w = Some cur ->
  prev !! "activeMode" = Some p -> cur !! "activeMode" = Some c ->
  activeModeChanges prev w
  = {| effects := activeMode_effects prev cur; final := w; completion := Returned tt |}.
Proof.
  intros Hcur Hp Hc. unfold activeModeChanges, and_then, activeMode_effects, setting_on.
  rewrite <- (value_differs_strict_eq prev cur "activeMode" p c Hp Hc). rewrite Hp, Hc.
  repeat settings_step.
  destruct (truthy (value p)); cbn [andb]; repeat settings_step;
    (destruct (truthy (value c)); cbn [negb when]; repeat settings_step);
    (destruct (strict_eq (value p) (value c)); cbn [negb]; repeat settings_step);
    reflexivity.
Qed.

Lemma contextMenuChanges_run (prev cur : gmap string Setting) (w : World) (p c : Setting) :
  currentSettings w = Some cur ->
  prev !! "contextMenus" = Some p -> cur !! "contextMenus" = Some c ->
  contextMenuChanges prev w
  = {| effects := contextMenus_effects prev cur; final := w; completion := Returned tt |}.
Proof.
  intros Hcur Hp Hc. unfold contextMenuChanges, contextMenus_effects, setting_on.
  rewrite <- (value_differs_strict_eq prev cur "contextMenus" p c Hp Hc). rewrite Hc.
  repeat settings_step.
  destruct (strict_eq (value p) (value c)); cbn [negb]; repeat settings_step;
    [reflexivity|].
  destruct (truthy (value c)); reflexivity.
Qed.

Lemma deprecatedSettingsAdjustments_run (prev cur : gmap string Setting) (w : World)
    (p c : Setting) :
  currentSettings w = Some cur ->
  prev !! "localStorageCleanup" = Some p -> cur !! "localStorageCleanup" = Some c ->
  deprecatedSettingsAdjustments prev w
  = when (value_differs prev cur "localStorageCleanup")
         (dispatch (UPDATE_SETTING {| name := "localstorageCleanup"; value := value c |})) w.
Proof.
  intros Hcur Hp Hc. unfold deprecatedSettingsAdjustments.
  rewrite <- (value_differs_strict_eq prev cur "localStorageCleanup" p c Hp Hc).
  repeat settings_step.
  destruct (strict_eq (value p) (value c)); cbn [negb when]; repeat settings_step;
    reflexivity.
Qed.

Lemma when_dispatch_run (c : bool) (a : Action) (w : World) (st : State) :
  store w = Some st ->
  when c (dispatch a) w
  = {| effects := map store_dispatch (if c then [a] else []);
       final := with_store (Some (replay (if c then [a] else []) st)) w;
       completion := Returned tt |}.
Proof.
  intros Hst. destruct c; cbn [when map replay fold_left].
  - apply dispatch_run, Hst.
  - cbn. rewrite (with_store_same _ _ Hst). reflexivity.
Qed.

Lemma onSettingsChange_run (w : World) (prev : gmap string Setting) (st : State) :
  currentSettings w = Some prev -> store w = Some st ->
  settings_present prev (settings st) = true ->
  let cur := settings st in
  let st' := replay (container_actions prev cur ++ deprecated_actions prev cur) st in
  completion (onSettingsChange w) = Returned tt
  /\ effects (onSettingsChange w)
     = map store_dispatch (container_actions prev cur)
       ++ cleanup_effects prev cur
       ++ activeMode_effects prev cur
       ++ contextMenus_effects prev cur
       ++ map store_dispatch (deprecated_actions prev cur)
       ++ [checkIfProtected st'; store_dispatch validateSettings]
  /\ currentSettings (final (onSettingsChange w)) = Some cur.
Proof.
  intros Hprev Hst Hpresent cur st'.
  apply andb_true_iff in Hpresent as [Hp Hc].
  destruct (has_settings_lookup _ _ "contextualIdentities" Hp) as [p1 Hp1]; [cbn; tauto|].
  destruct (has_settings_lookup _ _ "activeMode" Hp) as [p2 Hp2]; [cbn; tauto|].
  destruct (has_settings_lookup _ _ "contextMenus" Hp) as [p3 Hp3]; [cbn; tauto|].
  destruct (has_settings_lookup _ _ "localStorageCleanup" Hp) as [p4 Hp4]; [cbn; tauto|].
  destruct (has_settings_lookup _ _ "contextualIdentities" Hc) as [c1 Hc1]; [cbn; tauto|].
  destruct (has_settings_lookup _ _ "activeMode" Hc) as [c2 Hc2]; [cbn; tauto|].
  destruct (has_settings_lookup _ _ "contextMenus" Hc) as [c3 Hc3]; [cbn; tauto|].
  destruct (has_settings_lookup _ _ "localStorageCleanup" Hc) as [c4 Hc4]; [cbn; tauto|].
  destruct (has_settings_lookup _ _ "debugMode" Hc) as [c5 Hc5]; [cbn; tauto|].
  fold cur in Hc1, Hc2, Hc3, Hc4, Hc5.
  assert (Hsd : forall sd, sd ∈ SITEDATATYPES ->
                  exists c, cur !! (siteDataToBrowser sd +:+ "Cleanup") = Some c).
  { intros sd Hin. apply (has_settings_lookup _ _ _ Hc).
    do 5 right. apply in_map_iff. exists sd. split; [reflexivity|].
    apply list_elem_of_In, Hin. }
  unfold onSettingsChange. rewrite bind_read, Hprev. run. fold cur.
  set (w1 := with_currentSettings (Some cur) w).
  assert (Hcur1 : currentSettings w1 = Some cur) by reflexivity.
  assert (Hst1 : store w1 = Some st) by exact Hst.
  erewrite bind_run
    by (rewrite (containerModeEnabled_run prev cur w1 p1 c1 Hcur1 Hp1 Hc1);
        apply (when_dispatch_run _ _ _ _ Hst1)).
  fold (container_actions prev cur).
  set (st1 := replay (container_actions prev cur) st).
  set (w2 := with_store (Some st1) w1).
  erewrite bind_run.
  2:{ apply (for_each_run _ _
               (fun siteData =>
                  if cleanup_due prev cur siteData
                  then [browsingData_remove 0 (siteDataToBrowser siteData);
                        cadLog (Log_siteDataActivated siteData) (value c5)]
                  else [])).
      intros sd Hin. destruct (Hsd sd Hin) as [c Hcsd].
      apply (browsingDataSettingCheck_run prev cur sd w2 c c5); [reflexivity | exact Hcsd | exact Hc5]. }
  erewrite bind_run by (apply (activeModeChanges_run prev cur w2 p2 c2); [reflexivity | exact Hp2 | exact Hc2]).
  erewrite bind_run by (apply (contextMenuChanges_run prev cur w2 p3 c3); [reflexivity | exact Hp3 | exact Hc3]).
  erewrite bind_run
    by (rewrite (deprecatedSettingsAdjustments_run prev cur w2 p4 c4 eq_refl Hp4 Hc4);
        apply (when_dispatch_run _ _ _ st1); reflexivity).
  erewrite bind_getState by reflexivity. rewrite bind_call.
  erewrite dispatch_run by reflexivity.
  cbn [prepend effects final completion].
  unfold st', cleanup_effects, deprecated_actions. rewrite Hc4, Hc5, replay_app. cbn [default fmap option_fmap option_map].
  repeat split.
Qed.

Lemma flat_map_filter {A B} (f : A -> bool) (g : A -> list B) (l : list A) :
  flat_map (fun x => if f x then g x else []) l = flat_map g (List.filter f l).
Proof.
  induction l as [|x l IH]; cbn; [reflexivity|].
  destruct (f x); cbn; rewrite IH; reflexivity.
Qed.

Lemma filter_cleanup_dispatch (acts : list Action) :
  List.filter is_cleanup_effect (map store_dispatch acts) = [].
Proof. induction acts as [|a acts IH]; cbn; [reflexivity | exact IH]. Qed.

Lemma filter_cleanup_effects (prev cur : gmap string Setting) :
  List.filter is_cleanup_effect (cleanup_effects prev cur) = cleanup_effects prev cur.
Proof.
  unfold cleanup_effects. induction SITEDATATYPES as [|sd l IH]; cbn; [reflexivity|].
  rewrite List.filter_app, IH. destruct (cleanup_due prev cur sd); reflexivity.
Qed.

Lemma dispatches_cleanup_effects (prev cur : gmap string Setting) :
  dispatches (cleanup_effects prev cur) = [].
Proof.
  unfold cleanup_effects. induction SITEDATATYPES as [|sd l IH]; cbn [flat_map];
    [reflexivity|].
  rewrite dispatches_app, IH. destruct (cleanup_due prev cur sd); reflexivity.
Qed.

Lemma activeMode_effects_quiet (prev cur : gmap string Setting) :
  List.filter is_cleanup_effect (activeMode_effects prev cur) = []
  /\ dispatches (activeMode_effects prev cur) = [].
Proof.
  unfold activeMode_effects.
  destruct (setting_on prev "activeMode" && negb (setting_on cur "activeMode"));
    destruct (value_differs prev cur "activeMode");
    destruct (cur !! "activeMode"); split; reflexivity.
Qed.

Lemma contextMenus_effects_quiet (prev cur : gmap string Setting) :
  List.filter is_cleanup_effect (contextMenus_effects prev cur) = []
  /\ dispatches (contextMenus_effects prev cur) = [].
Proof.
  unfold contextMenus_effects.
  destruct (value_differs prev cur "contextMenus");
    destruct (setting_on cur "contextMenus"); split; reflexivity.
Qed.

Lemma app_chain {X} (a b c d e f : list X) :
  a ++ b ++ c ++ d ++ e ++ f = (a ++ b ++ c ++ d ++ e) ++ f.
Proof. rewrite <- !app_assoc. reflexivity. Qed.

(** The first two blocks of [onSettingsChange] when a setting they do not
    read is missing. *)
Lemma containerModeEnabled_loop_run (prev cur : gmap string Setting) (w : World) (p : Setting) :
  currentSettings w = Some cur ->
  prev !! "contextualIdentities" = Some p ->
  setting_on prev "contextualIdentities" || negb (undefined (cur !! "contextualIdentities"))
  = true ->
  containerModeEnabled prev w
  = when (turned_on prev cur "contextualIdentities") (dispatch cacheCookieStoreIdNames) w.
Proof.
  intros Hcur Hp Hread.
  destruct (cur !! "contextualIdentities") as [c|] eqn:Hc.
  - apply (containerModeEnabled_run prev cur w p c Hcur Hp Hc).
  - unfold setting_on in Hread. rewrite Hp in Hread. cbn in Hread.
    rewrite orb_false_r in Hread.
    unfold containerModeEnabled, and_then, turned_on, setting_on. rewrite Hp.
    repeat settings_step. rewrite Hread. cbn [negb andb]. repeat settings_step. reflexivity.
Qed.

Lemma browsingDataSettingCheck_loop_run (prev cur : gmap string Setting)
    (siteData : SiteDataType) (w : World) :
  currentSettings w = Some cur ->
  setting_on prev (siteDataToBrowser siteData +:+ "Cleanup")
  || negb (undefined (cur !! (siteDataToBrowser siteData +:+ "Cleanup"))) = true ->
  (cleanup_due prev cur siteData = true -> exists d, cur !! "debugMode" = Some d) ->
  browsingDataSettingCheck prev siteData w
  = {| effects := if cleanup_due prev cur siteData
                  then [browsingData_remove 0 (siteDataToBrowser siteData);
                        cadLog (Log_siteDataActivated siteData)
                               (default (JBool false) (value <$> cur !! "debugMode"))]
                  else [];
       final := w; completion := Returned tt |}.
Proof.
  intros Hcur Hread Hdebug.
  destruct (cur !! (siteDataToBrowser siteData +:+ "Cleanup")) as [c|] eqn:Hc.
  - destruct (cleanup_due prev cur siteData) eqn:Hdue.
    + destruct (Hdebug eq_refl) as [d Hd].
      rewrite (browsingDataSettingCheck_run prev cur siteData w c d Hcur Hc Hd), Hdue, Hd.
      reflexivity.
    + clear Hdebug. revert Hdue.
      unfold browsingDataSettingCheck, and_then, or_else, cleanup_due, turned_on, setting_on,
        browsingDataCleanup.
      rewrite Hc.
      destruct (prev !! (siteDataToBrowser siteData +:+ "Cleanup")) as [p|] eqn:Hp;
        cbn [undefined]; repeat settings_step.
      * destruct (truthy (value p)); cbn [negb andb]; repeat settings_step; [reflexivity|].
        destruct (truthy (value c)); cbn [negb andb]; repeat settings_step; [|reflexivity].
        destruct (bool_decide (siteData = LOCALSTORAGE)); cbn [negb andb];
          repeat settings_step; [|discriminate].
        destruct (prev !! "localstorageCleanup") as [l|] eqn:Hl; cbn [undefined negb];
          repeat settings_step; [|discriminate].
        destruct (truthy (value l)); cbn [negb]; repeat settings_step;
          [reflexivity | discriminate].
      * destruct (truthy (value c)); cbn [negb andb]; repeat settings_step; [|reflexivity].
        destruct (bool_decide (siteData = LOCALSTORAGE)); cbn [negb andb];
          repeat settings_step; [|discriminate].
        destruct (prev !! "localstorageCleanup") as [l|] eqn:Hl; cbn [undefined negb];
          repeat settings_step; [|discriminate].
        destruct (truthy (value l)); cbn [negb]; repeat settings_step;
          [reflexivity | discriminate].
  - unfold setting_on in Hread. cbn [undefined negb] in Hread. rewrite orb_false_r in Hread.
    destruct (prev !! (siteDataToBrowser siteData +:+ "Cleanup")) as [p|] eqn:Hp;
      [|discriminate Hread].
    unfold browsingDataSettingCheck, and_then, or_else, cleanup_due, turned_on, setting_on.
    rewrite Hp. cbn [undefined]. repeat settings_step. rewrite Hread. cbn [negb andb].
    repeat settings_step. reflexivity.
Qed.

Lemma filter_none {A} (P : A -> bool) (l : list A) :
  forallb (fun x => negb (P x)) l = true -> List.filter P l = [].
Proof.
  induction l as [|x l IH]; cbn; [reflexivity|].
  intros [Hx Hl]%andb_true_iff. apply negb_true_iff in Hx. rewrite Hx. apply IH, Hl.
Qed.

(** After the loop [onSettingsChange] cleans nothing, however it ends. *)
Lemma onSettingsChange_rest_only (prev : gmap string Setting) :
  only not_cleanup_effect
    (activeModeChanges prev ;;
     contextMenuChanges prev ;;
     deprecatedSettingsAdjustments prev ;;
     st' <- getState ;;
     call (checkIfProtected st') ;;
     dispatch validateSettings).
Proof. only_all. Qed.

Lemma bind_current_value_missing {B} (k : string) (kont : JSValue -> M B) (w : World)
    (cur : gmap string Setting) :
  currentSettings w = Some cur -> cur !! k = None ->
  bind (current_value k) kont w = throw (TypeError k) w.
Proof.
  intros Hcur Hk. unfold current_value, current. rewrite !bind_assoc, bind_read, Hcur.
  rewrite ?bind_assoc, bind_ret, Hk. cbn [deref]. apply bind_throw.
Qed.

Lemma bind_previous_value_missing {B} (prev : gmap string Setting) (k : string)
    (kont : JSValue -> M B) (w : World) :
  prev !! k = None -> bind (previous_value prev k) kont w = throw (TypeError k) w.
Proof. intros Hk. unfold previous_value. rewrite Hk. cbn [deref]. apply bind_throw. Qed.

Lemma containerModeEnabled_throws (prev cur : gmap string Setting) (w : World) :
  currentSettings w = Some cur ->
  container_settings_present prev cur = false ->
  exists e, containerModeEnabled prev w
            = {| effects := []; final := w; completion := Thrown e |}.
Proof.
  intros Hcur Hno. unfold container_settings_present, setting_on in Hno.
  unfold containerModeEnabled, and_then.
  destruct (prev !! "contextualIdentities") as [p|] eqn:Hp.
  - cbn [undefined negb andb] in Hno.
    destruct (truthy (value p)) eqn:Hv; [discriminate Hno|].
    destruct (cur !! "contextualIdentities") as [c|] eqn:Hc; [discriminate Hno|].
    repeat settings_step. rewrite Hv. cbn [negb].
    rewrite !bind_assoc. erewrite bind_current_value_missing by eassumption.
    eexists. reflexivity.
  - rewrite !bind_assoc. rewrite bind_previous_value_missing by exact Hp.
    eexists. reflexivity.
Qed.

Lemma browsingDataSettingCheck_throws (prev cur : gmap string Setting)
    (siteData : SiteDataType) (w : World) :
  currentSettings w = Some cur ->
  check_settings_present prev cur siteData = false ->
  exists e, browsingDataSettingCheck prev siteData w
            = {| effects := []; final := w; completion := Thrown e |}.
Proof.
  intros Hcur Hno. unfold check_settings_present in Hno.
  unfold browsingDataSettingCheck, and_then, or_else.
  unfold cleanup_due, turned_on, setting_on in Hno.
  destruct (prev !! (siteDataToBrowser siteData +:+ "Cleanup")) as [p|] eqn:Hp;
    cbn [undefined]; repeat settings_step.
  - destruct (truthy (value p)) eqn:Hv; [discriminate Hno|].
    cbn [negb orb andb] in Hno. cbn [negb]. repeat settings_step.
    destruct (cur !! (siteDataToBrowser siteData +:+ "Cleanup")) as [c|] eqn:Hc.
    + cbn [undefined negb andb] in Hno. repeat settings_step.
      destruct (truthy (value c)) eqn:Hvc; [|discriminate Hno].
      cbn [andb] in Hno.
      destruct (bool_decide (siteData = LOCALSTORAGE)); cbn [andb negb] in Hno |- *;
        repeat settings_step.
      * destruct (prev !! "localstorageCleanup") as [l|] eqn:Hl; cbn [undefined negb];
          repeat settings_step.
        -- destruct (truthy (value l)); cbn [negb orb] in Hno; [discriminate Hno|].
           destruct (cur !! "debugMode") eqn:Hd; [discriminate Hno|].
           rewrite ?bind_assoc. erewrite bind_current_value_missing by eassumption.
           eexists. reflexivity.
        -- cbn [negb orb] in Hno.
           destruct (cur !! "debugMode") eqn:Hd; [discriminate Hno|].
           rewrite ?bind_assoc. erewrite bind_current_value_missing by eassumption.
           eexists. reflexivity.
      * cbn [negb orb] in Hno.
        destruct (cur !! "debugMode") eqn:Hd; [discriminate Hno|].
        rewrite ?bind_assoc. erewrite bind_current_value_missing by eassumption.
        eexists. reflexivity.
    + rewrite ?bind_assoc. erewrite bind_current_value_missing by eassumption.
      eexists. reflexivity.
  - cbn [negb orb andb] in Hno.
    destruct (cur !! (siteDataToBrowser siteData +:+ "Cleanup")) as [c|] eqn:Hc.
    + cbn [undefined negb andb] in Hno. repeat settings_step.
      destruct (truthy (value c)) eqn:Hvc; [|discriminate Hno].
      cbn [andb] in Hno.
      destruct (bool_decide (siteData = LOCALSTORAGE)); cbn [andb negb] in Hno |- *;
        repeat settings_step.
      * destruct (prev !! "localstorageCleanup") as [l|] eqn:Hl; cbn [undefined negb];
          repeat settings_step.
        -- destruct (truthy (value l)); cbn [negb orb] in Hno; [discriminate Hno|].
           destruct (cur !! "debugMode") eqn:Hd; [discriminate Hno|].
           rewrite ?bind_assoc. erewrite bind_current_value_missing by eassumption.
           eexists. reflexivity.
        -- cbn [negb orb] in Hno.
           destruct (cur !! "debugMode") eqn:Hd; [discriminate Hno|].
           rewrite ?bind_assoc. erewrite bind_current_value_missing by eassumption.
           eexists. reflexivity.
      * cbn [negb orb] in Hno.
        destruct (cur !! "debugMode") eqn:Hd; [discriminate Hno|].
        rewrite ?bind_assoc. erewrite bind_current_value_missing by eassumption.
        eexists. reflexivity.
    + rewrite ?bind_assoc. erewrite bind_current_value_missing by eassumption.
      eexists. reflexivity.
Qed.

Lemma browsingDataSettingCheck_returns (prev cur : gmap string Setting)
    (siteData : SiteDataType) (w : World) :
  currentSettings w = Some cur ->
  check_settings_present prev cur siteData = true ->
  browsingDataSettingCheck prev siteData w
  = {| effects := if cleanup_due prev cur siteData
                  then [browsingData_remove 0 (siteDataToBrowser siteData);
                        cadLog (Log_siteDataActivated siteData)
                               (default (JBool false) (value <$> cur !! "debugMode"))]
                  else [];
       final := w; completion := Returned tt |}.
Proof.
  intros Hcur [Hread Hdebug]%andb_true_iff.
  apply (browsingDataSettingCheck_loop_run prev cur siteData w Hcur Hread).
  intros Hdue. rewrite Hdue in Hdebug. cbn [negb orb] in Hdebug.
  destruct (cur !! "debugMode") as [d|]; [eauto | discriminate Hdebug].
Qed.

Lemma cleanup_effects_while (prev cur : gmap string Setting) (l : list SiteDataType) :
  List.filter is_cleanup_effect
    (flat_map (fun siteData =>
                 if cleanup_due prev cur siteData
                 then [browsingData_remove 0 (siteDataToBrowser siteData);
                       cadLog (Log_siteDataActivated siteData)
                              (default (JBool false) (value <$> cur !! "debugMode"))]
                 else []) l)
  = flat_map (fun siteData =>
                [browsingData_remove 0 (siteDataToBrowser siteData);
                 cadLog (Log_siteDataActivated siteData)
                        (default (JBool false) (value <$> cur !! "debugMode"))])
             (List.filter (cleanup_due prev cur) l).
Proof.
  induction l as [|sd l IH]; [reflexivity|].
  cbn [flat_map List.filter]. rewrite List.filter_app, IH.
  destruct (cleanup_due prev cur sd); reflexivity.
Qed.

(** The run of [onSettingsChange] up to the end of its loop, or up to the
    statement that throws before. *)
Lemma onSettingsChange_loop (w : World) (prev : gmap string Setting) (st : State) :
  currentSettings w = Some prev -> store w = Some st ->
  let cur := settings st in
  let debug := default (JBool false) (value <$> cur !! "debugMode") in
  List.filter is_cleanup_effect (effects (onSettingsChange w))
  = flat_map (fun siteData =>
                [browsingData_remove 0 (siteDataToBrowser siteData);
                 cadLog (Log_siteDataActivated siteData) debug])
             (List.filter (cleanup_due prev cur) (checked_types prev cur))
  /\ (loop_settings_present prev cur = false ->
      exists what, completion (onSettingsChange w) = Thrown (TypeError what)).
Proof.
  intros Hprev Hst cur debug.
  unfold onSettingsChange. rewrite bind_read, Hprev. run. fold cur.
  set (w1 := with_currentSettings (Some cur) w).
  assert (Hcur1 : currentSettings w1 = Some cur) by reflexivity.
  assert (Hst1 : store w1 = Some st) by exact Hst.
  unfold checked_types, loop_settings_present.
  destruct (container_settings_present prev cur) eqn:Hcontainer.
  - pose proof Hcontainer as Hc. unfold container_settings_present in Hc.
    apply andb_true_iff in Hc as [Hp1 Hc1].
    destruct (prev !! "contextualIdentities") as [p1|] eqn:Hp1'; [|discriminate Hp1].
    erewrite bind_run
      by (rewrite (containerModeEnabled_loop_run prev cur w1 p1 Hcur1 Hp1' Hc1);
          apply (when_dispatch_run _ _ _ _ Hst1)).
    fold (container_actions prev cur).
    set (st1 := replay (container_actions prev cur) st).
    set (w2 := with_store (Some st1) w1).
    destruct (for_each_while SITEDATATYPES (browsingDataSettingCheck prev)
                (check_settings_present prev cur)
                (fun siteData =>
                   if cleanup_due prev cur siteData
                   then [browsingData_remove 0 (siteDataToBrowser siteData);
                         cadLog (Log_siteDataActivated siteData) debug]
                   else []) w2) as (c & Hloop & Hc).
    { intros sd _ Hok. apply (browsingDataSettingCheck_returns prev cur sd w2); [reflexivity | exact Hok]. }
    { intros sd _ Hno. apply (browsingDataSettingCheck_throws prev cur sd w2); [reflexivity | exact Hno]. }
    cbn [effects completion andb].
    destruct (effects_bind (for_each SITEDATATYPES (browsingDataSettingCheck prev))
                (fun _ => activeModeChanges prev ;;
                          contextMenuChanges prev ;;
                          deprecatedSettingsAdjustments prev ;;
                          st' <- getState ;;
                          call (checkIfProtected st') ;;
                          dispatch validateSettings) w2) as (rest & He & Hrest).
    split.
    + rewrite He, Hloop. cbn [effects]. rewrite !List.filter_app.
      rewrite filter_cleanup_dispatch. cbn [app].
      rewrite cleanup_effects_while.
      assert (Hnone : List.filter is_cleanup_effect rest = []).
      { destruct Hrest as [->|[a ->]]; [reflexivity|].
        apply filter_none. apply (onSettingsChange_rest_only prev). }
      rewrite Hnone. apply app_nil_r.
    + intros Hno. rewrite Hno in Hc. destruct Hc as [[what] ->].
      exists what. apply completion_bind_thrown. rewrite Hloop. reflexivity.
  - destruct (containerModeEnabled_throws prev cur w1 Hcur1 Hcontainer) as [[what] Hthrow].
    rewrite (bind_thrown _ _ w1 (TypeError what)) by (rewrite Hthrow; reflexivity).
    rewrite Hthrow. cbn [effects completion app List.filter flat_map].
    split; [reflexivity|]. intros _. exists what. reflexivity.
Qed.

Lemma loop_settings_present_checked (prev cur : gmap string Setting) :
  loop_settings_present prev cur = true -> checked_types prev cur = SITEDATATYPES.
Proof.
  unfold loop_settings_present, checked_types. intros [-> Hall]%andb_true_iff.
  apply while_ok_all, Hall.
Qed.

(** C5, amended. In [onSettingsChange], for every site-data type,
    [browsingDataCleanup] (which calls [browser.browsingData.remove] for
    that data type since time 0, and logs it) is invoked exactly when the
    corresponding "<type>Cleanup" setting went from undefined or false to
    true and the call has not thrown before, on a setting that is missing
    ([checked_types] are the types the loop gets through), with one
    exception: for LocalStorage the clean-up is skipped when the previous
    settings had a localstorageCleanup entry that was true. The calls are
    made in the order of SITEDATATYPES. When the settings read up to the
    end of the loop are present the loop gets through every type, also if
    the call throws afterwards; otherwise the call throws; with all the
    settings it reads present it returns. *)
Theorem onSettingsChange_cleans_site_data (w : World) (prev : gmap string Setting)
    (st : State) :
  currentSettings w = Some prev -> store w = Some st ->
  let cur := settings st in
  let debug := default (JBool false) (value <$> cur !! "debugMode") in
  List.filter is_cleanup_effect (effects (onSettingsChange w))
  = flat_map (fun siteData => effects (browsingDataCleanup siteData debug w))
             (List.filter (cleanup_due prev cur) (checked_types prev cur))
  /\ (forall siteData w',
        effects (browsingDataCleanup siteData debug w')
        = [browsingData_remove 0 (siteDataToBrowser siteData);
           cadLog (Log_siteDataActivated siteData) debug])
  /\ (forall siteData,
        In (cadLog (Log_siteDataActivated siteData) debug) (effects (onSettingsChange w))
        <-> In siteData (checked_types prev cur) /\ cleanup_due prev cur siteData = true)
  /\ (loop_settings_present prev cur = true -> checked_types prev cur = SITEDATATYPES)
  /\ (loop_settings_present prev cur = false ->
      exists what, completion (onSettingsChange w) = Thrown (TypeError what))
  /\ (settings_present prev cur = true -> completion (onSettingsChange w) = Returned tt).
Proof.
  intros Hprev Hst cur debug.
  destruct (onSettingsChange_loop w prev st Hprev Hst) as [Hcalls Hthrows].
  fold cur debug in Hcalls, Hthrows.
  split; [exact Hcalls|]. split; [reflexivity|]. split; [|split; [|split]].
  - intros siteData. rewrite <- filter_In.
    transitivity (In (cadLog (Log_siteDataActivated siteData) debug)
                     (List.filter is_cleanup_effect (effects (onSettingsChange w)))).
    { rewrite filter_In.
      split; [intros Hin; split; [exact Hin | reflexivity] | intros [Hin _]; exact Hin]. }
    rewrite Hcalls, in_flat_map. split.
    + intros (sd & Hsd & Hin). cbn in Hin. destruct Hin as [Hin|[Hin|[]]]; [discriminate|].
      injection Hin as <-. exact Hsd.
    + intros Hsd. exists siteData. split; [exact Hsd|]. right. left. reflexivity.
  - apply loop_settings_present_checked.
  - exact Hthrows.
  - intros Hall. apply (onSettingsChange_run w prev st Hprev Hst Hall).
Qed.

(** C7, amended. In [onSettingsChange], [cacheCookieStoreIdNames] is dispatched
    exactly when the contextualIdentities setting went from false to true;
    when the value of localStorageCleanup differs between the previous and
    the current settings, UPDATE_SETTING is dispatched, setting the
    deprecated localstorageCleanup to the new value; and in every such
    call [checkIfProtected] and then [validateSettings] run at the end,
    whichever transitions fired. Nothing else is dispatched. This holds
    for a call in which the settings the handler reads without a guard
    are present ([settings_present]); such a call returns. *)
Theorem onSettingsChange_dispatches (w : World) (prev : gmap string Setting) (st : State) :
  currentSettings w = Some prev -> store w = Some st ->
  settings_present prev (settings st) = true ->
  let cur := settings st in
  completion (onSettingsChange w) = Returned tt
  /\ (exists localStorageCleanup,
        cur !! "localStorageCleanup" = Some localStorageCleanup
        /\ dispatches (effects (onSettingsChange w))
           = (if turned_on prev cur "contextualIdentities"
              then [cacheCookieStoreIdNames] else [])
             ++ (if value_differs prev cur "localStorageCleanup"
                 then [UPDATE_SETTING {| name := "localstorageCleanup";
                                         value := value localStorageCleanup |}]
                 else [])
             ++ [validateSettings])
  /\ (exists before st',
        effects (onSettingsChange w)
        = before ++ [checkIfProtected st'; store_dispatch validateSettings]).
Proof.
  intros Hprev Hst Hpresent cur.
  destruct (onSettingsChange_run w prev st Hprev Hst Hpresent) as (Hc & He & _).
  apply andb_true_iff in Hpresent as [_ Hcur].
  destruct (has_settings_lookup _ _ "localStorageCleanup" Hcur) as [c4 Hc4]; [cbn; tauto|].
  fold cur in Hc4.
  split; [exact Hc|]. split.
  - exists c4. split; [exact Hc4|].
    rewrite He. fold cur. rewrite !dispatches_app, !dispatches_dispatch.
    rewrite dispatches_cleanup_effects, (proj2 (activeMode_effects_quiet prev cur)),
      (proj2 (contextMenus_effects_quiet prev cur)).
    unfold container_actions, deprecated_actions. rewrite Hc4. reflexivity.
  - rewrite He. eexists (_ ++ _ ++ _ ++ _ ++ _), _. apply app_chain.
Qed.

End Settings.

(** ** Further properties *)

Section Further.
Context {T : Typings} {C : Collaborators}.

(** X1. While the store does not exist, the listeners of runtime.onStartup
    and runtime.onInstalled only sleep, 250 ms at a time, in [awaitStore]:
    they call nothing else, dispatch nothing and change nothing. *)
Theorem listeners_await_store (polls : nat) (b : Browser) (details : InstalledDetails)
    (w : World) :
  store w = None ->
  onStartup_listener polls b w
  = {| effects := repeat (sleep 250) polls; final := w; completion := Polling |}
  /\ onInstalled_listener polls b details w
     = {| effects := repeat (sleep 250) polls; final := w; completion := Polling |}.
Proof.
  intros Hst. unfold onStartup_listener, onInstalled_listener, bind.
  rewrite (awaitStore_polling polls w Hst). split; reflexivity.
Qed.

(** X2. [onSettingsChange] reads the contextualIdentities setting of the
    previous settings first; when it is missing the handler throws a
    TypeError at once, having called and dispatched nothing. *)
Theorem onSettingsChange_needs_settings (w : World) (prev : gmap string Setting)
    (st : State) :
  currentSettings w = Some prev -> store w = Some st ->
  prev !! "contextualIdentities" = None ->
  completion (onSettingsChange w) = Thrown (TypeError "contextualIdentities")
  /\ effects (onSettingsChange w) = []
  /\ currentSettings (final (onSettingsChange w)) = Some (settings st).
Proof.
  intros Hprev Hst Hmissing. unfold onSettingsChange.
  rewrite bind_read, Hprev. run.
  unfold containerModeEnabled, and_then, previous_value. rewrite Hmissing.
  cbn [deref]. rewrite !bind_assoc, !bind_throw. repeat split.
Qed.

Lemma popup_listener_once_frame (w w' : World) :
  listeners w' = listeners w -> popup_listener_once w -> popup_listener_once w'.
Proof. unfold popup_listener_once. intros ->. trivial. Qed.

Lemma popup_listener_once_others (w w' : World) (others : list (Target * Listener)) :
  listeners w' = listeners w ++ others ->
  filter (fun r => r = (cookies_onChanged, the_onCookiePopupUpdates)) others = [] ->
  popup_listener_once w -> popup_listener_once w'.
Proof.
  unfold popup_listener_once. intros -> Hothers. rewrite filter_app, Hothers, app_nil_r.
  trivial.
Qed.

Lemma filter_is_absent {A} `{EqDecision A} (x : A) (l : list A) :
  x ∉ l -> filter (fun r => r = x) l = [].
Proof.
  induction l as [|y l IH]; intros Hx; [reflexivity|].
  apply not_elem_of_cons in Hx as [Hxy Hl]. rewrite filter_cons.
  destruct (decide (y = x)) as [->|_]; [contradiction | apply IH, Hl].
Qed.

Lemma filter_is_removed {A} `{EqDecision A} (x : A) (l : list A) :
  filter (fun r => r = x) (filter (fun r => r <> x) l) = [].
Proof.
  apply filter_is_absent. intros Hin. apply list_elem_of_filter in Hin as [Hne _].
  apply Hne. reflexivity.
Qed.

Lemma handleConnect_popup_listener_once (p : Port.t) :
  preserves popup_listener_once (handleConnect p).
Proof.
  intros w Hw. destruct (accepted p) eqn:Hp.
  - unfold accepted in Hp. destruct (Port.name p) as [name|] eqn:Hname; [|discriminate].
    rewrite (handleConnect_run p name w Hname Hp). unfold popup_listener_once in *. cbn.
    rewrite filter_app. cbn. rewrite app_nil_r.
    unfold hasListener.
    destruct (bool_decide_reflect
                ((cookies_onChanged, the_onCookiePopupUpdates) ∈ listeners w)) as [Hin|Hout].
    + exact Hw.
    + rewrite filter_app, (filter_is_absent _ _ Hout). cbn.
      destruct (decide _); cbn; lia.
  - rewrite handleConnect_rejects by exact Hp. exact Hw.
Qed.

Lemma port_onDisconnect_listener_popup_listener_once (dp : Port.t) :
  preserves popup_listener_once (port_onDisconnect_listener dp).
Proof.
  intros w Hw. unfold popup_listener_once in *.
  destruct (port_onDisconnect_listener_run dp w) as (_ & _ & -> & _).
  destruct (length (cookiePopupPorts w) =? 1)%nat; [|exact Hw].
  rewrite filter_is_removed. cbn. lia.
Qed.

Lemma call_listener_popup_listener_once (polls : nat) (b : Browser) (ev : Event)
    (l : Listener) :
  preserves popup_listener_once (call_listener polls b ev l).
Proof.
  destruct l, ev; cbn [call_listener];
    try (apply handleConnect_popup_listener_once);
    try (apply port_onDisconnect_listener_popup_listener_once);
    (apply (keeps_preserves listeners); [apply popup_listener_once_frame | keeps_all]).
Qed.

Lemma react_popup_listener_once (polls : nat) (b : Browser) (ev : Event) :
  preserves popup_listener_once (react polls b ev).
Proof.
  assert (Hothers : preserves popup_listener_once
            (ls <- read listeners ;;
             for_each (filter (fun r => Some (fst r) = target_of ev) ls)
               (fun r => isolated (call_listener polls b ev (snd r))))).
  { apply preserves_bind; [intros w Hw; exact Hw | intros ls].
    apply preserves_for_each. intros r.
    apply preserves_isolated, call_listener_popup_listener_once. }
  destruct ev; cbn [react]; try exact Hothers.
  - apply preserves_isolated. intros w.
    apply popup_listener_once_others with (1 := background_script_listeners b w).
    reflexivity.
  - apply preserves_isolated. apply preserves_bind.
    + intros w.
      apply popup_listener_once_others
        with (1 := proj2 (proj2 (proj2 (onStartUp_resumes_run b (storage_local b) w)))).
      reflexivity.
    + intros _. apply (keeps_preserves listeners);
        [apply popup_listener_once_frame | keeps_all].
  - apply (keeps_preserves listeners); [apply popup_listener_once_frame | keeps_all].
  - apply (keeps_preserves listeners); [apply popup_listener_once_frame | keeps_all].
  - apply (keeps_preserves listeners); [apply popup_listener_once_frame | keeps_all].
Qed.

(** X3. Whatever happens, [onCookiePopupUpdates] is registered on
    cookies.onChanged at most once: [handleConnect] adds it only when
    [hasListener] says it is not there. *)
Theorem popup_listener_registered_once (polls : nat) (evs : list (Browser * Event)) :
  popup_listener_once (after polls evs module_start).
Proof.
  apply after_preserves.
  - apply react_popup_listener_once.
  - unfold popup_listener_once. cbn. lia.
Qed.

End Further.

(** *** Startup of the script, call by call *)

Section StartupTrace.
Context {T : Typings} {C : Collaborators}.

Lemma snoc_two {X} (l : list X) (a b : X) : l ++ [a; b] = (l ++ [a]) ++ [b].
Proof. rewrite <- app_assoc. reflexivity. Qed.

(** Everything [onStartUp] does once the storage has answered. *)
Lemma onStartUp_resumes_trace (b : Browser) (storage : gmap string string) (w : World) :
  let created := createStore (stateFromStorage storage) in
  let version :=
    if strict_eq (browserDetect b) browserName_Firefox
    then [ADD_CACHE "browserVersion" (JStr (split_first "." (browserInfo_version b)))]
    else [] in
  let cached :=
    replay (ON_STARTUP :: version
            ++ [ADD_CACHE "browserDetect" (browserDetect b);
                ADD_CACHE "platformOs" (JStr (platformInfo_os b))]) created in
  let containers :=
    if truthy (getSetting cached "contextualIdentities") then [cacheCookieStoreIdNames] else [] in
  let snapshot := replay containers cached in
  let validated := reduce validateSettings snapshot in
  effects (onStartUp_resumes b storage w)
  = [store_create (stateFromStorage storage); store_dispatch ON_STARTUP]
    ++ (if strict_eq (browserDetect b) browserName_Firefox
        then [runtime_getBrowserInfo;
              store_dispatch
                (ADD_CACHE "browserVersion" (JStr (split_first "." (browserInfo_version b))))]
        else [])
    ++ [store_dispatch (ADD_CACHE "browserDetect" (browserDetect b));
        runtime_getPlatformInfo;
        store_dispatch (ADD_CACHE "platformOs" (JStr (platformInfo_os b)))]
    ++ map store_dispatch containers
    ++ [StoreUser_init; store_dispatch validateSettings;
        setGlobalIcon (getSetting validated "activeMode"); checkIfProtected validated]
    ++ (if contextMenus b then [ContextMenuEvents_menuInit] else [])
    ++ [browserAction_setTitle
          (manifest_name b +:+ " " +:+ manifest_version b +:+ " [READY] (0)")]
  /\ store (final (onStartUp_resumes b storage w)) = Some validated
  /\ currentSettings (final (onStartUp_resumes b storage w)) = Some (settings snapshot)
  /\ subscribers (final (onStartUp_resumes b storage w))
     = subscribers w ++ [the_onSettingsChange; the_saveToStorage].
Proof.
  unfold onStartUp_resumes.
  destruct (strict_eq (browserDetect b) browserName_Firefox); cbn;
    destruct (truthy (getSetting _ "contextualIdentities"));
    destruct (contextMenus b);
    (repeat split; [vm_compute; reflexivity .. | ]);
    rewrite (snoc_two (subscribers w)); vm_compute; reflexivity.
Qed.

(** X4. [onStartUp] dispatches, in this order: ON_STARTUP; on Firefox
    only, ADD_CACHE of browserVersion with the text of the browser's
    version before its first dot; ADD_CACHE of browserDetect; ADD_CACHE of
    platformOs; [cacheCookieStoreIdNames] when the contextualIdentities
    setting of the state reached by then is truthy; and
    [validateSettings] last. It asks for the browser info on Firefox
    only. *)
Theorem onStartUp_dispatch_order (b : Browser) (w : World) :
  let created := createStore (stateFromStorage (storage_local b)) in
  let cache :=
    ON_STARTUP
    :: (if strict_eq (browserDetect b) browserName_Firefox
        then [ADD_CACHE "browserVersion" (JStr (split_first "." (browserInfo_version b)))]
        else [])
    ++ [ADD_CACHE "browserDetect" (browserDetect b);
        ADD_CACHE "platformOs" (JStr (platformInfo_os b))] in
  dispatches (effects (onStartUp b w))
  = cache
    ++ (if truthy (getSetting (replay cache created) "contextualIdentities")
        then [cacheCookieStoreIdNames] else [])
    ++ [validateSettings]
  /\ (In runtime_getBrowserInfo (effects (onStartUp b w))
      <-> browserDetect b = browserName_Firefox).
Proof.
  intros created cache. rewrite onStartUp_unfold. cbn [effects].
  destruct (onStartUp_resumes_trace b (storage_local b) w) as (He & _).
  cbv zeta in He. rewrite He. clear He. subst cache created.
  destruct (truthy (getSetting _ "contextualIdentities"));
    unfold strict_eq;
    (destruct (bool_decide_reflect (browserDetect b = browserName_Firefox)) as [Hff|Hff]);
    destruct (contextMenus b);
    (split; [reflexivity|]);
    cbn [app In map];
    intuition discriminate.
Qed.


(** X6. What the save timer writes is what the next startup restores:
    when the storage answers with the text the timer wrote, and
    [JSON.parse] gives back what [JSON.stringify] was given, [onStartUp]
    creates the store from that state. *)
Theorem saved_state_is_restored (b : Browser) (w w' : World) (st : State) (saved : string)
    (restored : Json) :
  store w = Some st ->
  In (storage_local_set saved) (effects (save_timer_fires w)) ->
  storage_local b !! "state" = Some saved ->
  JSON_parse "" = None ->
  JSON_parse (JSON_stringify st) = Some restored ->
  stores_created (effects (onStartUp b w')) = [restored].
Proof.
  intros Hst Hsaved Hstorage Hempty Hparse.
  unfold save_timer_fires in Hsaved. rewrite bind_write in Hsaved.
  erewrite bind_getState in Hsaved by exact Hst.
  cbn in Hsaved. destruct Hsaved as [[= <-]|[]].
  destruct (onStartUp_run b w') as (_ & -> & _).
  rewrite (stateFromStorage_parsed _ _ restored Hempty Hstorage Hparse). reflexivity.
Qed.

(** X7. The listener of runtime.onStartup, call by call, once the store
    exists: with activeMode [true] and enableGreyListCleanup [true] it
    asks for the tabs and then either logs that a session-restore tab was
    found, or logs and dispatches the clean-up (the test of activeMode in
    [greyCleanup] cannot fail there); with activeMode [true] only it logs
    that the grey-list clean-up is disabled; otherwise it does neither.
    It always ends with [checkIfProtected], on the state after the
    clean-up if there was one. *)
Theorem onStartup_listener_calls (polls : nat) (b : Browser) (w : World) (st : State) :
  store w = Some st ->
  let debug := JBool (strict_eq (getSetting st "debugMode") (JBool true)) in
  let cleanup := cookieCleanup true (getSetting st "cleanCookiesFromOpenTabsOnStartup") in
  effects (onStartup_listener polls b w)
  = (if strict_eq (getSetting st "activeMode") (JBool true) then
       if strict_eq (getSetting st "enableGreyListCleanup") (JBool true) then
         tabs_query
         :: (if session_restore_tab (tabs_normal b)
             then [cadLog Log_sessionRestoreFound debug]
             else [cadLog Log_greyCleanupDispatching (getSetting st "debugMode");
                   store_dispatch cleanup])
       else [cadLog Log_greyListCleanupDisabled debug]
     else [])
    ++ [checkIfProtected
          (if startup_cleanup_due st (tabs_normal b) then reduce cleanup st else st)].
Proof.
  intros Hst debug cleanup. unfold onStartup_listener, startup_cleanup_due, greyCleanup.
  rewrite isFFSessionRestore_exists. run.
  destruct (strict_eq (getSetting st "activeMode") (JBool true)) eqn:Ha; run;
    [|reflexivity].
  destruct (strict_eq (getSetting st "enableGreyListCleanup") (JBool true)); run;
    [|reflexivity].
  destruct (session_restore_tab (tabs_normal b)); cbn [negb]; run; [reflexivity|].
  apply bool_decide_eq_true in Ha. rewrite Ha. cbn [truthy]. run. reflexivity.
Qed.

Lemma app_chain_four {X} (a b c d rest : list X) :
  a ++ b ++ c ++ d ++ rest = (a ++ b ++ c ++ d) ++ rest.
Proof. rewrite <- !app_assoc. reflexivity. Qed.

(** X23. How [onStartUp] ends: it hands the store to [StoreUser],
    dispatches [validateSettings], sets the icon from the activeMode
    setting of the validated state, calls [checkIfProtected] on that
    state, sets up the context menu when the browser has
    [browser.contextMenus], and sets the title to READY last; what its
    [then] logs afterwards carries the debugMode setting of the same
    state. *)
Theorem onStartUp_finishes (b : Browser) (w : World) :
  exists before validated,
    effects (onStartUp b w)
    = (browserAction_setTitle
         (manifest_name b +:+ " " +:+ manifest_version b +:+ " [STARTING UP...] (0)")
       :: storage_local_get :: before)
      ++ [StoreUser_init; store_dispatch validateSettings;
          setGlobalIcon (getSetting validated "activeMode"); checkIfProtected validated]
      ++ (if contextMenus b then [ContextMenuEvents_menuInit] else [])
      ++ [browserAction_setTitle
            (manifest_name b +:+ " " +:+ manifest_version b +:+ " [READY] (0)")]
    /\ store (final (onStartUp b w)) = Some validated
    /\ onStartUp_then (final (onStartUp b w))
       = {| effects := [cadLog Log_onStartUpExecuted (getSetting validated "debugMode")];
            final := final (onStartUp b w);
            completion := Returned tt |}.
Proof.
  rewrite onStartUp_unfold. cbn [effects final].
  destruct (onStartUp_resumes_trace b (storage_local b) w) as (He & Hs & _).
  cbv zeta in He, Hs. rewrite app_chain_four in He.
  match type of He with _ = ?calls ++ _ => exists calls end.
  rewrite He, Hs. eexists. split; [|split; [reflexivity|]].
  - reflexivity.
  - unfold onStartUp_then. erewrite bind_getState by exact Hs. reflexivity.
Qed.

End StartupTrace.

(** *** Calls that only one event brings about *)

Section OnlyByEvent.
Context {T : Typings} {C : Collaborators}.

Lemma call_listener_only_no_write (polls : nat) (b : Browser) (ev : Event) (l : Listener) :
  only not_storage_write (call_listener polls b ev l).
Proof. destruct l, ev; cbn [call_listener]; only_all. Qed.

Lemma call_listener_only_no_cookieCleanup (polls : nat) (b : Browser) (ev : Event)
    (l : Listener) :
  ev <> Runtime_startup -> only not_cookieCleanup (call_listener polls b ev l).
Proof.
  intros Hev. destruct l, ev; cbn [call_listener];
    try (exfalso; apply Hev; reflexivity); only_all.
Qed.

Lemma react_only_no_write (polls : nat) (b : Browser) (ev : Event) :
  ev <> Timer_fires -> only not_storage_write (react polls b ev).
Proof.
  intros Hev.
  assert (Hothers : only not_storage_write
            (ls <- read listeners ;;
             for_each (filter (fun r => Some (fst r) = target_of ev) ls)
               (fun r => isolated (call_listener polls b ev (snd r))))).
  { apply only_bind; [only_all | intros ls].
    apply only_for_each. intros r. apply only_isolated, call_listener_only_no_write. }
  destruct ev; cbn [react]; try exact Hothers; try contradiction.
  - only_all.
  - only_all.
  - apply only_bind; [only_all | intros ss]. apply only_for_each. intros s.
    apply only_isolated. destruct s; cbn [call_subscriber]; only_all.
  - apply only_isolated. intros w. unfold dispatch. destruct (store w); reflexivity.
Qed.

Lemma react_only_no_cookieCleanup (polls : nat) (b : Browser) (ev : Event) :
  ev <> Runtime_startup -> (forall a, ev <> Store_dispatched a) ->
  only not_cookieCleanup (react polls b ev).
Proof.
  intros Hev Hother.
  assert (Hothers : only not_cookieCleanup
            (ls <- read listeners ;;
             for_each (filter (fun r => Some (fst r) = target_of ev) ls)
               (fun r => isolated (call_listener polls b ev (snd r))))).
  { apply only_bind; [only_all | intros ls].
    apply only_for_each. intros r.
    apply only_isolated, call_listener_only_no_cookieCleanup, Hev. }
  destruct ev; cbn [react]; try exact Hothers.
  - only_all.
  - only_all.
  - apply only_bind; [only_all | intros ss]. apply only_for_each. intros s.
    apply only_isolated. destruct s; cbn [call_subscriber]; only_all.
  - exfalso. apply (Hother a). reflexivity.
  - only_all.
Qed.

(** X8. The state is written to the local storage only when the save
    timer fires: no other event makes the script call
    [storage.local.set]. *)
Theorem storage_written_by_timer_only (polls : nat) (b : Browser) (ev : Event) (w : World)
    (state : string) :
  ev <> Timer_fires ->
  ~ In (storage_local_set state) (effects (react polls b ev w)).
Proof.
  intros Hev.
  apply (only_In not_storage_write); [apply react_only_no_write, Hev | reflexivity].
Qed.

(** X9. Of the functions of this file only [onSettingsChange] calls
    [browsingData.remove], through [browsingDataCleanup]: none of the
    other handlers makes that call in its own statements, whatever the
    state. (A handler that dispatches can still lead to it, when the
    store then calls [onSettingsChange].) *)
Theorem site_data_removed_on_settings_change_only (polls : nat) (b : Browser) (w : World)
    (since : Z) (dataType : string) :
  let never (m : M unit) := ~ In (browsingData_remove since dataType) (effects (m w)) in
  never (background_script b)
  /\ never (onStartUp b)
  /\ never onStartUp_then
  /\ never saveToStorage
  /\ never save_timer_fires
  /\ never greyCleanup
  /\ never (awaitStore polls)
  /\ never (onStartup_listener polls b)
  /\ (forall details, never (onInstalled_listener polls b details))
  /\ (forall p, never (handleConnect p))
  /\ (forall m, never (port_onMessage_listener m))
  /\ (forall dp, never (port_onDisconnect_listener dp))
  /\ (forall changeInfo, never (onCookiePopupUpdates changeInfo)).
Proof.
  intros never.
  assert (Hnever : forall m : M unit, only not_browsingData_remove m -> never m).
  { intros m Hm. apply (only_In not_browsingData_remove); [exact Hm | reflexivity]. }
  repeat split; intros; apply Hnever; only_all.
Qed.

(** X10. This script dispatches [cookieCleanup] only in its listener of
    runtime.onStartup: reacting to any other event, it dispatches none
    (what another module dispatches is not the script's). *)
Theorem cookieCleanup_on_browser_startup_only (polls : nat) (b : Browser) (ev : Event)
    (w : World) (grey : bool) (ignoreOpenTabs : JSValue) :
  ev <> Runtime_startup -> (forall a, ev <> Store_dispatched a) ->
  ~ In (store_dispatch (cookieCleanup grey ignoreOpenTabs)) (effects (react polls b ev w)).
Proof.
  intros Hev Hother.
  apply (only_In not_cookieCleanup);
    [apply react_only_no_cookieCleanup; assumption | reflexivity].
Qed.

End OnlyByEvent.

(** *** The store exists before it is used *)

Section Started.
Context {T : Typings} {C : Collaborators}.

Lemma preserves_when (P : World -> Prop) (c : bool) (m : M unit) :
  preserves P m -> preserves P (when c m).
Proof. intros Hm. destruct c; [exact Hm | intros w Hw; exact Hw]. Qed.

Lemma preserves_awaitStore (P : World -> Prop) (polls : nat) : preserves P (awaitStore polls).
Proof. intros w Hw. rewrite (keeps_awaitStore (fun w => w)). exact Hw. Qed.

End Started.

(** A statement leaves the store and the remembered settings defined. *)
Ltac started_statement :=
  let w := fresh "w" in
  let Hs := fresh "Hs" in
  let Hc := fresh "Hc" in
  let E := fresh "E" in
  intros w [Hs Hc]; unfold started;
  cbv [call read write ret throw getState dispatch subscribe deref
       addListener removeListener final];
  destruct (store w) eqn:E; cbn; rewrite ?E;
  first [ split; first [assumption | eexists; reflexivity]
        | exfalso; destruct Hs as [? Hs]; discriminate Hs ].

Ltac started_step :=
  lazymatch goal with
  | |- preserves _ (bind _ _) => apply preserves_bind; [|intros ?]
  | |- preserves _ (for_each _ _) => apply preserves_for_each; intros ?
  | |- preserves _ (when _ _) => apply preserves_when
  | |- preserves _ (isolated _) => apply preserves_isolated
  | |- preserves _ (awaitStore _) => apply preserves_awaitStore
  | |- preserves _ (if ?c then _ else _) => destruct c
  | |- preserves _ (match ?x with _ => _ end) => destruct x
  | |- preserves _ (call _) => started_statement
  | |- preserves _ (read _) => started_statement
  | |- preserves _ (write _) => started_statement
  | |- preserves _ (ret _) => started_statement
  | |- preserves _ (throw _) => started_statement
  | |- preserves _ getState => started_statement
  | |- preserves _ (dispatch _) => started_statement
  | |- preserves _ (subscribe _) => started_statement
  | |- preserves _ (deref _ ?o) => destruct o; started_statement
  | |- preserves _ (addListener _ _) => started_statement
  | |- preserves _ (removeListener _ _) => started_statement
  | |- preserves _ ?m => let h := head_of m in unfold h
  end.

Ltac started_all := repeat started_step.

Section StartupInvariant.
Context {T : Typings} {C : Collaborators}.

Lemma call_listener_started (polls : nat) (b : Browser) (ev : Event) (l : Listener) :
  preserves started (call_listener polls b ev l).
Proof. destruct l, ev; cbn [call_listener]; started_all. Qed.

Lemma react_started (polls : nat) (b : Browser) (ev : Event) :
  preserves started (react polls b ev).
Proof.
  assert (Hothers : preserves started
            (ls <- read listeners ;;
             for_each (filter (fun r => Some (fst r) = target_of ev) ls)
               (fun r => isolated (call_listener polls b ev (snd r))))).
  { apply preserves_bind; [started_all | intros ls].
    apply preserves_for_each. intros r. apply preserves_isolated, call_listener_started. }
  destruct ev; cbn [react]; try exact Hothers.
  - started_all.
  - started_all.
  - apply preserves_bind; [started_all | intros ss]. apply preserves_for_each. intros s.
    apply preserves_isolated. destruct s; cbn [call_subscriber]; started_all.
  - started_all.
  - started_all.
Qed.

Lemma not_started_frame (w w' : World) :
  store_and_timer w' = store_and_timer w -> not_started w -> not_started w'.
Proof. unfold store_and_timer, not_started. intros [= -> -> -> -> ->]. trivial. Qed.

Lemma call_listener_not_started (polls : nat) (b : Browser) (ev : Event) (l : Listener) :
  preserves not_started (call_listener polls b ev l).
Proof.
  assert (Hstartup : preserves not_started (onStartup_listener polls b)).
  { intros w Hw. unfold onStartup_listener, bind.
    rewrite (awaitStore_polling polls w (proj1 Hw)). exact Hw. }
  assert (Hinstalled : forall details,
            preserves not_started (onInstalled_listener polls b details)).
  { intros details w Hw. unfold onInstalled_listener, bind.
    rewrite (awaitStore_polling polls w (proj1 Hw)). exact Hw. }
  destruct l, ev; cbn [call_listener];
    first [ exact Hstartup
          | apply Hinstalled
          | apply (keeps_preserves store_and_timer); [apply not_started_frame | keeps_all] ].
Qed.

Lemma react_not_started (polls : nat) (b : Browser) (ev : Event) :
  ev <> Storage_answers -> preserves not_started (react polls b ev).
Proof.
  intros Hev.
  assert (Hothers : preserves not_started
            (ls <- read listeners ;;
             for_each (filter (fun r => Some (fst r) = target_of ev) ls)
               (fun r => isolated (call_listener polls b ev (snd r))))).
  { apply preserves_bind; [intros w Hw; exact Hw | intros ls].
    apply preserves_for_each. intros r. apply preserves_isolated, call_listener_not_started. }
  destruct ev; cbn [react]; try exact Hothers; try contradiction.
  - apply (keeps_preserves store_and_timer); [apply not_started_frame | keeps_all].
  - intros w Hw. rewrite bind_read. rewrite (proj1 (proj2 (proj2 Hw))). exact Hw.
  - intros w Hw. rewrite final_isolated. unfold dispatch. rewrite (proj1 Hw). exact Hw.
  - intros w Hw. rewrite bind_read. rewrite (proj1 (proj2 (proj2 (proj2 Hw)))). exact Hw.
Qed.

Lemma started_after_storage (polls : nat) (b : Browser) (w : World) :
  started (final (react polls b Storage_answers w)).
Proof.
  cbn [react]. rewrite final_isolated.
  destruct (onStartUp_resumes_run b (storage_local b) w) as (Hret & _).
  rewrite (bind_returned _ _ _ tt Hret). cbn [final]. rewrite onStartUp_then_final.
  destruct (onStartUp_resumes_trace b (storage_local b) w) as (_ & Hs & Hc & _).
  split; [rewrite Hs | rewrite Hc]; eexists; reflexivity.
Qed.

Lemma react_startup_invariant (polls : nat) (b : Browser) (ev : Event) :
  preserves startup_invariant (react polls b ev).
Proof.
  intros w Hw.
  assert (Hcase : ev = Storage_answers \/ ev <> Storage_answers)
    by (destruct ev; first [left; reflexivity | right; discriminate]).
  destruct Hcase as [-> | Hne].
  - right. apply started_after_storage.
  - destruct Hw as [Hn|Hs]; [left; apply react_not_started | right; apply react_started];
      assumption.
Qed.

Lemma reachable_startup_invariant (polls : nat) (evs : list (Browser * Event)) :
  startup_invariant (after polls evs module_start).
Proof.
  apply after_preserves; [apply react_startup_invariant|].
  left. repeat split.
Qed.

(** X11. Whatever happens, nothing uses the store before it exists: as
    long as [onStartUp] has not created it, no settings are remembered,
    nothing is subscribed to it and no save is pending; and whenever the
    store has subscribers, the store and the remembered settings are
    there, so [onSettingsChange] always finds its previous settings. *)
Theorem store_exists_before_use (polls : nat) (evs : list (Browser * Event)) :
  let w := after polls evs module_start in
  (store w = None ->
   currentSettings w = None /\ subscribers w = [] /\ timers w = [] /\ delaySave w = false)
  /\ (subscribers w <> [] ->
      exists st previousSettings,
        store w = Some st /\ currentSettings w = Some previousSettings).
Proof.
  intros w. pose proof (reachable_startup_invariant polls evs) as Hinv.
  change (startup_invariant w) in Hinv. destruct Hinv as [Hn|[[st Hst] [prev Hprev]]].
  - split; [intros _; apply Hn|]. intros Hsubs. destruct Hn as (_ & _ & Hnone & _).
    contradiction.
  - split; [intros Hnone; congruence|]. intros _. exists st, prev. split; assumption.
Qed.

(** X12. Every pending save is carried out: whenever a save timer is
    pending, the store exists, and when the timer fires the script
    writes the JSON text of the store's state at that time to the local
    storage, once, and no timer is left. *)
Theorem save_timer_writes_state (polls : nat) (evs : list (Browser * Event)) (b : Browser) :
  let w := after polls evs module_start in
  timers w <> [] ->
  exists st,
    store w = Some st
    /\ effects (react polls b Timer_fires w) = [storage_local_set (JSON_stringify st)]
    /\ timers (final (react polls b Timer_fires w)) = []
    /\ delaySave (final (react polls b Timer_fires w)) = false.
Proof.
  intros w Hpending.
  assert (Hsave : save_invariant w)
    by (apply after_preserves; [apply react_save_invariant | reflexivity]).
  pose proof (reachable_startup_invariant polls evs) as Hinv.
  change (startup_invariant w) in Hinv. destruct Hinv as [Hn|[[st Hst] _]].
  - destruct Hn as (_ & _ & _ & Ht & _). contradiction.
  - exists st. split; [exact Hst|]. unfold save_invariant in Hsave.
    destruct (delaySave w); [|contradiction].
    cbn [react]. rewrite bind_read, Hsave, bind_write.
    unfold save_timer_fires. rewrite effects_isolated, final_isolated.
    rewrite bind_write. erewrite bind_getState by exact Hst.
    repeat split.
Qed.

End StartupInvariant.

(** *** Popup ports, by name *)

Section PortNames.
Context {T : Typings} {C : Collaborators}.

Lemma watches_suffix (changeInfo : ChangeInfo) (p : Port.t) (pre more : string) :
  Port.name p
  = Some ("popupCAD_" +:+ (pre +:+ cookie_domain changeInfo) +:+ String "," more) ->
  ~ In ","%char (list_ascii_of_string (pre +:+ cookie_domain changeInfo)) ->
  watches changeInfo p = true.
Proof.
  intros Hname Hcomma. unfold watches. rewrite Hname.
  rewrite (after_prefix_app "popupCAD_"). cbv zeta.
  rewrite (split_first_field _ _ _ Hcomma), endsWith_suffix. reflexivity.
Qed.

(** X13. A popup whose port is named "popupCAD_", then a host, then a
    comma and more, is accepted by [handleConnect], and once stored it is
    sent [{cookieUpdated: true}] for every changed cookie whose domain is
    the end of that host: the host itself, or any text the host ends
    with. *)
Theorem popup_notified_of_its_domain (changeInfo : ChangeInfo) (p : Port.t)
    (pre more : string) (w : World) :
  Port.name p
  = Some ("popupCAD_" +:+ (pre +:+ cookie_domain changeInfo) +:+ String "," more) ->
  ~ In ","%char (list_ascii_of_string (pre +:+ cookie_domain changeInfo)) ->
  accepted p = true
  /\ (In p (cookiePopupPorts w) ->
      In (port_postMessage p (cookieUpdated true))
         (effects (onCookiePopupUpdates changeInfo w))).
Proof.
  intros Hname Hcomma. split.
  - unfold accepted. rewrite Hname. reflexivity.
  - intros Hin. rewrite onCookiePopupUpdates_run. cbn [effects].
    apply (in_map (fun q => port_postMessage q (cookieUpdated true))), filter_In.
    split; [exact Hin|].
    apply (watches_suffix changeInfo p pre more Hname Hcomma).
Qed.

(** What [port_onDisconnect_listener] leaves of the ports, for a port
    with a name. *)
Lemma port_onDisconnect_listener_named (dp : Port.t) (name : string) (w : World) :
  Port.name dp = Some name -> nonempty name = true ->
  cookiePopupPorts (final (port_onDisconnect_listener dp w))
  = remove_first (named name) (cookiePopupPorts w).
Proof.
  intros Hname Hne.
  destruct (port_onDisconnect_listener_run dp w) as (_ & _ & _ & ->).
  unfold unnamed at 1. rewrite Hname, Hne. cbn [negb].
  rewrite <- !findIndex_remove_first.
  rewrite (findIndex_ext _ (named name)); [reflexivity|].
  intros pp. rewrite <- Hname. apply same_name_named; assumption.
Qed.

Lemma remove_first_absent {A} (f : A -> bool) (l l' : list A) :
  Forall (fun x => f x = false) l -> remove_first f (l ++ l') = l ++ remove_first f l'.
Proof.
  induction 1 as [|x l Hx Hl IH]; cbn; [reflexivity|]. rewrite Hx, IH. reflexivity.
Qed.

(** X14. Ports are told apart by name only: when two popups have
    connected under the same name and the second one disconnects, it is
    the first one that is taken out of [cookiePopupPorts]; the port that
    has gone stays in the list. *)
Theorem disconnect_removes_first_of_name (p1 p2 : Port.t) (name : string) (w : World) :
  Port.name p1 = Some name -> Port.name p2 = Some name ->
  startsWith name "popupCAD_" = true ->
  Forall (fun q => Port.name q <> Some name) (cookiePopupPorts w) ->
  let connected := final (handleConnect p2 (final (handleConnect p1 w))) in
  cookiePopupPorts connected = cookiePopupPorts w ++ [p1; p2]
  /\ cookiePopupPorts (final (port_onDisconnect_listener p2 connected))
     = cookiePopupPorts w ++ [p2].
Proof.
  intros Hn1 Hn2 Hpre Hothers connected.
  assert (Hports : cookiePopupPorts connected = cookiePopupPorts w ++ [p1; p2]).
  { unfold connected.
    rewrite (handleConnect_run p2 name _ Hn2 Hpre).
    cbn [final cookiePopupPorts with_cookiePopupPorts].
    rewrite (handleConnect_run p1 name _ Hn1 Hpre). cbn. rewrite <- app_assoc. reflexivity. }
  split; [exact Hports|].
  rewrite (port_onDisconnect_listener_named p2 name connected Hn2
             (startsWith_nonempty _ _ _ Hpre)).
  rewrite Hports, remove_first_absent.
  - cbn. unfold named. rewrite Hn1. rewrite bool_decide_eq_true_2 by reflexivity. reflexivity.
  - eapply Forall_impl; [exact Hothers|]. intros q Hq. apply bool_decide_eq_false. exact Hq.
Qed.

Lemma hasListener_snoc_other (t : Target) (l : Listener) (w : World)
    (ls : list (Target * Listener)) :
  hasListener t l w = false -> Forall (fun r => r <> (t, l)) ls ->
  filter (fun r => r <> (t, l)) (listeners w ++ [(t, l)] ++ ls) = listeners w ++ ls.
Proof.
  intros Hout Hls. unfold hasListener in Hout. apply bool_decide_eq_false in Hout.
  rewrite !filter_app, (filter_absent _ _ Hout). f_equal.
  rewrite filter_cons. destruct (decide ((t, l) <> (t, l))) as [Hne|_]; [contradiction|].
  cbn. induction Hls as [|r ls Hr Hls IH]; [reflexivity|].
  rewrite filter_cons. destruct (decide (r <> (t, l))); [f_equal; exact IH | contradiction].
Qed.

(** X15. A popup that connects and disconnects leaves the popup ports
    as they were: with no port stored and [onCookiePopupUpdates] not
    registered, [handleConnect] stores the port and registers the
    listener on cookies.onChanged; the port's disconnection empties the
    list again and takes the listener off. Only the two listeners on the
    port itself remain. *)
Theorem popup_connects_and_disconnects (p : Port.t) (w : World) :
  accepted p = true ->
  cookiePopupPorts w = [] ->
  hasListener cookies_onChanged the_onCookiePopupUpdates w = false ->
  let connected := final (handleConnect p w) in
  let gone := final (port_onDisconnect_listener p connected) in
  cookiePopupPorts connected = [p]
  /\ hasListener cookies_onChanged the_onCookiePopupUpdates connected = true
  /\ cookiePopupPorts gone = []
  /\ hasListener cookies_onChanged the_onCookiePopupUpdates gone = false
  /\ listeners gone
     = listeners w ++ [(port_onMessage p, the_port_onMessage_listener);
                       (port_onDisconnect p, the_port_onDisconnect_listener)].
Proof.
  intros Hp Hports Hout connected gone. unfold accepted in Hp.
  destruct (Port.name p) as [name|] eqn:Hname; [|discriminate].
  assert (Hc : cookiePopupPorts connected = [p]
               /\ listeners connected
                  = listeners w ++ [(cookies_onChanged, the_onCookiePopupUpdates)]
                    ++ [(port_onMessage p, the_port_onMessage_listener);
                        (port_onDisconnect p, the_port_onDisconnect_listener)]).
  { unfold connected. rewrite (handleConnect_run p name w Hname Hp). cbn.
    rewrite Hports, Hout. cbn. split; [reflexivity|]. rewrite <- app_assoc. reflexivity. }
  destruct Hc as [Hcp Hcl].
  assert (Hgl : listeners gone
                = listeners w ++ [(port_onMessage p, the_port_onMessage_listener);
                                  (port_onDisconnect p, the_port_onDisconnect_listener)]).
  { unfold gone. destruct (port_onDisconnect_listener_run p connected) as (_ & _ & -> & _).
    rewrite Hcp. cbn [length Nat.eqb]. rewrite Hcl.
    apply hasListener_snoc_other; [exact Hout|].
    repeat constructor; discriminate. }
  split; [exact Hcp|]. split; [|split; [|split; [|exact Hgl]]].
  - unfold hasListener. apply bool_decide_eq_true. rewrite Hcl.
    apply elem_of_app. right. left.
  - unfold gone.
    rewrite (port_onDisconnect_listener_named p name connected Hname
               (startsWith_nonempty _ _ _ Hp)).
    rewrite Hcp. cbn. unfold named. rewrite Hname, bool_decide_eq_true_2 by reflexivity.
    reflexivity.
  - unfold hasListener in *. apply bool_decide_eq_false. apply bool_decide_eq_false in Hout.
    rewrite Hgl. intros [Hin|Hin]%elem_of_app; [contradiction|].
    apply elem_of_cons in Hin as [Heq|Hin]; [discriminate|].
    apply elem_of_cons in Hin as [Heq|Hin]; [discriminate|].
    apply elem_of_nil in Hin. exact Hin.
Qed.

End PortNames.

(** *** Changes of the settings, further *)

Section SettingsFurther.
Context {T : Typings} {C : Collaborators}.

Lemma turned_on_same (s : gmap string Setting) (k : string) : turned_on s s k = false.
Proof. unfold turned_on. destruct (setting_on s k); reflexivity. Qed.

Lemma value_differs_same (s : gmap string Setting) (k : string) : value_differs s s k = false.
Proof. unfold value_differs. rewrite bool_decide_eq_true_2 by reflexivity. reflexivity. Qed.

Lemma cleanup_effects_same (s : gmap string Setting) : cleanup_effects s s = [].
Proof.
  unfold cleanup_effects, cleanup_due.
  induction SITEDATATYPES as [|sd l IH]; cbn [flat_map]; [reflexivity|].
  rewrite turned_on_same, IH. reflexivity.
Qed.

Lemma activeMode_effects_same (s : gmap string Setting) : activeMode_effects s s = [].
Proof.
  unfold activeMode_effects. rewrite value_differs_same.
  destruct (setting_on s "activeMode"); reflexivity.
Qed.

(** X16. A change of the state that leaves the settings as they were
    cleans nothing: when the store's settings are the remembered ones,
    [onSettingsChange] only calls [checkIfProtected] and dispatches
    [validateSettings]. *)
Theorem onSettingsChange_same_settings (w : World) (st : State) :
  currentSettings w = Some (settings st) -> store w = Some st ->
  settings_present (settings st) (settings st) = true ->
  completion (onSettingsChange w) = Returned tt
  /\ effects (onSettingsChange w) = [checkIfProtected st; store_dispatch validateSettings].
Proof.
  intros Hprev Hst Hpresent.
  destruct (onSettingsChange_run w (settings st) st Hprev Hst Hpresent) as (Hc & He & _).
  split; [exact Hc|]. rewrite He.
  unfold container_actions, contextMenus_effects, deprecated_actions.
  rewrite turned_on_same, !value_differs_same, cleanup_effects_same, activeMode_effects_same.
  reflexivity.
Qed.



Lemma bind_isolated {B} (m : M unit) (k : unit -> M B) (w : World) :
  bind (isolated m) k w = prepend (effects (m w)) (k tt (final (m w))).
Proof.
  unfold bind, isolated, prepend. destruct (m w) as [es w' c]. cbn.
  destruct (k tt w'); reflexivity.
Qed.

(** X18. A failure of [onSettingsChange] does not keep the state from
    being saved: when the store notifies its two subscribers and no save
    is pending, [saveToStorage] schedules the save whatever
    [onSettingsChange] did before it, also when that threw. *)
Theorem settings_failure_does_not_stop_save (polls : nat) (b : Browser) (w : World) :
  subscribers w = [the_onSettingsChange; the_saveToStorage] ->
  delaySave w = false ->
  delaySave (final (react polls b Store_notifies w)) = true
  /\ timers (final (react polls b Store_notifies w)) = timers w ++ [save_timer 1000].
Proof.
  intros Hsubs Hd. cbn [react]. rewrite bind_read, Hsubs. cbn [for_each call_subscriber].
  rewrite !bind_isolated. cbn [prepend final].
  pose proof (onSettingsChange_keeps w) as Hkeep. unfold ports_and_timer in Hkeep.
  injection Hkeep as _ Hd1 Ht1.
  set (w1 := final (onSettingsChange w)) in *.
  unfold saveToStorage, bind, read, write, ret. cbn.
  rewrite Hd1, Hd. cbn. rewrite Ht1. split; reflexivity.
Qed.

Lemma filter_menu_dispatch (acts : list Action) :
  List.filter is_activeMode_or_menu_call (map store_dispatch acts) = [].
Proof. induction acts as [|a acts IH]; cbn; [reflexivity | exact IH]. Qed.

Lemma filter_menu_cleanup_effects (prev cur : gmap string Setting) :
  List.filter is_activeMode_or_menu_call (cleanup_effects prev cur) = [].
Proof.
  unfold cleanup_effects. induction SITEDATATYPES as [|sd l IH]; cbn [flat_map]; [reflexivity|].
  rewrite List.filter_app, IH. destruct (cleanup_due prev cur sd); reflexivity.
Qed.

(** X19. In [onSettingsChange], with the settings it reads present: the
    alarm activeModeAlarm is cleared exactly when activeMode went from
    true to false; the icon and the checkbox of the menu are set to the
    new value of activeMode exactly when its value differs from the
    previous one; and when the value of contextMenus differs, the menu is
    set up if it is now true and cleared if not. These calls are made in
    this order, and no other call about the alarm, the icon or the
    menu. *)
Theorem onSettingsChange_activeMode_and_menus (w : World) (prev : gmap string Setting)
    (st : State) :
  currentSettings w = Some prev -> store w = Some st ->
  settings_present prev (settings st) = true ->
  let cur := settings st in
  exists activeMode contextMenus,
    cur !! "activeMode" = Some activeMode
    /\ cur !! "contextMenus" = Some contextMenus
    /\ List.filter is_activeMode_or_menu_call (effects (onSettingsChange w))
       = (if setting_on prev "activeMode" && negb (truthy (value activeMode))
          then [alarms_clear "activeModeAlarm"] else [])
         ++ (if value_differs prev cur "activeMode"
             then [setGlobalIcon (value activeMode);
                   ContextMenuEvents_updateMenuItemCheckbox (value activeMode)]
             else [])
         ++ (if value_differs prev cur "contextMenus"
             then [if truthy (value contextMenus)
                   then ContextMenuEvents_menuInit else ContextMenuEvents_menuClear]
             else []).
Proof.
  intros Hprev Hst Hpresent cur.
  destruct (onSettingsChange_run w prev st Hprev Hst Hpresent) as (_ & He & _).
  apply andb_true_iff in Hpresent as [_ Hcur].
  destruct (has_settings_lookup _ _ "activeMode" Hcur) as [a Ha]; [cbn; tauto|].
  destruct (has_settings_lookup _ _ "contextMenus" Hcur) as [m Hm]; [cbn; tauto|].
  fold cur in Ha, Hm. exists a, m. split; [exact Ha|]. split; [exact Hm|].
  rewrite He. fold cur. rewrite !List.filter_app.
  rewrite !filter_menu_dispatch, filter_menu_cleanup_effects.
  unfold activeMode_effects, contextMenus_effects, setting_on at 2 3. rewrite Ha, Hm.
  cbn [app List.filter is_activeMode_or_menu_call]. rewrite app_nil_r.
  destruct (setting_on prev "activeMode" && negb (truthy (value a)));
    destruct (value_differs prev cur "activeMode");
    destruct (value_differs prev cur "contextMenus");
    destruct (truthy (value m)); reflexivity.
Qed.

End SettingsFurther.

(** *** Update of the extension, further *)

Section UpdateFurther.
Context {T : Typings} {C : Collaborators}.

Lemma forallb_dispatch (P : Effect -> bool) (acts : list Action) :
  (forall a, P (store_dispatch a) = true) -> forallb P (map store_dispatch acts) = true.
Proof. intros HP. induction acts as [|a acts IH]; cbn; [reflexivity | rewrite HP; exact IH]. Qed.

Lemma tame_of_run (P : Effect -> bool) (m : M unit) (acts : State -> list Action) :
  (forall a, P (store_dispatch a) = true) ->
  (forall w st, store w = Some st ->
     m w = {| effects := map store_dispatch (acts st);
              final := with_store (Some (replay (acts st) st)) w;
              completion := Returned tt |}) ->
  tame P m.
Proof.
  intros HP Hrun w st Hst. exists tt. rewrite (Hrun w st Hst). cbn [effects final completion].
  rewrite dispatches_dispatch. repeat split. apply forallb_dispatch, HP.
Qed.

Lemma migrations_tame (b : Browser) :
  tame not_openOptionsPage
    (migrate_localstorageCleanup ;; migrate_cleanLocalStorage ;;
     migrate_CleanLocalstorage_defaults b).
Proof.
  apply tame_bind; [|intros _; apply tame_bind; [|intros _]].
  - apply (tame_of_run _ _ renamed_setting); [reflexivity|].
    apply migrate_localstorageCleanup_run.
  - apply (tame_of_run _ _ migrated_expressions); [reflexivity|].
    apply migrate_cleanLocalStorage_run.
  - repeat tame_step.
Qed.

(** [case 'update'], with the state it leaves. *)
Lemma onInstalled_update_trace (b : Browser) (details : InstalledDetails) (w : World)
    (st : State) :
  store w = Some st ->
  let v := convertVersionToNumber (previousVersion details) in
  exists migrations,
    let reset := if v <? 300 then [RESET_COOKIE_DELETED_COUNTER] else [] in
    let st' := replay (validateSettings :: dispatches migrations ++ reset) st in
    onInstalled_update b details w
    = {| effects := store_dispatch validateSettings :: migrations
                    ++ map store_dispatch reset
                    ++ (if truthy (getSetting st' "enableNewVersionPopup")
                        then [runtime_openOptionsPage] else []);
         final := with_store (Some st') w;
         completion := Returned tt |}
    /\ forallb not_openOptionsPage migrations = true
    /\ (350 <= v -> migrations = []).
Proof.
  intros Hst v. unfold onInstalled_update. fold v.
  erewrite bind_dispatch by exact Hst.
  set (w1 := with_store (Some (reduce validateSettings st)) w).
  assert (Hmid : tame not_openOptionsPage
            (if v <? 350
             then migrate_localstorageCleanup ;; migrate_cleanLocalStorage ;;
                  migrate_CleanLocalstorage_defaults b
             else ret tt)).
  { destruct (v <? 350); [apply migrations_tame | apply tame_ret]. }
  destruct (Hmid w1 (reduce validateSettings st) eq_refl) as ([] & Hc & Hf & HP).
  rewrite (bind_returned _ _ w1 tt Hc). rewrite Hf.
  match goal with
  | |- context [effects (?m w1)] => set (migrations := effects (m w1)) in *
  end.
  exists migrations.
  set (w2 := with_store _ w1).
  erewrite (bind_run (when (v <? 300) (dispatch RESET_COOKIE_DELETED_COUNTER)))
    by (apply when_dispatch_run; reflexivity).
  erewrite bind_getState by reflexivity.
  cbn [effects final completion prepend].
  split; [|split; [exact HP|]].
  - cbn [replay fold_left]. rewrite <- !replay_app.
    change (fold_left (fun s a => reduce a s) ?l ?s) with (replay l s).
    rewrite !replay_app.
    destruct (truthy (getSetting _ "enableNewVersionPopup")); cbn [when];
      unfold call, ret; cbn; rewrite ?app_nil_r; reflexivity.
  - intros Hv. subst migrations. destruct (Z.ltb_spec v 350) as [Hlt|_]; [lia|]. reflexivity.
Qed.

(** X20. An update from version 3.5.0 or later migrates nothing: after
    [checkIfProtected] the listener of runtime.onInstalled dispatches
    [validateSettings] and nothing else, and it opens the options page
    exactly when the validated state has enableNewVersionPopup on. *)
Theorem onInstalled_update_from_current_version (polls : nat) (b : Browser)
    (details : InstalledDetails) (w : World) (st : State) :
  store w = Some st ->
  reason details = "update" ->
  350 <= convertVersionToNumber (previousVersion details) ->
  let validated := reduce validateSettings st in
  effects (onInstalled_listener polls b details w)
  = [checkIfProtected st; store_dispatch validateSettings]
    ++ (if truthy (getSetting validated "enableNewVersionPopup")
        then [runtime_openOptionsPage] else [])
  /\ store (final (onInstalled_listener polls b details w)) = Some validated.
Proof.
  intros Hst Hr Hv validated.
  rewrite (onInstalled_listener_begins _ _ _ _ _ Hst), Hr.
  cbn [String.eqb Ascii.eqb Bool.eqb andb prepend effects final].
  destruct (onInstalled_update_trace b details w st Hst) as (migrations & Hrun & _ & Hnone).
  cbv zeta in Hrun. rewrite Hrun, (Hnone Hv). cbn [effects final].
  destruct (Z.ltb_spec (convertVersionToNumber (previousVersion details)) 300) as [Hlt|_];
    [lia|].
  split; reflexivity.
Qed.

Lemma not_openOptionsPage_In (es : list Effect) :
  forallb not_openOptionsPage es = true -> ~ In runtime_openOptionsPage es.
Proof.
  intros Hes Hin. rewrite forallb_forall in Hes. specialize (Hes _ Hin). discriminate Hes.
Qed.

(** X21. On an update the listener of runtime.onInstalled returns, the
    store holds the state with everything it dispatched applied, and it
    opens the options page exactly when enableNewVersionPopup is on in
    that final state, after the migrations, not before them. With a
    previous version below 3.0.0 the reset of the deleted-cookies counter
    is the last action it dispatches. *)
Theorem onInstalled_update_new_version_page (polls : nat) (b : Browser)
    (details : InstalledDetails) (w : World) (st : State) :
  store w = Some st ->
  reason details = "update" ->
  let run := onInstalled_listener polls b details w in
  let st' := replay (dispatches (effects run)) st in
  completion run = Returned tt
  /\ store (final run) = Some st'
  /\ (In runtime_openOptionsPage (effects run)
      <-> truthy (getSetting st' "enableNewVersionPopup") = true)
  /\ (convertVersionToNumber (previousVersion details) < 300 ->
      exists before,
        dispatches (effects run) = before ++ [RESET_COOKIE_DELETED_COUNTER]).
Proof.
  intros Hst Hr run st'. subst st' run.
  rewrite (onInstalled_listener_begins _ _ _ _ _ Hst), Hr.
  cbn [String.eqb Ascii.eqb Bool.eqb andb prepend effects final completion].
  destruct (onInstalled_update_trace b details w st Hst) as (migrations & Hrun & Hm & _).
  cbv zeta in Hrun. rewrite Hrun. cbn [effects final completion].
  set (reset := if convertVersionToNumber (previousVersion details) <? 300
                then [RESET_COOKIE_DELETED_COUNTER] else []) in *.
  set (st1 := replay (validateSettings :: dispatches migrations ++ reset) st) in *.
  assert (Hd : dispatches
                 ([checkIfProtected st] ++
                  store_dispatch validateSettings :: migrations ++ map store_dispatch reset ++
                  (if truthy (getSetting st1 "enableNewVersionPopup")
                   then [runtime_openOptionsPage] else []))
               = validateSettings :: dispatches migrations ++ reset).
  { rewrite dispatches_app. change (dispatches [checkIfProtected st]) with (@nil Action).
    cbn [app]. rewrite dispatches_cons, !dispatches_app, dispatches_dispatch.
    destruct (truthy _); cbn; rewrite app_nil_r; reflexivity. }
  rewrite Hd. fold st1. split; [reflexivity|]. split; [reflexivity|]. split.
  - cbn [app In]. rewrite !in_app_iff. split.
    + intros [Hin|[Hin|[Hin|[Hin|Hin]]]]; try discriminate Hin.
      * exfalso. exact (not_openOptionsPage_In _ Hm Hin).
      * exfalso. apply in_map_iff in Hin as (a & Ha & _). discriminate Ha.
      * destruct (truthy _); [reflexivity | destruct Hin].
    + intros ->. right. right. right. right. left. reflexivity.
  - intros Hlt. apply Z.ltb_lt in Hlt. subst reset. rewrite Hlt.
    exists (validateSettings :: dispatches migrations). reflexivity.
Qed.

(** The sets of containers. *)
Lemma elem_of_Set_add (x y : string) (s : list string) :
  y ∈ Set_add x s <-> y = x \/ y ∈ s.
Proof.
  unfold Set_add. destruct (bool_decide_reflect (x ∈ s)) as [Hin|Hout].
  - split; [intros H; right; exact H | intros [->|H]; assumption].
  - rewrite elem_of_app, list_elem_of_singleton. tauto.
Qed.

Lemma NoDup_Set_add (x : string) (s : list string) : NoDup s -> NoDup (Set_add x s).
Proof.
  intros Hs. unfold Set_add. destruct (bool_decide_reflect (x ∈ s)) as [Hin|Hout];
    [exact Hs|].
  apply NoDup_app. split; [exact Hs|]. split.
  - intros y Hy Hyx. apply list_elem_of_singleton in Hyx as ->. contradiction.
  - apply NoDup_singleton.
Qed.

Lemma Set_add_all (l s : list string) :
  NoDup s ->
  NoDup (fold_left (fun s c => Set_add c s) l s)
  /\ (forall y, y ∈ fold_left (fun s c => Set_add c s) l s <-> y ∈ l \/ y ∈ s).
Proof.
  revert s. induction l as [|x l IH]; intros s Hs; cbn [fold_left].
  - split; [exact Hs|]. intros y. rewrite elem_of_nil. tauto.
  - destruct (IH (Set_add x s) (NoDup_Set_add x s Hs)) as [Hnd Hin].
    split; [exact Hnd|]. intros y. rewrite Hin, elem_of_Set_add, elem_of_cons. tauto.
Qed.

Lemma default_containers_set (b : Browser) (st : State) :
  NoDup (default_containers b st)
  /\ (forall c, c ∈ default_containers b st
        <-> c = "default" \/ c ∈ map fst (lists st)
            \/ (truthy (getSetting st "contextualIdentities") = true
                /\ c ∈ contextualIdentities b)).
Proof.
  unfold default_containers, Set_of.
  destruct (Set_add_all (map fst (lists st)) [] (NoDup_nil_2 (A:=string))) as [Hk Hkin].
  pose proof (NoDup_Set_add "default" _ Hk) as Hd.
  destruct (Set_add_all
              (if truthy (getSetting st "contextualIdentities")
               then contextualIdentities b else [])
              _ Hd) as [Hall Hin].
  split; [exact Hall|]. intros c. rewrite Hin, elem_of_Set_add, Hkin.
  destruct (truthy (getSetting st "contextualIdentities")).
  - rewrite elem_of_nil. intuition congruence.
  - rewrite !elem_of_nil. intuition congruence.
Qed.

Lemma for_each_dispatch_all {A} (g : A -> Action) (l : list A) (w : World) (st : State) :
  store w = Some st ->
  for_each l (fun x => dispatch (g x)) w
  = {| effects := map store_dispatch (map g l);
       final := with_store (Some (replay (map g l) st)) w;
       completion := Returned tt |}.
Proof.
  revert w st. induction l as [|x l IH]; intros w st Hst; cbn [for_each map].
  - cbn. rewrite (with_store_same _ _ Hst). reflexivity.
  - rewrite (bind_dispatch _ _ _ _ Hst).
    rewrite (IH _ (reduce (g x) st)) by reflexivity. reflexivity.
Qed.

Lemma migrate_CleanLocalstorage_defaults_run (b : Browser) (w : World) (st : State) :
  store w = Some st ->
  let grey := default_expressions b GREY st in
  let white := default_expressions b WHITE (replay grey st) in
  dispatches (effects (migrate_CleanLocalstorage_defaults b w)) = grey ++ white
  /\ store (final (migrate_CleanLocalstorage_defaults b w)) = Some (replay (grey ++ white) st)
  /\ completion (migrate_CleanLocalstorage_defaults b w) = Returned tt.
Proof.
  intros Hst grey white.
  assert (Hbody : forall lt w st, store w = Some st ->
            exists query,
              (st0 <- getState ;;
               if truthy (getSetting st0 (toLowerCase (ListType_text lt) +:+ "CleanLocalstorage"))
               then
                 st1 <- getState ;;
                 let containers := Set_add "default" (Set_of (map fst (lists st1))) in
                 st2 <- getState ;;
                 containers <-
                   (if truthy (getSetting st2 "contextualIdentities") then
                      call contextualIdentities_query ;;
                      ret (fold_left (fun s c => Set_add c s) (contextualIdentities b) containers)
                    else ret containers) ;;
                 for_each containers (fun list =>
                   dispatch (ADD_EXPRESSION
                               {| expression := "_Default:" +:+ ListType_text lt;
                                  cleanLocalStorage := None;
                                  cleanSiteData := Some [LOCALSTORAGE];
                                  listType := lt;
                                  storeId := list |}))
               else ret tt) w
              = {| effects := query ++ map store_dispatch (default_expressions b lt st);
                   final := with_store (Some (replay (default_expressions b lt st) st)) w;
                   completion := Returned tt |}
              /\ dispatches query = []).
  { clear. intros lt w st Hst. unfold default_expressions, default_containers.
    erewrite bind_getState by exact Hst.
    destruct (truthy (getSetting st (toLowerCase (ListType_text lt) +:+ "CleanLocalstorage"))).
    - erewrite bind_getState by exact Hst. cbv zeta.
      erewrite bind_getState by exact Hst.
      destruct (truthy (getSetting st "contextualIdentities")).
      + exists [contextualIdentities_query]. rewrite bind_assoc, bind_call, bind_ret.
        rewrite (for_each_dispatch_all _ _ w st Hst). split; reflexivity.
      + exists []. rewrite bind_ret.
        rewrite (for_each_dispatch_all _ _ w st Hst). split; reflexivity.
    - exists []. cbn. rewrite (with_store_same _ _ Hst). split; reflexivity. }
  unfold migrate_CleanLocalstorage_defaults. cbn [for_each].
  destruct (Hbody GREY w st Hst) as (q1 & Hrun1 & Hq1).
  rewrite (bind_run _ _ _ _ _ _ Hrun1). fold grey.
  destruct (Hbody WHITE (with_store (Some (replay grey st)) w) (replay grey st) eq_refl)
    as (q2 & Hrun2 & Hq2).
  rewrite (bind_run _ _ _ _ _ _ Hrun2). fold white.
  cbn [effects final completion ret store with_store].
  rewrite !dispatches_app, !dispatches_dispatch, Hq1, Hq2, replay_app. cbn [app].
  rewrite app_nil_r. repeat split.
Qed.

(** X22. The third migration of an update (lines 372-402) adds, for the
    grey list and then for the white list, when the "Keep LocalStorage"
    setting of that list is on in the state reached by then, one default
    expression per container and no more: the containers are "default",
    the keys of [lists] and, with the containers setting on, the
    contextual identities the browser reports, each of them exactly
    once. Nothing else is dispatched. *)
Theorem default_expression_per_container (b : Browser) (w : World) (st : State) :
  store w = Some st ->
  let grey := default_expressions b GREY st in
  dispatches (effects (migrate_CleanLocalstorage_defaults b w))
  = grey ++ default_expressions b WHITE (replay grey st)
  /\ (forall st',
        NoDup (default_containers b st')
        /\ (forall c, c ∈ default_containers b st'
              <-> c = "default" \/ c ∈ map fst (lists st')
                  \/ (truthy (getSetting st' "contextualIdentities") = true
                      /\ c ∈ contextualIdentities b))).
Proof.
  intros Hst grey. split.
  - apply (migrate_CleanLocalstorage_defaults_run b w st Hst).
  - apply default_containers_set.
Qed.

End UpdateFurther.

(** ** The theorems at work on the sample extension *)

Lemma onStartUp_store_from_disk_witness :
  stateFromStorage (storage_local Sample.firefox) = [("activeMode", true)]
  /\ stateFromStorage (∅ : gmap string string) = @emptyObject _ Sample.collaborators
  /\ stateFromStorage ({[ "state" := "{broken" ]} : gmap string string)
     = @emptyObject _ Sample.collaborators.
Proof.
  pose proof (onStartUp_store_from_disk Sample.firefox module_start) as (Hparsed & _).
  pose proof (onStartUp_store_from_disk
                {| manifest_name := ""; manifest_version := ""; storage_local := ∅;
                   browserDetect := JStr "Chrome"; browserInfo_version := "";
                   platformInfo_os := ""; contextMenus := false; tabs_normal := [];
                   contextualIdentities := [] |} module_start) as (_ & Habsent & _).
  pose proof (onStartUp_store_from_disk
                {| manifest_name := ""; manifest_version := "";
                   storage_local := {[ "state" := "{broken" ]};
                   browserDetect := JStr "Chrome"; browserInfo_version := "";
                   platformInfo_os := ""; contextMenus := false; tabs_normal := [];
                   contextualIdentities := [] |} module_start) as (_ & _ & Hthrows & _).
  split; [|split].
  - apply (Hparsed eq_refl "{on}"); reflexivity.
  - apply Habsent. reflexivity.
  - apply (Hthrows "{broken"); reflexivity.
Defined.

Lemma onInstalled_by_reason_witness :
  effects (onInstalled_listener 0 Sample.firefox
             {| reason := "install"; previousVersion := None |} Sample.running)
  = [checkIfProtected Sample.state_after; runtime_openOptionsPage]
  /\ completion (onInstalled_listener 0 Sample.firefox
                   {| reason := "update"; previousVersion := Some "2.9.9" |} Sample.running)
     = Returned tt.
Proof.
  split.
  - apply (onInstalled_by_reason 0 Sample.firefox
             {| reason := "install"; previousVersion := None |}
             Sample.running Sample.state_after eq_refl).
    reflexivity.
  - apply (onInstalled_by_reason 0 Sample.firefox
             {| reason := "update"; previousVersion := Some "2.9.9" |}
             Sample.running Sample.state_after eq_refl).
Defined.


(** C5 as stated fails when a setting is missing: here the clean-up of
    the service workers was turned on, but the handler throws at the
    missing indexedDBCleanup, after the cache and before the service
    workers. *)
Lemma onSettingsChange_skips_cleanup :
  cleanup_due Sample.settings_old Sample.settings_upgraded Sample.ServiceWorkers = true
  /\ In Sample.ServiceWorkers SITEDATATYPES
  /\ List.filter is_cleanup_effect (effects (onSettingsChange Sample.upgrading))
     = [browsingData_remove 0 "cache";
        cadLog (Log_siteDataActivated Sample.Cache) (JBool false)]
  /\ completion (onSettingsChange Sample.upgrading) = Thrown (TypeError "indexedDBCleanup").
Proof.
  split; [reflexivity|]. split; [cbn; tauto|]. split; reflexivity.
Qed.

Lemma onSettingsChange_cleans_site_data_witness :
  (checked_types Sample.settings_before (settings Sample.state_after) = SITEDATATYPES
   /\ List.filter is_cleanup_effect (effects (onSettingsChange Sample.running))
      = [browsingData_remove 0 "cache";
         cadLog (Log_siteDataActivated Sample.Cache) (JBool false)])
  /\ (completion (onSettingsChange Sample.menuless) = Thrown (TypeError "contextMenus")
      /\ List.filter is_cleanup_effect (effects (onSettingsChange Sample.menuless))
         = [browsingData_remove 0 "cache";
            cadLog (Log_siteDataActivated Sample.Cache) (JBool false)])
  /\ (checked_types Sample.settings_old Sample.settings_upgraded = [Sample.Cache]
      /\ List.filter is_cleanup_effect (effects (onSettingsChange Sample.upgrading))
         = [browsingData_remove 0 "cache";
            cadLog (Log_siteDataActivated Sample.Cache) (JBool false)]).
Proof.
  destruct (onSettingsChange_cleans_site_data Sample.running Sample.settings_before
              Sample.state_after eq_refl eq_refl) as (Hcalls & _).
  destruct (onSettingsChange_cleans_site_data Sample.menuless
              (delete "contextMenus" Sample.settings_before)
              Sample.state_after eq_refl eq_refl) as (Hcalls' & _).
  destruct (onSettingsChange_cleans_site_data Sample.upgrading Sample.settings_old
              {| Sample.the_settings := Sample.settings_upgraded;
                 Sample.the_lists := []; Sample.reduced := [] |} eq_refl eq_refl)
    as (Hcalls'' & _).
  split; [split; [reflexivity | rewrite Hcalls; reflexivity]|].
  split; [split; [reflexivity | rewrite Hcalls'; reflexivity]|].
  split; [reflexivity | rewrite Hcalls''; reflexivity].
Defined.

(** C7 as stated fails when a setting is missing: here the handler stops
    at the missing indexedDBCleanup; [checkIfProtected] and
    [validateSettings] do not run, and localstorageCleanup is not updated
    although localStorageCleanup has changed. *)
Lemma onSettingsChange_stops_early :
  effects (onSettingsChange Sample.upgrading)
  = [store_dispatch cacheCookieStoreIdNames;
     browsingData_remove 0 "cache";
     cadLog (Log_siteDataActivated Sample.Cache) (JBool false)]
  /\ completion (onSettingsChange Sample.upgrading) = Thrown (TypeError "indexedDBCleanup")
  /\ value_differs Sample.settings_old Sample.settings_upgraded "localStorageCleanup" = true.
Proof. repeat split; reflexivity. Qed.

Lemma onSettingsChange_dispatches_witness :
  dispatches (effects (onSettingsChange Sample.running))
  = [cacheCookieStoreIdNames;
     UPDATE_SETTING {| name := "localstorageCleanup"; value := JBool true |};
     validateSettings].
Proof.
  destruct (onSettingsChange_dispatches Sample.running Sample.settings_before
              Sample.state_after eq_refl eq_refl ltac:(vm_compute; reflexivity))
    as (_ & (c & Hc & Hd) & _).
  vm_compute in Hc. injection Hc as <-. exact Hd.
Defined.

Lemma onStartup_greyCleanup_witness :
  dispatches (effects (onStartup_listener 0 Sample.firefox Sample.running))
  = [cookieCleanup true (JBool false)].
Proof.
  apply (onStartup_greyCleanup 0 Sample.firefox Sample.running Sample.state_after eq_refl).
Defined.

Lemma saveToStorage_debounced_witness :
  saveToStorage (with_delaySave true Sample.running) = ret tt (with_delaySave true Sample.running)
  /\ timers (final (saveToStorage Sample.running)) = [save_timer 1000]
  /\ effects (react 0 Sample.firefox Timer_fires
                (final (react 0 Sample.firefox (Store_dispatched ON_STARTUP)
                          (final (saveToStorage Sample.running)))))
     = [storage_local_set "{on}"].
Proof.
  destruct (@saveToStorage_debounced _ Sample.collaborators 0) as (_ & Hset & Hclear & _ & Hlatest).
  split; [|split].
  - apply Hset. reflexivity.
  - apply Hclear. reflexivity.
  - apply (Hlatest Sample.firefox Sample.running Sample.state_after ON_STARTUP);
      reflexivity.
Defined.

Lemma popup_ports_witness :
  handleConnect Sample.options_page Sample.running = ret tt Sample.running
  /\ cookiePopupPorts (final (handleConnect Sample.popup Sample.running)) = [Sample.popup]
  /\ cookiePopupPorts (final (port_onDisconnect_listener Sample.popup
                                (final (handleConnect Sample.popup Sample.running)))) = [].
Proof.
  destruct (@popup_ports _ Sample.collaborators 0) as (_ & Hreject & Haccept & Hgone & _).
  split; [|split].
  - apply Hreject. reflexivity.
  - apply Haccept. reflexivity.
  - apply (Hgone Sample.popup "popupCAD_www.example.com,7"); reflexivity.
Defined.

(** C10 as stated fails in its last clause: the popup of notexample.com,
    which is neither example.com nor one of its subdomains, is posted to
    when a cookie of example.com changes. *)
Lemma onCookiePopupUpdates_posts_to_other_site :
  "notexample.com" <> "example.com"
  /\ ~ (exists sub, "notexample.com" = sub +:+ ".example.com")
  /\ effects (onCookiePopupUpdates Sample.cookie_of_example
                (with_cookiePopupPorts [Sample.popup_of_other_site] Sample.running))
     = [port_postMessage Sample.popup_of_other_site (cookieUpdated true)].
Proof.
  split; [discriminate|]. split; [|reflexivity].
  intros Hsub. apply endsWith_true in Hsub. discriminate Hsub.
Qed.

Lemma onCookiePopupUpdates_posts_witness :
  effects (onCookiePopupUpdates Sample.cookie_changed
             (with_cookiePopupPorts
                [Sample.popup_elsewhere; Sample.popup; Sample.options_page;
                 Port.mk 6 None; Sample.popup_again]
                Sample.running))
  = [port_postMessage Sample.popup (cookieUpdated true);
     port_postMessage Sample.popup_again (cookieUpdated true)]
  /\ shows_domain Sample.cookie_changed Sample.popup.
Proof.
  destruct (onCookiePopupUpdates_posts Sample.cookie_changed
              (with_cookiePopupPorts
                 [Sample.popup_elsewhere; Sample.popup; Sample.options_page;
                  Port.mk 6 None; Sample.popup_again]
                 Sample.running)) as (Hposts & Hshows & _).
  split; [rewrite Hposts; reflexivity|].
  apply Hshows. reflexivity.
Defined.

Lemma listeners_await_store_witness :
  onInstalled_listener 2 Sample.firefox {| reason := "update"; previousVersion := None |}
    module_start
  = {| effects := [sleep 250; sleep 250]; final := module_start; completion := Polling |}.
Proof.
  apply (listeners_await_store 2 Sample.firefox
           {| reason := "update"; previousVersion := None |} module_start eq_refl).
Defined.

Lemma onSettingsChange_needs_settings_witness :
  completion (onSettingsChange (with_currentSettings (Some ∅) Sample.running))
  = Thrown (TypeError "contextualIdentities").
Proof.
  apply (onSettingsChange_needs_settings (with_currentSettings (Some ∅) Sample.running)
           ∅ Sample.state_after eq_refl eq_refl (lookup_empty _)).
Defined.

(** The further properties at work. *)


Lemma saved_state_is_restored_witness :
  stores_created (effects (onStartUp Sample.firefox module_start)) = [[("activeMode", true)]].
Proof.
  apply (saved_state_is_restored Sample.firefox Sample.running module_start
           Sample.state_after "{on}" [("activeMode", true)]);
    [reflexivity | vm_compute; left; reflexivity | reflexivity | reflexivity | reflexivity].
Defined.

Lemma onStartup_listener_calls_witness :
  effects (onStartup_listener 0 Sample.firefox Sample.running)
  = [tabs_query;
     cadLog Log_greyCleanupDispatching (JBool false);
     store_dispatch (cookieCleanup true (JBool false));
     checkIfProtected (Sample.reducer (cookieCleanup true (JBool false)) Sample.state_after)].
Proof.
  apply (onStartup_listener_calls 0 Sample.firefox Sample.running Sample.state_after eq_refl).
Defined.

Lemma storage_written_by_timer_only_witness :
  ~ In (storage_local_set "{on}")
       (effects (react 0 Sample.firefox Store_notifies Sample.running)).
Proof.
  apply (storage_written_by_timer_only 0 Sample.firefox Store_notifies Sample.running "{on}").
  discriminate.
Defined.

Lemma site_data_removed_on_settings_change_only_witness :
  dispatches (effects (onInstalled_listener 0 Sample.firefox
                         {| reason := "update"; previousVersion := Some "3.4.0" |}
                         Sample.running))
  = [validateSettings;
     UPDATE_SETTING {| name := "localStorageCleanup"; value := JBool true |};
     UPDATE_EXPRESSION
       {| expression := "*.example.com"; cleanLocalStorage := Some true;
          cleanSiteData := Some [Sample.LocalStorage];
          listType := Sample.White; storeId := "default" |}]
  /\ ~ In (browsingData_remove 0 "localStorage")
          (effects (onInstalled_listener 0 Sample.firefox
                      {| reason := "update"; previousVersion := Some "3.4.0" |}
                      Sample.running)).
Proof.
  split; [reflexivity|].
  apply (site_data_removed_on_settings_change_only 0 Sample.firefox Sample.running
           0 "localStorage").
Defined.

Lemma cookieCleanup_on_browser_startup_only_witness :
  ~ In (store_dispatch (cookieCleanup true (JBool false)))
       (effects (react 0 Sample.firefox Store_notifies Sample.running)).
Proof.
  apply (cookieCleanup_on_browser_startup_only 0 Sample.firefox Store_notifies
           Sample.running true (JBool false)).
  - discriminate.
  - intros a. discriminate.
Defined.

Lemma save_timer_writes_state_witness :
  let w := after 0 [(Sample.firefox, Script_loads); (Sample.firefox, Storage_answers);
                    (Sample.firefox, Store_notifies)] module_start in
  exists st,
    store w = Some st
    /\ effects (react 0 Sample.firefox Timer_fires w) = [storage_local_set (JSON_stringify st)]
    /\ timers (final (react 0 Sample.firefox Timer_fires w)) = []
    /\ delaySave (final (react 0 Sample.firefox Timer_fires w)) = false.
Proof.
  apply (save_timer_writes_state 0
           [(Sample.firefox, Script_loads); (Sample.firefox, Storage_answers);
            (Sample.firefox, Store_notifies)] Sample.firefox).
  vm_compute. discriminate.
Defined.

Lemma popup_notified_of_its_domain_witness :
  In (port_postMessage Sample.popup (cookieUpdated true))
     (effects (onCookiePopupUpdates Sample.cookie_changed
                 (final (handleConnect Sample.popup Sample.running)))).
Proof.
  apply (popup_notified_of_its_domain Sample.cookie_changed Sample.popup "www" "7").
  - reflexivity.
  - vm_compute. intuition discriminate.
  - left. reflexivity.
Defined.

Lemma disconnect_removes_first_of_name_witness :
  cookiePopupPorts
    (final (port_onDisconnect_listener Sample.popup_again
              (final (handleConnect Sample.popup_again
                        (final (handleConnect Sample.popup Sample.running))))))
  = [Sample.popup_again].
Proof.
  apply (disconnect_removes_first_of_name Sample.popup Sample.popup_again
           "popupCAD_www.example.com,7" Sample.running);
    [reflexivity | reflexivity | reflexivity | constructor].
Defined.

Lemma popup_connects_and_disconnects_witness :
  cookiePopupPorts
    (final (port_onDisconnect_listener Sample.popup
              (final (handleConnect Sample.popup Sample.running)))) = []
  /\ hasListener cookies_onChanged the_onCookiePopupUpdates
       (final (port_onDisconnect_listener Sample.popup
                 (final (handleConnect Sample.popup Sample.running)))) = false.
Proof.
  destruct (popup_connects_and_disconnects Sample.popup Sample.running
              eq_refl eq_refl eq_refl) as (_ & _ & Hports & Hlistener & _).
  split; assumption.
Defined.

Lemma onSettingsChange_same_settings_witness :
  effects (onSettingsChange Sample.settled)
  = [checkIfProtected Sample.state_after; store_dispatch validateSettings].
Proof.
  apply (onSettingsChange_same_settings Sample.settled Sample.state_after eq_refl eq_refl).
  vm_compute. reflexivity.
Defined.


Lemma settings_failure_does_not_stop_save_witness :
  delaySave (final (react 0 Sample.firefox Store_notifies Sample.upgrading)) = true
  /\ timers (final (react 0 Sample.firefox Store_notifies Sample.upgrading))
     = [save_timer 1000].
Proof.
  apply (settings_failure_does_not_stop_save 0 Sample.firefox Sample.upgrading eq_refl eq_refl).
Defined.

Lemma onSettingsChange_activeMode_and_menus_witness :
  List.filter is_activeMode_or_menu_call (effects (onSettingsChange Sample.pausing))
  = [alarms_clear "activeModeAlarm";
     setGlobalIcon (JBool false);
     ContextMenuEvents_updateMenuItemCheckbox (JBool false);
     ContextMenuEvents_menuClear].
Proof.
  destruct (onSettingsChange_activeMode_and_menus Sample.pausing Sample.settings_after
              {| Sample.the_settings := Sample.settings_paused;
                 Sample.the_lists := []; Sample.reduced := [] |}
              eq_refl eq_refl ltac:(vm_compute; reflexivity))
    as (a & m & Ha & Hm & Hcalls).
  vm_compute in Ha, Hm. injection Ha as <-. injection Hm as <-. exact Hcalls.
Defined.

Lemma onInstalled_update_from_current_version_witness :
  effects (onInstalled_listener 0 Sample.firefox
             {| reason := "update"; previousVersion := Some "3.5.1" |} Sample.keeping)
  = [checkIfProtected Sample.state_keeping; store_dispatch validateSettings;
     runtime_openOptionsPage].
Proof.
  apply (onInstalled_update_from_current_version 0 Sample.firefox
           {| reason := "update"; previousVersion := Some "3.5.1" |}
           Sample.keeping Sample.state_keeping eq_refl eq_refl).
  vm_compute. discriminate.
Defined.

Lemma onInstalled_update_new_version_page_witness :
  In runtime_openOptionsPage
     (effects (onInstalled_listener 0 Sample.firefox
                 {| reason := "update"; previousVersion := Some "2.9.9" |} Sample.keeping))
  /\ exists before,
       dispatches (effects (onInstalled_listener 0 Sample.firefox
                              {| reason := "update"; previousVersion := Some "2.9.9" |}
                              Sample.keeping))
       = before ++ [RESET_COOKIE_DELETED_COUNTER].
Proof.
  destruct (onInstalled_update_new_version_page 0 Sample.firefox
              {| reason := "update"; previousVersion := Some "2.9.9" |}
              Sample.keeping Sample.state_keeping eq_refl eq_refl)
    as (_ & _ & Hpage & Hreset).
  split.
  - apply Hpage. vm_compute. reflexivity.
  - apply Hreset. vm_compute. reflexivity.
Defined.

Lemma default_expression_per_container_witness :
  dispatches (effects (migrate_CleanLocalstorage_defaults Sample.firefox Sample.keeping))
  = [ADD_EXPRESSION (default_expression Sample.Grey "default");
     ADD_EXPRESSION (default_expression Sample.Grey "firefox-container-1")].
Proof.
  destruct (default_expression_per_container Sample.firefox Sample.keeping
              Sample.state_keeping eq_refl) as [Hadded _].
  rewrite Hadded. reflexivity.
Defined.
